(** * Storage backend: file/folder hierarchy, uploads, trash and path recovery

    A shallow embedding of the route handlers of [backend/routes/files.js]
    together with the [Activity] model they log to.  The Mongo collections are
    lists of documents in natural (insertion) order, the upload directory is a
    two-level tree, and every handler is a function from the world before the
    request to a response and the world after it.  The notification helper of
    [backend/utils/notificationHelper.js] is embedded as functions over the
    collections it reads and writes. *)

From Stdlib Require Import List String Ascii ZArith Lia Bool Arith PeanoNat.
From Stdlib Require Import Hexadecimal HexadecimalNat HexadecimalString.
From Stdlib Require Import Sorting.Sorted Sorting.Permutation.
Import ListNotations.
Open Scope string_scope.
Open Scope Z_scope.

Set Implicit Arguments.

(* ------------------------------------------------------------------------- *)
(** ** JavaScript and Node string helpers *)

(** A [string] stands for a JavaScript string whose UTF-16 code units all lie
    below 256 (the Latin-1 range): one character is one code unit, so lengths
    and positions are those JavaScript counts.  Strings with code units from
    256 on have no counterpart here. *)

Module Js.

(** The lower-case mapping of one code unit below 256: the letters [A]-[Z]
    (65-90) and the capital letters of the Latin-1 supplement (192-222 without
    the multiplication sign 215) move up by 32; every other code unit,
    the sharp s (223), the micro sign (181) and the y with diaeresis (255)
    among them, stays. *)
Definition lowerChar (c : ascii) : ascii :=
  let n := nat_of_ascii c in
  if (Nat.leb 65 n && Nat.leb n 90
      || Nat.leb 192 n && Nat.leb n 222 && negb (Nat.eqb n 215))%bool
  then ascii_of_nat (n + 32) else c.

(** [String.prototype.toLowerCase] *)
Fixpoint toLowerCase (s : string) : string :=
  match s with
  | EmptyString => EmptyString
  | String c r => String (lowerChar c) (toLowerCase r)
  end.

(** [s.startsWith(p)] *)
Definition startsWith (s p : string) : bool := String.prefix p s.

(** [s.includes(t)] *)
Fixpoint includes (s t : string) : bool :=
  match s with
  | EmptyString => String.prefix t EmptyString
  | String _ r => String.prefix t s || includes r t
  end.

(** [s.split(sep)] for a one-character separator: never the empty list. *)
Fixpoint split (sep : ascii) (s : string) : list string :=
  match s with
  | EmptyString => [EmptyString]
  | String c r =>
      if Ascii.eqb c sep then EmptyString :: split sep r
      else match split sep r with
           | [] => [String c EmptyString]
           | h :: t => String c h :: t
           end
  end.

(** Truthiness of a string: only [""] is falsy. *)
Definition truthy (s : string) : bool := negb (String.eqb s "").

(** Position of the last occurrence of [c] in [s], counted from 0. *)
Fixpoint lastIndexOf (c : ascii) (s : string) : option nat :=
  match s with
  | EmptyString => None
  | String d r =>
      match lastIndexOf c r with
      | Some i => Some (S i)
      | None => if Ascii.eqb d c then Some O else None
      end
  end.

Definition drop (n : nat) (s : string) : string :=
  String.substring n (String.length s - n) s.

(** Last portion of a path (after the last ["/"]). *)
Definition lastPortion (p : string) : string :=
  match lastIndexOf "/"%char p with
  | Some i => drop (S i) p
  | None => p
  end.

(** [path.extname]: from the last ["."] of the last portion to its end; empty
    when there is no dot or the only dot is the first character. *)
Definition extname (p : string) : string :=
  let b := lastPortion p in
  if String.eqb b ".." then ""
  else match lastIndexOf "."%char b with
       | None | Some O => ""
       | Some i => drop i b
       end.

Definition endsWith (s suffix : string) : bool :=
  (Nat.leb (String.length suffix) (String.length s) &&
   String.eqb (drop (String.length s - String.length suffix) s) suffix)%bool.

(** [path.basename(p, ext)] *)
Definition basename (p ext : string) : string :=
  let b := lastPortion p in
  if (truthy ext && endsWith b ext)%bool
  then String.substring 0 (String.length b - String.length ext) b
  else b.

End Js.

(* ------------------------------------------------------------------------- *)
(** ** Documents *)

(** A Mongo [ObjectId], as the number its twelve bytes spell.  A route that
    only looks a request id up is given the id the text of the request casts
    to; the move route, which also compares the texts, is given the texts. *)
Definition ObjectId := nat.
Bind Scope nat_scope with ObjectId.

Fixpoint zeros (n : nat) : string :=
  match n with
  | O => EmptyString
  | S k => String "0"%char (zeros k)
  end.

(** [s.padStart(width, '0')] *)
Definition padStart (width : nat) (s : string) : string :=
  zeros (width - String.length s) ++ s.

(** [id.toString()]: the 24 hexadecimal digits of the id, letters in lower
    case. *)
Definition idString (i : ObjectId) : string :=
  padStart 24 (NilEmpty.string_of_uint (Nat.to_hex_uint i)).
Arguments idString : simpl never.

(** What Mongoose makes of a request text where a query or a document
    expects an [ObjectId]: 24 hexadecimal digits, upper or lower case, are
    read as the id they spell; any other text is a [CastError].  (Drivers
    that also read a 12-character text as an id differ on such texts only;
    no statement below is about them.) *)
Definition castObjectId (s : string) : option ObjectId :=
  if Nat.eqb (String.length s) 24
  then option_map Nat.of_hex_uint (NilEmpty.uint_of_string (Js.toLowerCase s))
  else None.

Definition optEqb (a b : option ObjectId) : bool :=
  match a, b with
  | None, None => true
  | Some x, Some y => Nat.eqb x y
  | _, _ => false
  end.

Definition optStrEqb (a b : option string) : bool :=
  match a, b with
  | None, None => true
  | Some x, Some y => String.eqb x y
  | _, _ => false
  end.

(** A content-store key.  Every path the routes build is
    [path.join(uploads, account, entry)]; a recorded path may also point
    anywhere else. *)
Inductive FsPath :=
| InArea (account entry : string)
| Elsewhere (p : string).

(** A document of the [File] collection (a file or a folder).  Of an entry
    [{ user, permission, sharedAt }] of [sharedWith] the record keeps the
    [user]: an id, or [null] where the entry was written back without
    one. *)
Record File := mkFile {
  _id : ObjectId;
  userId : ObjectId;
  name : string;
  originalName : option string;
  type : string;
  size : Z;
  path : option FsPath;
  parentFolder : option ObjectId;
  isFolder : bool;
  inTrash : bool;
  deletedAt : option Z;
  permanentDeleteAt : option Z;
  isPublic : bool;
  publicUrl : option string;
  sharedWith : list (option ObjectId);
  createdAt : Z;
  updatedAt : Z
}.

(** A document of the [StorageStats] collection. *)
Record StorageStats := mkStats {
  statsUser : ObjectId;
  usedStorage : Z;
  totalFiles : Z;
  totalFolders : Z;
  fileTypeBreakdown : list (string * Z)
}.

(** What [Activity.logActivity] is given (the [details] map is write-only and
    left out). *)
Record Activity := mkActivity {
  activityType : string;
  activityFileId : option ObjectId;
  activityFileName : string;
  activityUserId : option ObjectId
}.

(* ------------------------------------------------------------------------- *)
(** ** The upload directory *)

(** What [fs.statSync] says of a directory entry. *)
Inductive Stat :=
| RegularFile (bytes : Z)
| NotAFile
| Unreadable.

(** An entry of the uploads root: a per-account directory with its listing
    in [readdirSync] order, or something that is not a directory. *)
Inductive Area :=
| AreaDir (entries : list (string * Stat))
| AreaOther.

(** [None]: the uploads root itself does not exist. *)
Definition Disk := option (list (string * Area)).

(* ------------------------------------------------------------------------- *)
(** ** The world and the handler monad *)

(** What the routes act on: the two collections, the activity log, the
    uploads directory, the next [ObjectId] the driver hands out, and the time
    the clock shows when the route that is served reads it. *)
Record World := mkWorld {
  files : list File;
  storageStats : list StorageStats;
  activities : list Activity;
  disk : Disk;
  nextId : ObjectId;
  clock : Z
}.

(** A computation either returns or throws; the world is threaded through
    both outcomes (what was written before a throw stays written). *)
Inductive Result (A : Type) :=
| Ok (a : A)
| Throw.
Arguments Throw {A}.

Definition M (A : Type) := World -> Result A * World.

Definition ret {A} (a : A) : M A := fun w => (Ok a, w).
Definition throw {A} : M A := fun w => (Throw, w).
Definition bind {A B} (c : M A) (k : A -> M B) : M B :=
  fun w => match c w with
           | (Ok a, w') => k a w'
           | (Throw, w') => (Throw, w')
           end.
Definition gets {A} (f : World -> A) : M A := fun w => (Ok (f w), w).
Definition modify (f : World -> World) : M unit := fun w => (Ok tt, f w).

(** [try { body } catch (e) { handler }] *)
Definition tryCatch {A} (body handler : M A) : M A :=
  fun w => match body w with
           | (Ok a, w') => (Ok a, w')
           | (Throw, w') => handler w'
           end.

Declare Scope handler_scope.
Delimit Scope handler_scope with handler.
Notation "x <- c ;; k" := (bind c (fun x => k))
  (at level 61, c at next level, right associativity) : handler_scope.
Notation "c ;; k" := (bind c (fun _ => k))
  (at level 61, right associativity) : handler_scope.
Open Scope handler_scope.

(** [for (const x of xs) body(x)] *)
Fixpoint forEach {A} (xs : list A) (body : A -> M unit) : M unit :=
  match xs with
  | [] => ret tt
  | x :: r => body x ;; forEach r body
  end.

Definition setFiles (fs : list File) (w : World) : World :=
  mkWorld fs (storageStats w) (activities w) (disk w) (nextId w) (clock w).
Definition setStats (ss : list StorageStats) (w : World) : World :=
  mkWorld (files w) ss (activities w) (disk w) (nextId w) (clock w).
Definition setActivities (acts : list Activity) (w : World) : World :=
  mkWorld (files w) (storageStats w) acts (disk w) (nextId w) (clock w).
Definition setDisk (d : Disk) (w : World) : World :=
  mkWorld (files w) (storageStats w) (activities w) d (nextId w) (clock w).
Definition setNextId (n : ObjectId) (w : World) : World :=
  mkWorld (files w) (storageStats w) (activities w) (disk w) n (clock w).

(* ------------------------------------------------------------------------- *)
(** ** The [File] collection *)

(** [File.findOne(query)]: the first document, in natural order, that
    satisfies the query. *)
Definition findOne (q : File -> bool) : M (option File) :=
  gets (fun w => find q (files w)).

Definition hasId (i : ObjectId) (f : File) : bool := Nat.eqb (_id f) i.

(** Mongo keeps [_id] unique within a collection, so writing a document
    back touches the one document that carries its id. *)
Definition replaceDoc (f : File) (fs : list File) : list File :=
  map (fun g => if hasId (_id f) g then f else g) fs.

(** [doc.save()]: writes the document back under its [_id], or inserts it
    at the end of the collection when it is new. *)
Definition save (f : File) : M unit :=
  modify (fun w =>
    if existsb (hasId (_id f)) (files w)
    then setFiles (replaceDoc f (files w)) w
    else setFiles (files w ++ [f]) w).

(** [File.updateOne({ _id }, { $set: { path } })] *)
Definition setPath (f : File) (p : option FsPath) : File :=
  mkFile (_id f) (userId f) (name f) (originalName f) (type f) (size f) p
         (parentFolder f) (isFolder f) (inTrash f) (deletedAt f)
         (permanentDeleteAt f) (isPublic f) (publicUrl f) (sharedWith f)
         (createdAt f) (updatedAt f).

Definition updateOnePath (i : ObjectId) (p : FsPath) : M unit :=
  modify (fun w =>
    setFiles (map (fun g => if hasId i g then setPath g (Some p) else g) (files w)) w).

(** Modelled from the spec: the schema of [models/File.js] is not among the
    sources.  [new File({...})] receives a fresh [_id]; the fields a route does
    not pass take the values section 3 of the specification gives a node that
    was just created: not in trash, no deletion dates, no public link, shared
    with nobody, both timestamps at the time of creation. *)
Definition newFile (nm : string) (orig : option string) (ty : string)
    (sz : Z) (p : option FsPath) (owner : ObjectId)
    (parent : option ObjectId) (folder : bool) : M File :=
  fun w =>
    (Ok (mkFile (nextId w) owner nm orig ty sz p parent folder
                false None None false None [] (clock w) (clock w)),
     setNextId (S (nextId w)) w).

(* ------------------------------------------------------------------------- *)
(** ** The [Activity] model *)

Definition activityTypes : list string :=
  ["upload"; "download"; "view"; "share"; "rename"; "move"; "delete";
   "restore"; "create_folder"; "share_link"; "copy"; "permanent_delete";
   "empty_trash"; "download_public"].

(** Schema validation of an activity: [type] is required and one of the
    enumerated values, [fileName] is a required (hence non-empty) string,
    [userId] is required. *)
Definition validActivity (a : Activity) : bool :=
  (existsb (String.eqb (activityType a)) activityTypes
   && Js.truthy (activityFileName a)
   && match activityUserId a with Some _ => true | None => false end)%bool.

(** [Activity.logActivity]: saves the activity; a validation error is
    logged and thrown again. *)
Definition logActivity (a : Activity) : M unit :=
  if validActivity a
  then modify (fun w => setActivities (activities w ++ [a]) w)
  else throw.

(* ------------------------------------------------------------------------- *)
(** ** File-system calls *)

Definition areaOf (d : Disk) (account : string) : option Area :=
  match d with
  | None => None
  | Some areas => option_map snd (find (fun a => String.eqb (fst a) account) areas)
  end.

(** [fs.statSync(p)], [None] when there is nothing at [p].  Only the uploads
    root is modelled: a path that points elsewhere resolves to nothing. *)
Definition statOf (d : Disk) (p : FsPath) : option Stat :=
  match p with
  | InArea account entry =>
      match areaOf d account with
      | Some (AreaDir es) =>
          option_map snd (find (fun e => String.eqb (fst e) entry) es)
      | _ => None
      end
  | Elsewhere _ => None
  end.

(** [fs.existsSync(p)]: never throws. *)
Definition existsSyncAt (d : Disk) (p : option FsPath) : bool :=
  match p with
  | None => false
  | Some q => match statOf d q with
              | Some (RegularFile _) | Some NotAFile => true
              | _ => false
              end
  end.

Definition existsSync (p : option FsPath) : M bool :=
  gets (fun w => existsSyncAt (disk w) p).

Definition removeEntry (d : Disk) (account entry : string) : Disk :=
  option_map
    (map (fun a =>
       match a with
       | (u, AreaDir es) =>
           if String.eqb u account
           then (u, AreaDir (filter (fun e => negb (String.eqb (fst e) entry)) es))
           else a
       | _ => a
       end)) d.

(** [fs.unlinkSync(p)]: removes a regular file and throws on anything else. *)
Definition unlinkSync (p : FsPath) : M unit :=
  fun w =>
    match p, statOf (disk w) p with
    | InArea account entry, Some (RegularFile _) =>
        (Ok tt, setDisk (removeEntry (disk w) account entry) w)
    | _, _ => (Throw, w)
    end.

(* ------------------------------------------------------------------------- *)
(** ** The [StorageStats] model *)

Definition counted (user : ObjectId) (f : File) : bool :=
  (Nat.eqb (userId f) user && negb (inTrash f))%bool.

Fixpoint addToBucket (ty : string) (n : Z) (b : list (string * Z)) : list (string * Z) :=
  match b with
  | [] => [(ty, n)]
  | (t, m) :: r => if String.eqb t ty then (t, m + n) :: r
                   else (t, m) :: addToBucket ty n r
  end.

Definition sumSizes (fs : list File) : Z :=
  fold_right (fun f acc => size f + acc) 0 fs.

(** Modelled from the spec: [models/StorageStats.js] is not among the sources.
    Section 4.4: the recomputation scans all non-trashed nodes owned by the
    account, sums [size] over files, counts files and folders separately and
    buckets byte totals by [type]. *)
Definition recompute (user : ObjectId) (fs : list File) : StorageStats :=
  let mine := filter (counted user) fs in
  let regular := filter (fun f => negb (isFolder f)) mine in
  mkStats user
          (sumSizes regular)
          (Z.of_nat (List.length regular))
          (Z.of_nat (List.length (filter isFolder mine)))
          (fold_left (fun b f => addToBucket (type f) (size f) b) regular []).

(** [StorageStats.findOne({ userId })] *)
Definition statsFindOne (user : ObjectId) : M (option StorageStats) :=
  gets (fun w => find (fun s => Nat.eqb (statsUser s) user) (storageStats w)).

(** Modelled from the spec: [StorageStats.updateUserStats(userId)] stores the
    recomputed record of the account, creating it when there is none, and
    returns it. *)
Definition updateUserStats (user : ObjectId) : M StorageStats :=
  fun w =>
    let s := recompute user (files w) in
    let others := filter (fun t => negb (Nat.eqb (statsUser t) user)) (storageStats w) in
    (Ok s, setStats (others ++ [s]) w).

(** The storage ceiling the upload routes compare against (15 GiB). *)
Definition quotaBytes : Z := 16106127360.

(* ------------------------------------------------------------------------- *)
(** ** Responses *)

Record FileInfo := mkInfo {
  infoId : ObjectId;
  infoName : string;
  infoType : string;
  infoSize : Z;
  infoUploadDate : Z;
  infoParentFolder : option ObjectId
}.

Definition infoOf (f : File) : FileInfo :=
  mkInfo (_id f) (name f) (type f) (size f) (createdAt f) (parentFolder f).

Inductive Response :=
| ErrorJson (status : nat) (error : string)
| MessageJson (status : nat) (message : string)
| FileJson (status : nat) (message : string) (file : FileInfo)
| FilesJson (status : nat) (files : list FileInfo) (totalSize : Z)
| Attachment (filename : option string) (content : option FsPath).

(** The error taxonomy of the specification, as the responses the routes
    send. *)
Definition SelfMoveError : Response :=
  ErrorJson 400 "Cannot move folder into itself".
Definition CycleError : Response :=
  ErrorJson 400 "Cannot move folder into its own subfolder".
Definition TargetNotFoundError : Response :=
  ErrorJson 404 "Target folder not found".
Definition NotFoundError : Response :=
  ErrorJson 404 "File not found".
Definition InvalidParentError : Response :=
  ErrorJson 400 "Parent folder not found or access denied".
Definition QuotaExceededError : Response :=
  ErrorJson 400 "Storage limit exceeded. Please upgrade your plan or free up space.".
Definition ContentMissingError : Response :=
  ErrorJson 404 "File found in DB but not on server (file not found on server)".

(** A route answers with whatever its body or its [catch] block sent. *)
Definition respond (body onError : M Response) (w : World) : Response * World :=
  match tryCatch body onError w with
  | (Ok r, w') => (r, w')
  | (Throw, w') => (ErrorJson 500 "Internal Server Error", w')
  end.

(** [try { fs.unlinkSync(p) } catch (e) { log }] *)
Definition tryUnlink (p : FsPath) : M unit := tryCatch (unlinkSync p) (ret tt).

(** [if (fs.existsSync(p)) fs.unlinkSync(p)] *)
Definition unlinkIfExists (p : FsPath) : M unit :=
  e <- existsSync (Some p) ;; if e then unlinkSync p else ret tt.

(* ------------------------------------------------------------------------- *)
(** ** Request fields *)

(** What multer hands to an upload route for one received file: the bytes are
    already on disk at [path] when the route body starts. *)
Module Multer.
Record file := mkUpload {
  originalname : string;
  mimetype : string;
  size : Z;
  filename : string;
  path : FsPath
}.

(** [limits.fileSize]: multer rejects a larger file before the route runs. *)
Definition fileSizeLimit : Z := 100 * 1024 * 1024.

(** [upload.array('files', 50)] *)
Definition maxCount : nat := 50.
End Multer.

Definition addEntry (d : Disk) (account entry : string) (st : Stat) : Disk :=
  let areas := match d with Some a => a | None => [] end in
  Some (if existsb (fun a => String.eqb (fst a) account) areas
        then map (fun a =>
               match a with
               | (u, AreaDir es) =>
                   if String.eqb u account then (u, AreaDir (es ++ [(entry, st)])%list) else a
               | _ => a
               end) areas
        else (areas ++ [(account, AreaDir [(entry, st)])])%list).

(** The [diskStorage] engine: the destination is the directory of the
    requesting account, created when missing, and the received bytes are
    written there under the generated [filename]. *)
Definition multerStore (user : ObjectId) (orig mime : string) (bytes : Z)
    (generated : string) (w : World) : Multer.file * World :=
  (Multer.mkUpload orig mime bytes generated (InArea (idString user) generated),
   setDisk (addEntry (disk w) (idString user) generated (RegularFile bytes)) w).

(** A body field that names a folder: missing, [""], ["root"], or a text
    that casts to the id [i]. *)
Inductive FolderField :=
| FieldMissing
| FieldEmpty
| FieldRoot
| FieldId (i : ObjectId).

(** The normalisation both upload routes apply to [parentFolder] and the
    copy route to [targetFolderId]: [""] and ["root"] become [null], and a
    missing field counts as [null]. *)
Definition normalizeParent (f : FolderField) : option ObjectId :=
  match f with
  | FieldId i => Some i
  | _ => None
  end.

(** The [filePaths] body field: missing, one string, or an array. *)
Inductive PathsField :=
| PathsMissing
| PathsString (s : string)
| PathsArray (l : list string).

(** [filePaths] when truthy, as [Array.isArray(filePaths) ? filePaths : [filePaths]] *)
Definition filePathArray (f : PathsField) : option (list string) :=
  match f with
  | PathsMissing => None
  | PathsString s => if Js.truthy s then Some [s] else None
  | PathsArray l => Some l
  end.

(* ------------------------------------------------------------------------- *)
(** ** Upload routes *)

Definition getFileTypeFromMime (mimeType : string) : string :=
  if Js.startsWith mimeType "image/" then "image"
  else if Js.startsWith mimeType "video/" then "video"
  else if Js.startsWith mimeType "audio/" then "audio"
  else if Js.includes mimeType "pdf" then "pdf"
  else if (Js.includes mimeType "zip" || Js.includes mimeType "rar"
           || Js.includes mimeType "tar" || Js.includes mimeType "7z")%bool then "archive"
  else if (Js.includes mimeType "text" || Js.includes mimeType "plain")%bool then "text"
  else if (Js.includes mimeType "javascript" || Js.includes mimeType "python"
           || Js.includes mimeType "java" || Js.includes mimeType "cpp"
           || Js.includes mimeType "html" || Js.includes mimeType "css")%bool then "code"
  else "document".

(** The query that validates a parent folder:
    [{ _id, userId, isFolder: true, inTrash: false }] *)
Definition isLiveFolderOf (user i : ObjectId) (f : File) : bool :=
  (hasId i f && Nat.eqb (userId f) user && isFolder f && negb (inTrash f))%bool.

(** The duplicate query:
    [{ userId, originalName, size, parentFolder, inTrash: false }] *)
Definition sameUpload (user : ObjectId) (orig : string) (sz : Z)
    (parent : option ObjectId) (f : File) : bool :=
  (Nat.eqb (userId f) user && optStrEqb (originalName f) (Some orig)
   && Z.eqb (size f) sz && optEqb (parentFolder f) parent
   && negb (inTrash f))%bool.

Definition uploadActivity (f : File) (orig : string) (user : ObjectId) : Activity :=
  mkActivity "upload" (Some (_id f)) orig (Some user).

(** Body of [router.post('/upload')] once [req.file] is known to be there. *)
Definition uploadBody (user : ObjectId) (file : Multer.file)
    (parentField : FolderField) : M Response :=
  let parentFolder := normalizeParent parentField in
  parentFolderDoc <- match parentFolder with
                     | Some p => findOne (isLiveFolderOf user p)
                     | None => ret None
                     end ;;
  match parentFolder, parentFolderDoc with
  | Some _, None =>
      unlinkSync (Multer.path file) ;;
      ret InvalidParentError
  | _, _ =>
      stats <- statsFindOne user ;;
      if match stats with
         | Some st => usedStorage st + Multer.size file >? quotaBytes
         | None => false
         end
      then
        unlinkSync (Multer.path file) ;;
        ret QuotaExceededError
      else
        let fileType := getFileTypeFromMime (Multer.mimetype file) in
        existingSame <- findOne (sameUpload user (Multer.originalname file)
                                            (Multer.size file) parentFolder) ;;
        match existingSame with
        | Some existing =>
            updateUserStats user ;;
            ret (FileJson 200 "File already exists, skipped duplicate" (infoOf existing))
        | None =>
            nf <- newFile (Multer.originalname file) (Some (Multer.originalname file))
                          fileType (Multer.size file) (Some (Multer.path file))
                          user parentFolder false ;;
            save nf ;;
            updateUserStats user ;;
            logActivity (uploadActivity nf (Multer.originalname file) user) ;;
            ret (FileJson 201 "File uploaded successfully" (infoOf nf))
        end
  end.

(** [router.post('/upload')] *)
Definition upload (user : ObjectId) (file : option Multer.file)
    (parentField : FolderField) : World -> Response * World :=
  match file with
  | None => respond (ret (ErrorJson 400 "No file uploaded")) throw
  | Some f =>
      respond (uploadBody user f parentField)
              (tryUnlink (Multer.path f) ;;
               ret (ErrorJson 500 "Server error while uploading file"))
  end.

(** The [folderMap] object of a folder upload: relative folder path to the
    id of the folder node.  It is a plain object: besides the keys the route
    sets, it answers for the keys every object inherits. *)
Definition FolderMap := list (string * ObjectId).

(** The property names a plain object inherits from [Object.prototype]. *)
Definition inheritedKeys : list string :=
  ["constructor"; "hasOwnProperty"; "isPrototypeOf"; "propertyIsEnumerable";
   "toLocaleString"; "toString"; "valueOf"; "__proto__";
   "__defineGetter__"; "__defineSetter__"; "__lookupGetter__"; "__lookupSetter__"].

(** What [folderMap[key]] holds: the id the route stored under the key, the
    function or object the map inherits under it (truthy, and no id), or
    [undefined]. *)
Inductive MapValue :=
| OwnId (i : ObjectId)
| Inherited
| Undefined.

Definition folderMapGet (m : FolderMap) (k : string) : MapValue :=
  match find (fun e => String.eqb (fst e) k) m with
  | Some e => OwnId (snd e)
  | None => if existsb (String.eqb k) inheritedKeys then Inherited else Undefined
  end.

Definition folderMapSet (m : FolderMap) (k : string) (v : ObjectId) : FolderMap :=
  (k, v) :: m.

(** The value of [currentParent] and of [fileParentFolder]: [null] or an id,
    or an inherited value taken from the map, which a query or a new document
    cannot cast to an id. *)
Inductive ParentValue :=
| ParentId (p : option ObjectId)
| NotAnId.

(** [currentPath += (currentPath ? '/' : '') + part] *)
Definition extendPath (currentPath part : string) : string :=
  currentPath ++ (if Js.truthy currentPath then "/" else "") ++ part.

(** The query that looks an intermediate folder up by name:
    [{ name, userId, parentFolder, isFolder: true, inTrash: false }] *)
Definition isFolderNamed (user : ObjectId) (nm : string)
    (parent : option ObjectId) (f : File) : bool :=
  (String.eqb (name f) nm && Nat.eqb (userId f) user
   && optEqb (parentFolder f) parent && isFolder f && negb (inTrash f))%bool.

(** The inner loop over the directory parts of one relative path
    ([pathParts] without its last element). *)
Fixpoint ensureFolders (user : ObjectId) (dirs : list string)
    (currentParent : ParentValue) (currentPath : string)
    (folderMap : FolderMap) : M FolderMap :=
  match dirs with
  | [] => ret folderMap
  | folderName :: rest =>
      let currentPath := extendPath currentPath folderName in
      match folderMapGet folderMap currentPath with
      | OwnId known =>
          ensureFolders user rest (ParentId (Some known)) currentPath folderMap
      | Inherited => ensureFolders user rest NotAnId currentPath folderMap
      | Undefined =>
          match currentParent with
          | NotAnId => throw
          | ParentId parent =>
              existingFolder <- findOne (isFolderNamed user folderName parent) ;;
              match existingFolder with
              | Some ex =>
                  ensureFolders user rest (ParentId (Some (_id ex))) currentPath
                                (folderMapSet folderMap currentPath (_id ex))
              | None =>
                  nf <- newFile folderName None "folder" 0 None user parent true ;;
                  save nf ;;
                  ensureFolders user rest (ParentId (Some (_id nf))) currentPath
                                (folderMapSet folderMap currentPath (_id nf))
              end
          end
      end
  end.

(** The outer loop: every relative path of the request, in order. *)
Fixpoint ensureAllFolders (user : ObjectId) (parentFolder : option ObjectId)
    (paths : list string) (folderMap : FolderMap) : M FolderMap :=
  match paths with
  | [] => ret folderMap
  | filePath :: rest =>
      m <- ensureFolders user (removelast (Js.split "/"%char filePath))
                         (ParentId parentFolder) "" folderMap ;;
      ensureAllFolders user parentFolder rest m
  end.

(** The parent of one file of a folder upload: what [folderMap] holds for
    the deepest prefix of its directory parts that it answers for, or the
    request's parent. *)
Fixpoint parentFromMap (folderMap : FolderMap) (dirs : list string)
    (currentPath : string) (fileParentFolder : ParentValue) : ParentValue :=
  match dirs with
  | [] => fileParentFolder
  | part :: rest =>
      let currentPath := extendPath currentPath part in
      match folderMapGet folderMap currentPath with
      | OwnId known => parentFromMap folderMap rest currentPath (ParentId (Some known))
      | Inherited => parentFromMap folderMap rest currentPath NotAnId
      | Undefined => parentFromMap folderMap rest currentPath fileParentFolder
      end
  end.

Definition skippedActivity (existing : File) (orig : string) (user : ObjectId) : Activity :=
  mkActivity "upload_skipped_duplicate" (Some (_id existing)) orig (Some user).

(** The loop over [req.files], from index [i] on.  A parent that is no id
    makes the duplicate query throw. *)
Fixpoint placeFiles (user : ObjectId) (parentFolder : option ObjectId)
    (folderPaths : option (list string)) (folderMap : FolderMap) (i : nat)
    (pending : list Multer.file) (uploadedFiles : list FileInfo) (totalSize : Z)
    : M (list FileInfo * Z) :=
  match pending with
  | [] => ret (uploadedFiles, totalSize)
  | file :: rest =>
      fileParent <-
        match folderPaths with
        | Some arr =>
            match nth_error arr i with
            | Some uploadFilePath =>
                ret (parentFromMap folderMap
                       (removelast (Js.split "/"%char uploadFilePath)) ""
                       (ParentId parentFolder))
            | None => throw
            end
        | None => ret (ParentId parentFolder)
        end ;;
      fileParentFolder <- match fileParent with
                          | ParentId p => ret p
                          | NotAnId => throw
                          end ;;
      let fileType := getFileTypeFromMime (Multer.mimetype file) in
      existingSame <- findOne (sameUpload user (Multer.originalname file)
                                          (Multer.size file) fileParentFolder) ;;
      match existingSame with
      | Some existing =>
          logActivity (skippedActivity existing (Multer.originalname file) user) ;;
          placeFiles user parentFolder folderPaths folderMap (S i) rest
                     (uploadedFiles ++ [infoOf existing]) totalSize
      | None =>
          nf <- newFile (Multer.originalname file) (Some (Multer.originalname file))
                        fileType (Multer.size file) (Some (Multer.path file))
                        user fileParentFolder false ;;
          save nf ;;
          logActivity (uploadActivity nf (Multer.originalname file) user) ;;
          placeFiles user parentFolder folderPaths folderMap (S i) rest
                     (uploadedFiles ++ [infoOf nf]) (totalSize + Multer.size file)
      end
  end.

(** Body of [router.post('/upload-multiple')] for a non-empty [req.files]. *)
Definition uploadMultipleBody (user : ObjectId) (reqFiles : list Multer.file)
    (parentField : FolderField) (isFolderFlag : bool) (filePaths : PathsField)
    : M Response :=
  let parentFolder := normalizeParent parentField in
  parentFolderDoc <- match parentFolder with
                     | Some p => findOne (isLiveFolderOf user p)
                     | None => ret None
                     end ;;
  match parentFolder, parentFolderDoc with
  | Some _, None =>
      forEach reqFiles (fun f => unlinkIfExists (Multer.path f)) ;;
      ret InvalidParentError
  | _, _ =>
      stats <- statsFindOne user ;;
      let currentUsed := match stats with Some st => usedStorage st | None => 0 end in
      let uploadSize := fold_left (fun sum f => sum + Multer.size f) reqFiles 0 in
      if currentUsed + uploadSize >? quotaBytes
      then
        forEach reqFiles (fun f => unlinkIfExists (Multer.path f)) ;;
        ret QuotaExceededError
      else
        let folderPaths := if isFolderFlag then filePathArray filePaths else None in
        folderMap <- match folderPaths with
                     | Some arr => ensureAllFolders user parentFolder arr []
                     | None => ret []
                     end ;;
        placed <- placeFiles user parentFolder folderPaths folderMap 0 reqFiles [] 0 ;;
        updateUserStats user ;;
        ret (FilesJson 201 (fst placed) (snd placed))
  end.

(** [router.post('/upload-multiple')] *)
Definition uploadMultiple (user : ObjectId) (reqFiles : list Multer.file)
    (parentField : FolderField) (isFolderFlag : bool) (filePaths : PathsField)
    : World -> Response * World :=
  match reqFiles with
  | [] => respond (ret (ErrorJson 400 "No files uploaded")) throw
  | _ =>
      respond (uploadMultipleBody user reqFiles parentField isFolderFlag filePaths)
              (forEach reqFiles (fun f => tryUnlink (Multer.path f)) ;;
               ret (ErrorJson 500 "Server error while uploading files"))
  end.

(* ------------------------------------------------------------------------- *)
(** ** Moving nodes *)

(** [checkIfSubfolder(parentFolderId, potentialSubfolderId)]: the [while]
    loop that walks [parentFolder] links upward.  [currentFolderId] is the id
    [File.findById] looks up and [potentialSubfolderId] the text
    [potentialSubfolderId.toString()] that the printed id of every folder on
    the way is compared with.  [fuel] counts the iterations the loop is
    given; [None] means it is still running when they are used up. *)
Fixpoint checkIfSubfolder (fuel : nat) (db : list File)
    (currentFolderId : option ObjectId) (potentialSubfolderId : string)
    : option bool :=
  match fuel with
  | O => None
  | S fuel' =>
      match currentFolderId with
      | None => Some false
      | Some current =>
          match find (hasId current) db with
          | None => Some false
          | Some folder =>
              if String.eqb (idString (_id folder)) potentialSubfolderId then Some true
              else checkIfSubfolder fuel' db (parentFolder folder) potentialSubfolderId
          end
      end
  end.

(** The one-character string holding a double quote. *)
Definition doubleQuote : string := String (ascii_of_nat 34) EmptyString.

(** A query on [_id] with a text of the request: the text is cast, and a
    text that is no id makes the query throw. *)
Definition castQuery (s : string) : M ObjectId :=
  match castObjectId s with
  | Some i => ret i
  | None => throw
  end.

(** The value of the variable [targetFolderId] once the request is decoded:
    [null]/[undefined], the text of the body, or the [ObjectId] object of the
    folder found by name. *)
Inductive TargetValue :=
| NoTarget
| TargetString (s : string)
| TargetObject (i : ObjectId).

(** The id the target query and the assignment to [parentFolder] make of the
    value. *)
Definition targetId (t : TargetValue) : M (option ObjectId) :=
  match t with
  | NoTarget => ret None
  | TargetString s => i <- castQuery s ;; ret (Some i)
  | TargetObject i => ret (Some i)
  end.

(** [fileId === targetFolderId]: [fileId] is the text of the URL, so only
    the same text is strictly equal to it. *)
Definition strictEqual (fileId : string) (t : TargetValue) : bool :=
  match t with
  | TargetString s => String.eqb fileId s
  | _ => false
  end.

Definition ownedBy (user i : ObjectId) (f : File) : bool :=
  (hasId i f && Nat.eqb (userId f) user)%bool.

(** The query of the move target: [{ _id, userId, isFolder: true }] *)
Definition isFolderOf (user i : ObjectId) (f : File) : bool :=
  (hasId i f && Nat.eqb (userId f) user && isFolder f)%bool.

(** The query of a target given by name:
    [{ name, userId, isFolder: true, inTrash: false }] *)
Definition isLiveFolderNamed (user : ObjectId) (nm : string) (f : File) : bool :=
  (String.eqb (name f) nm && Nat.eqb (userId f) user && isFolder f
   && negb (inTrash f))%bool.

Definition setParent (f : File) (parent : option ObjectId) (now : Z) : File :=
  mkFile (_id f) (userId f) (name f) (originalName f) (type f) (size f) (path f)
         parent (isFolder f) (inTrash f) (deletedAt f) (permanentDeleteAt f)
         (isPublic f) (publicUrl f) (sharedWith f) (createdAt f) now.

Definition moveActivity (f : File) (user : ObjectId) : Activity :=
  mkActivity "move" (Some (_id f)) (name f) (Some user).

Definition Moved : Response := MessageJson 200 "Moved successfully".

(** The part of the move route from the target checks on; [fileId] is the
    text of the URL.  The result is [None] when the subfolder walk does not
    come back within [fuel]. *)
Definition moveChecked (fuel : nat) (user : ObjectId) (fileId : string) (file : File)
    (target : TargetValue) : M (option Response) :=
  parent <- targetId target ;;
  verdict <-
    match parent with
    | Some t =>
        targetFolder <- findOne (isFolderOf user t) ;;
        match targetFolder with
        | None => ret (Some (Some TargetNotFoundError))
        | Some _ =>
            if (isFolder file && strictEqual fileId target)%bool
            then ret (Some (Some SelfMoveError))
            else if isFolder file
            then
              db <- gets files ;;
              match checkIfSubfolder fuel db (Some t) fileId with
              | None => ret None
              | Some true => ret (Some (Some CycleError))
              | Some false => ret (Some None)
              end
            else ret (Some None)
        end
    | None => ret (Some None)
    end ;;
  match verdict with
  | None => ret None
  | Some (Some refusal) => ret (Some refusal)
  | Some None =>
      now <- gets clock ;;
      let moved := setParent file parent now in
      save moved ;;
      logActivity (moveActivity moved user) ;;
      ret (Some Moved)
  end.

(** A body field is falsy when it is missing or the empty text. *)
Definition falsy (field : option string) : bool :=
  match field with
  | Some s => negb (Js.truthy s)
  | None => true
  end.

(** [if (targetFolderId === '' || targetFolderId === 'root') targetFolderId = null] *)
Definition targetField (targetFolderId : option string) : TargetValue :=
  match targetFolderId with
  | Some s => if (String.eqb s "" || String.eqb s "root")%bool then NoTarget
              else TargetString s
  | None => NoTarget
  end.

(** Body of [router.post('/:fileId/move')]: [fileId] is the text of the URL,
    [targetFolderId] and [targetFolderName] are the texts of the body, where
    they are there. *)
Definition moveBody (fuel : nat) (user : ObjectId) (fileId : string)
    (targetFolderId targetFolderName : option string)
    : M (option Response) :=
  i <- castQuery fileId ;;
  file <- findOne (ownedBy user i) ;;
  match file with
  | None => ret (Some NotFoundError)
  | Some file =>
      let byName :=
        match targetFolderName with
        | Some nm => if (Js.truthy nm && falsy targetFolderId)%bool then Some nm else None
        | None => None
        end in
      match byName with
      | Some nm =>
          targetFolder <- findOne (isLiveFolderNamed user nm) ;;
          match targetFolder with
          | Some tf => moveChecked fuel user fileId file (TargetObject (_id tf))
          | None => ret (Some (ErrorJson 404 ("Folder " ++ doubleQuote ++ nm ++ doubleQuote
                                               ++ " not found")))
          end
      | None => moveChecked fuel user fileId file (targetField targetFolderId)
      end
  end.

(** [router.post('/:fileId/move')]: [None] when the route never answers. *)
Definition move (fuel : nat) (user : ObjectId) (fileId : string)
    (targetFolderId targetFolderName : option string)
    (w : World) : option (Response * World) :=
  match tryCatch (moveBody fuel user fileId targetFolderId targetFolderName)
                 (ret (Some (ErrorJson 500 "Server error while moving file"))) w with
  | (Ok (Some r), w') => Some (r, w')
  | _ => None
  end.

(* ------------------------------------------------------------------------- *)
(** ** Trash and restore *)

Definition retentionMillis : Z := 30 * 24 * 60 * 60 * 1000.

Definition setTrash (f : File) (trashed : bool) (deleted permanent : option Z) : File :=
  mkFile (_id f) (userId f) (name f) (originalName f) (type f) (size f) (path f)
         (parentFolder f) (isFolder f) trashed deleted permanent
         (isPublic f) (publicUrl f) (sharedWith f) (createdAt f) (updatedAt f).

(** [router.post('/:fileId/trash')].  The route reads the clock twice, with
    [new Date()] for [deletedAt] and with [Date.now()] for
    [permanentDeleteAt]; [elapsed] is the number of milliseconds the clock
    has advanced by the second reading. *)
Definition trash (elapsed : Z) (user fileId : ObjectId) : World -> Response * World :=
  respond
    (file <- findOne (ownedBy user fileId) ;;
     match file with
     | None => ret NotFoundError
     | Some file =>
         deleted <- gets clock ;;
         now <- gets (fun w => clock w + elapsed) ;;
         let trashed := setTrash file true (Some deleted) (Some (now + retentionMillis)) in
         save trashed ;;
         updateUserStats user ;;
         logActivity (mkActivity "delete" (Some (_id trashed)) (name trashed) (Some user)) ;;
         ret (MessageJson 200 "Moved to trash")
     end)
    (ret (ErrorJson 500 "Server error while moving file to trash")).

(** [router.post('/:fileId/restore')] *)
Definition restore (user fileId : ObjectId) : World -> Response * World :=
  respond
    (file <- findOne (fun f => (ownedBy user fileId f && inTrash f)%bool) ;;
     match file with
     | None => ret (ErrorJson 404 "File not found in trash")
     | Some file =>
         let restored := setTrash file false None None in
         save restored ;;
         updateUserStats user ;;
         logActivity (mkActivity "restore" (Some (_id restored)) (name restored) (Some user)) ;;
         ret (MessageJson 200 "File restored successfully")
     end)
    (ret (ErrorJson 500 "Server error while restoring file")).

(* ------------------------------------------------------------------------- *)
(** ** Downloads and the fallback search *)

Definition isNone {A} (o : option A) : bool :=
  match o with None => true | Some _ => false end.

(** [baseName && candidateBase.toLowerCase().includes(baseName.toLowerCase())] *)
Definition nameMatches (baseName : option string) (entry : string) : bool :=
  match baseName with
  | Some b =>
      (Js.truthy b &&
       Js.includes (Js.toLowerCase (Js.basename entry (Js.extname entry)))
                   (Js.toLowerCase b))%bool
  | None => false
  end.

(** [file.size && stat.size === (file.size || 0)] *)
Definition sizeMatches (fileSize bytes : Z) : bool :=
  (negb (fileSize =? 0) && (bytes =? fileSize))%bool.

(** The loop over the entries of one directory, with the variable [found]
    it reads and writes; a [break] ends it with the candidate. *)
Fixpoint scanEntries (fileSize : Z) (baseName : option string) (account : string)
    (entries : list (string * Stat)) (found : option FsPath) : option FsPath :=
  match entries with
  | [] => found
  | (e, st) :: rest =>
      match st with
      | RegularFile bytes =>
          if (sizeMatches fileSize bytes && nameMatches baseName e)%bool
          then Some (InArea account e)
          else if ((fileSize =? 0) && nameMatches baseName e)%bool
          then Some (InArea account e)
          else if (isNone found && nameMatches baseName e)%bool
          then scanEntries fileSize baseName account rest (Some (InArea account e))
          else scanEntries fileSize baseName account rest found
      | NotAFile | Unreadable => scanEntries fileSize baseName account rest found
      end
  end.

(** The search of the owner's own directory. *)
Definition searchOwner (d : Disk) (fileSize : Z) (baseName : option string)
    (ownerId : string) : option FsPath :=
  match areaOf d ownerId with
  | Some (AreaDir entries) => scanEntries fileSize baseName ownerId entries None
  | _ => None
  end.

(** The loop over the directories of the uploads root; it is entered with
    [found] empty and stops after the first directory that sets it. *)
Fixpoint scanAreas (fileSize : Z) (baseName : option string)
    (areas : list (string * Area)) : option FsPath :=
  match areas with
  | [] => None
  | (u, AreaDir entries) :: rest =>
      match scanEntries fileSize baseName u entries None with
      | Some p => Some p
      | None => scanAreas fileSize baseName rest
      end
  | (_, AreaOther) :: rest => scanAreas fileSize baseName rest
  end.

Definition searchGlobal (d : Disk) (fileSize : Z) (baseName : option string)
    : option FsPath :=
  match d with
  | Some areas => scanAreas fileSize baseName areas
  | None => None
  end.

(** The whole fallback of the download route. *)
Definition findOnDisk (d : Disk) (file : File) : option FsPath :=
  let ownerId := idString (userId file) in
  let baseName :=
    match originalName file with
    | Some o => if Js.truthy o then Some (Js.basename o (Js.extname o)) else None
    | None => None
    end in
  match searchOwner d (size file) baseName ownerId with
  | Some p => Some p
  | None => searchGlobal d (size file) baseName
  end.

(** An entry of [sharedWith] whose [user] is the given account. *)
Definition isRecipient (user : ObjectId) (entry : option ObjectId) : bool :=
  match entry with
  | Some r => Nat.eqb r user
  | None => false
  end.

(** The query of a download: the id, and the requester owns the node or is
    the user of an entry of its [sharedWith]. *)
Definition canRead (user i : ObjectId) (f : File) : bool :=
  (hasId i f && (Nat.eqb (userId f) user || existsb (isRecipient user) (sharedWith f)))%bool.

(** [router.get('/:fileId/download')] *)
Definition download (user fileId : ObjectId) : World -> Response * World :=
  respond
    (file <- findOne (canRead user fileId) ;;
     match file with
     | None => ret (ErrorJson 404 "File not found or access denied")
     | Some file =>
         if isFolder file then ret (ErrorJson 400 "Cannot download folders")
         else
           present <- existsSync (path file) ;;
           located <-
             (if present then ret (Some (path file))
              else
                d <- gets disk ;;
                match findOnDisk d file with
                | Some found =>
                    updateOnePath (_id file) found ;;
                    ret (Some (Some found))
                | None => ret None
                end) ;;
           match located with
           | None => ret ContentMissingError
           | Some p =>
               logActivity (mkActivity "download" (Some (_id file)) (name file) (Some user)) ;;
               ret (Attachment (originalName file) p)
           end
     end)
    (ret (ErrorJson 500 "Server error while downloading file")).

(** [router.get('/public/:token')] *)
Definition publicDownload (token : string) : World -> Response * World :=
  respond
    (file <- findOne (fun f => (optStrEqb (publicUrl f) (Some token)
                                && negb (inTrash f))%bool) ;;
     match file with
     | None => ret NotFoundError
     | Some file =>
         if isFolder file then ret (ErrorJson 400 "Cannot download folders")
         else
           present <- existsSync (path file) ;;
           if negb present then ret (ErrorJson 404 "File not found on server")
           else
             logActivity (mkActivity "download_public" (Some (_id file)) (name file) None) ;;
             ret (Attachment (originalName file) (path file))
     end)
    (ret (ErrorJson 500 "Server error while downloading file")).

(* ------------------------------------------------------------------------- *)
(** ** Vocabulary of the statements *)

(** Walking [parentFolder] links upward from a start meets the node [x]. *)
Inductive Reaches (db : list File) (x : ObjectId) : option ObjectId -> Prop :=
| ReachesHere i f :
    find (hasId i) db = Some f -> _id f = x -> Reaches db x (Some i)
| ReachesUp i f :
    find (hasId i) db = Some f -> _id f <> x ->
    Reaches db x (parentFolder f) -> Reaches db x (Some i).

(** The walk ends at the root or at a link that resolves to nothing, without
    having met [x]. *)
Inductive Misses (db : list File) (x : ObjectId) : option ObjectId -> Prop :=
| MissesRoot : Misses db x None
| MissesDangling i :
    find (hasId i) db = None -> Misses db x (Some i)
| MissesUp i f :
    find (hasId i) db = Some f -> _id f <> x ->
    Misses db x (parentFolder f) -> Misses db x (Some i).

Create HintDb walk.
#[export] Hint Constructors Reaches Misses : walk.

(** What the [targetFolderId] of a move request stands for: the root when it
    is missing, [""] or ["root"], and else the id its text casts to. *)
Inductive Denotes : option string -> option ObjectId -> Prop :=
| DenotesRoot field : targetField field = NoTarget -> Denotes field None
| DenotesFolder s t : castObjectId s = Some t -> Denotes (Some s) (Some t).

(** The fields of a node that trashing and restoring leave alone. *)
Definition otherFields (f : File) :=
  (_id f, userId f, name f, originalName f, type f, size f, path f,
   parentFolder f, isFolder f, isPublic f, publicUrl f, sharedWith f,
   createdAt f, updatedAt f).

(** The world a successful move leaves: the moved document written back and
    the move recorded. *)
Definition afterMove (w : World) (moved : File) (user : ObjectId) : World :=
  setActivities (activities w ++ [moveActivity moved user])
                (setFiles (replaceDoc moved (files w)) w).

(** The record the ledger holds for an account. *)
Definition statsOf (user : ObjectId) (w : World) : option StorageStats :=
  find (fun s => Nat.eqb (statsUser s) user) (storageStats w).

(** The bytes a document adds to the used storage of an account. *)
Definition contribution (user : ObjectId) (f : File) : Z :=
  if (counted user f && negb (isFolder f))%bool then size f else 0.

(** The used storage the upload routes read: that of the account's record,
    and 0 for an account that has none. *)
Definition usedBy (user : ObjectId) (w : World) : Z :=
  match statsOf user w with
  | Some st => usedStorage st
  | None => 0
  end.

(** The parent folder of an upload passes the first check: none is named,
    or the one named is a folder of the requester out of the trash. *)
Inductive ParentAccepted (w : World) (user : ObjectId) : FolderField -> Prop :=
| ParentRoot field :
    normalizeParent field = None -> ParentAccepted w user field
| ParentLive p doc :
    find (isLiveFolderOf user p) (files w) = Some doc ->
    ParentAccepted w user (FieldId p).

(** Multer accepted the file and its bytes are on disk. *)
Definition stored (w : World) (f : Multer.file) : Prop :=
  statOf (disk w) (Multer.path f) = Some (RegularFile (Multer.size f))
  /\ 0 <= Multer.size f <= Multer.fileSizeLimit.

(** A request to either upload route. *)
Inductive UploadRequest :=
| Single (file : Multer.file)
| Batch (reqFiles : list Multer.file) (isFolderFlag : bool) (filePaths : PathsField).

Definition incoming (r : UploadRequest) : list Multer.file :=
  match r with
  | Single f => [f]
  | Batch fs _ _ => fs
  end.

Definition incomingSize (r : UploadRequest) : Z :=
  fold_right (fun f acc => Multer.size f + acc) 0 (incoming r).

Definition runUpload (user : ObjectId) (r : UploadRequest) (field : FolderField)
    : World -> Response * World :=
  match r with
  | Single f => upload user (Some f) field
  | Batch fs flag paths => uploadMultiple user fs field flag paths
  end.

(** A path that holds regular bytes or nothing. *)
Definition regularOrGone (d : Disk) (p : FsPath) : Prop :=
  statOf d p = None \/ exists bytes, statOf d p = Some (RegularFile bytes).

(** The document the single-file route creates. *)
Definition uploadedDoc (w : World) (user : ObjectId) (f : Multer.file)
    (field : FolderField) : File :=
  mkFile (nextId w) user (Multer.originalname f) (Some (Multer.originalname f))
         (getFileTypeFromMime (Multer.mimetype f)) (Multer.size f)
         (Some (Multer.path f)) (normalizeParent field) false
         false None None false None [] (clock w) (clock w).

(** No document carries an id at or above the counter: the ids [newFile]
    hands out are fresh. *)
Definition idsBelowCounter (w : World) : Prop :=
  forall f, In f (files w) -> (_id f < nextId w)%nat.













(** The ways a public-link request is turned down, with the answer each
    one gets: no node that is out of the trash carries the token, or the one
    node that carries it is a folder out of the trash. *)
Inductive PublicRefusal (w : World) (token : string) : Response -> Prop :=
| RefusedNoLiveNode :
    (forall g, In g (files w) -> publicUrl g = Some token -> inTrash g = true) ->
    PublicRefusal w token NotFoundError
| RefusedFolder f :
    In f (files w) -> publicUrl f = Some token ->
    (forall g, In g (files w) -> publicUrl g = Some token -> g = f) ->
    inTrash f = false -> isFolder f = true ->
    PublicRefusal w token (ErrorJson 400 "Cannot download folders").

Definition sendsBytes (r : Response) : bool :=
  match r with
  | Attachment _ _ => true
  | _ => false
  end.

(* ------------------------------------------------------------------------- *)
(** ** Concrete worlds *)

Module Scenario.

Definition alice : ObjectId := 7.

Definition folderDoc (i owner : ObjectId) (nm : string)
    (parent : option ObjectId) (trashed : bool) : File :=
  mkFile i owner nm None "folder" 0 None parent true trashed
         (if trashed then Some 500 else None)
         (if trashed then Some (500 + retentionMillis) else None)
         false None [] 0 0.

Definition fileDoc (i owner : ObjectId) (nm : string) (sz : Z)
    (p : FsPath) (parent : option ObjectId) : File :=
  mkFile i owner nm (Some nm) "document" sz (Some p) parent false false
         None None false None [] 0 0.

Definition withLink (token : string) (f : File) : File :=
  mkFile (_id f) (userId f) (name f) (originalName f) (type f) (size f) (path f)
         (parentFolder f) (isFolder f) (inTrash f) (deletedAt f)
         (permanentDeleteAt f) true (Some token) (sharedWith f)
         (createdAt f) (updatedAt f).

(** Alice's tree: X holds Y, Y holds Z; W sits at the root; T is a trashed
    folder; a.txt lies in X. *)
Definition X := folderDoc 1 alice "X" None false.
Definition Y := folderDoc 2 alice "Y" (Some 1%nat) false.
Definition Z := folderDoc 3 alice "Z" (Some 2%nat) false.
Definition W := folderDoc 4 alice "W" None false.
Definition T := folderDoc 5 alice "T" None true.
Definition aTxt := fileDoc 6 alice "a.txt" 500 (InArea "000000000000000000000007" "a-1700000000000-1.txt") (Some 1%nat).

Definition aliceArea : list (string * Stat) :=
  [("a-1700000000000-1.txt", RegularFile 500)].

Definition tree : World :=
  mkWorld [X; Y; Z; W; T; aTxt]
          [recompute alice [X; Y; Z; W; T; aTxt]]
          []
          (Some [("000000000000000000000007", AreaDir aliceArea)])
          7 1700000100000.

(** A new file b.txt arrives for the folder X, and then once more. *)
Definition freshUpload : Multer.file * World :=
  multerStore alice "b.txt" "text/plain" 700 "b-1700000100000-9.txt" tree.

Definition afterFresh : Response * World :=
  upload alice (Some (fst freshUpload)) (FieldId 1) (snd freshUpload).

Definition freshAgain : Multer.file * World :=
  multerStore alice "b.txt" "text/plain" 700 "b-1700000100002-4.txt" (snd afterFresh).

(** Two folders that name each other as parent. *)
Definition looped : list File :=
  [folderDoc 11 alice "P" (Some 12%nat) false;
   folderDoc 12 alice "Q" (Some 11%nat) false].

(** Two folders whose printed ids end in a letter: A (id 10, printed with a
    final [a]) holds B (id 11, printed with a final [b]). *)
Definition folderA := folderDoc 10 alice "A" None false.
Definition folderB := folderDoc 11 alice "B" (Some 10%nat) false.

Definition lettered : World :=
  mkWorld [folderA; folderB] [] [] None 12 1700000100000.

(** A second copy of a.txt arrives for the folder X. *)
Definition secondCopy : Multer.file * World :=
  multerStore alice "a.txt" "text/plain" 500 "a-1700000100000-2.txt" tree.

(** An account close to its ceiling: 153 files of 100 MiB. *)
Definition bulkDoc (k : nat) : File :=
  fileDoc (100 + k) alice ("bulk-" ++ idString k) Multer.fileSizeLimit
          (InArea "000000000000000000000007" ("bulk-" ++ idString k)) None.

Definition bulkFiles : list File := map bulkDoc (seq 0 153).

Definition nearlyFull : World :=
  mkWorld bulkFiles [recompute alice bulkFiles] []
          (Some [("000000000000000000000007", AreaDir (map (fun k => ("bulk-" ++ idString k,
                                               RegularFile Multer.fileSizeLimit))
                                    (seq 0 153)))])
          253 1700000100000.

Definition firstBig : Multer.file * World :=
  multerStore alice "big.iso" "application/octet-stream" 40000000
              "big-1700000100000-1.iso" nearlyFull.

Definition afterFirstBig : Response * World :=
  upload alice (Some (fst firstBig)) FieldRoot (snd firstBig).

Definition secondBig : Multer.file * World :=
  multerStore alice "big.iso" "application/octet-stream" 40000000
              "big-1700000100001-2.iso" (snd afterFirstBig).

Definition tooBig : Multer.file * World :=
  multerStore alice "huge.iso" "application/octet-stream" Multer.fileSizeLimit
              "huge-1700000100000-3.iso" nearlyFull.




(** Public links: one on a trashed file, one on a folder. *)
Definition linked : World :=
  mkWorld [withLink "tok-trashed"
             (setTrash (fileDoc 40 alice "old.txt" 5 (InArea "000000000000000000000007" "old-1.txt") None)
                       true (Some 500) (Some (500 + retentionMillis)));
           withLink "tok-folder" (folderDoc 41 alice "Shared" None false)]
          [] [] (Some [("000000000000000000000007", AreaDir [("old-1.txt", RegularFile 5)])])
          42 1700000100000.

End Scenario.

(* ------------------------------------------------------------------------- *)
(** ** More of the collection interface *)

(** [File.find(query)]: the matching documents in natural order. *)
Definition findMany (q : File -> bool) : M (list File) :=
  gets (fun w => filter q (files w)).

Fixpoint removeFirst (q : File -> bool) (fs : list File) : list File :=
  match fs with
  | [] => []
  | f :: r => if q f then r else f :: removeFirst q r
  end.

(** [File.findByIdAndDelete(id)]: removes the document that carries the id. *)
Definition findByIdAndDelete (i : ObjectId) : M unit :=
  modify (fun w => setFiles (removeFirst (hasId i) (files w)) w).

(** [File.deleteMany(query)] *)
Definition deleteMany (q : File -> bool) : M unit :=
  modify (fun w => setFiles (filter (fun f => negb (q f)) (files w)) w).

(** [if (fs.existsSync(file.path)) fs.unlinkSync(file.path)] on the path a
    document records, which is [null] for a folder. *)
Definition unlinkRecorded (p : option FsPath) : M unit :=
  present <- existsSync p ;;
  if present
  then match p with
       | Some q => unlinkSync q
       | None => ret tt
       end
  else ret tt.

(* ------------------------------------------------------------------------- *)
(** ** Answers that carry documents *)

(** The answers of the routes below.  Where the JSON lists fields of a
    document, the answer carries the document they are read from. *)
Inductive Answer :=
| Plain (r : Response)
| NodeJson (status : nat) (message : string) (node : File)
| LinkJson (publicLink : string)
| CountJson (message : string) (deletedCount : nat)
| ListJson (nodes : list File).

Definition answer (body onError : M Answer) (w : World) : Answer * World :=
  match tryCatch body onError w with
  | (Ok r, w') => (r, w')
  | (Throw, w') => (Plain (ErrorJson 500 "Internal Server Error"), w')
  end.

(* ------------------------------------------------------------------------- *)
(** ** Names *)

(** The code units below 256 that [String.prototype.trim] strips: tab, line
    feed, vertical tab, form feed, carriage return (9-13), space (32) and the
    no-break space (160).  The next line (133) is not among them. *)
Definition isWhiteSpace (c : ascii) : bool :=
  let n := nat_of_ascii c in
  ((9 <=? n)%nat && (n <=? 13)%nat || (n =? 32)%nat || (n =? 160)%nat)%bool.

Fixpoint trimStart (s : string) : string :=
  match s with
  | String c r => if isWhiteSpace c then trimStart r else s
  | EmptyString => EmptyString
  end.

Fixpoint trimEnd (s : string) : string :=
  match s with
  | String c r =>
      match trimEnd r with
      | EmptyString => if isWhiteSpace c then EmptyString else String c EmptyString
      | kept => String c kept
      end
  | EmptyString => EmptyString
  end.

(** [s.trim()] *)
Definition trim (s : string) : string := trimEnd (trimStart s).

(* ------------------------------------------------------------------------- *)
(** ** Folders, renaming and copies *)

(** [router.post('/folders')].  The body fields are [name] (a string, or
    missing) and [parentFolder] ([null] when missing, else an id). *)
Definition createFolder (user : ObjectId) (nameField : option string)
    (parentFolder : option ObjectId) : World -> Answer * World :=
  answer
    (match nameField with
     | None => ret (Plain (ErrorJson 400 "Folder name is required"))
     | Some nm =>
         if (negb (Js.truthy nm) || String.eqb (trim nm) "")%bool
         then ret (Plain (ErrorJson 400 "Folder name is required"))
         else
           existingFolder <- findOne (isFolderNamed user (trim nm) parentFolder) ;;
           match existingFolder with
           | Some _ =>
               ret (Plain (ErrorJson 400
                      "A folder with this name already exists in this location"))
           | None =>
               newFolder <- newFile (trim nm) None "folder" 0 None user parentFolder true ;;
               save newFolder ;;
               logActivity (mkActivity "create_folder" (Some (_id newFolder)) (trim nm)
                                       (Some user)) ;;
               ret (NodeJson 201 "Folder created successfully" newFolder)
           end
     end)
    (ret (Plain (ErrorJson 500 "Server error while creating folder"))).

Definition setName (f : File) (nm : string) (now : Z) : File :=
  mkFile (_id f) (userId f) nm (originalName f) (type f) (size f) (path f)
         (parentFolder f) (isFolder f) (inTrash f) (deletedAt f) (permanentDeleteAt f)
         (isPublic f) (publicUrl f) (sharedWith f) (createdAt f) now.

(** [router.patch('/:fileId/rename')] *)
Definition rename (user fileId : ObjectId) (nameField : option string)
    : World -> Answer * World :=
  answer
    (match nameField with
     | None => ret (Plain (ErrorJson 400 "New name is required"))
     | Some nm =>
         if (negb (Js.truthy nm) || String.eqb (trim nm) "")%bool
         then ret (Plain (ErrorJson 400 "New name is required"))
         else
           file <- findOne (ownedBy user fileId) ;;
           match file with
           | None => ret (Plain NotFoundError)
           | Some file =>
               now <- gets clock ;;
               let renamed := setName file (trim nm) now in
               save renamed ;;
               logActivity (mkActivity "rename" (Some (_id renamed)) (trim nm) (Some user)) ;;
               ret (NodeJson 200 "Renamed successfully" renamed)
           end
     end)
    (ret (Plain (ErrorJson 500 "Server error while renaming file"))).

(** [router.post('/:fileId/copy')] *)
Definition copy (user fileId : ObjectId) (targetFolderId : FolderField)
    : World -> Answer * World :=
  answer
    (originalFile <- findOne (ownedBy user fileId) ;;
     match originalFile with
     | None => ret (Plain NotFoundError)
     | Some originalFile =>
         let target := normalizeParent targetFolderId in
         targetFolder <- match target with
                         | Some t => findOne (isFolderOf user t)
                         | None => ret None
                         end ;;
         match target, targetFolder with
         | Some _, None => ret (Plain TargetNotFoundError)
         | _, _ =>
             fileCopy <- newFile (name originalFile ++ " (Copy)") (originalName originalFile)
                                 (type originalFile) (size originalFile) (path originalFile)
                                 user target (isFolder originalFile) ;;
             save fileCopy ;;
             logActivity (mkActivity "copy" (Some (_id fileCopy)) (name fileCopy)
                                     (Some user)) ;;
             ret (NodeJson 200 "Copied successfully" fileCopy)
         end
     end)
    (ret (Plain (ErrorJson 500 "Server error while copying file"))).

(* ------------------------------------------------------------------------- *)
(** ** Public links *)

Definition setLink (f : File) (public : bool) (url : option string) : File :=
  mkFile (_id f) (userId f) (name f) (originalName f) (type f) (size f) (path f)
         (parentFolder f) (isFolder f) (inTrash f) (deletedAt f) (permanentDeleteAt f)
         public url (sharedWith f) (createdAt f) (updatedAt f).

(** [`${base}/api/files/public/${token}`] *)
Definition publicLink (base token : string) : string :=
  base ++ "/api/files/public/" ++ token.

(** [router.post('/:fileId/share-link')].  [base] is the base URL the
    process is configured with and [token] the 32 hexadecimal digits
    [crypto.randomBytes(16)] yields when this request asks for them. *)
Definition shareLink (base token : string) (user fileId : ObjectId)
    : World -> Answer * World :=
  answer
    (file <- findOne (ownedBy user fileId) ;;
     match file with
     | None => ret (Plain NotFoundError)
     | Some file =>
         if isFolder file
         then ret (Plain (ErrorJson 400 "Cannot create public link for folders"))
         else
           let create :=
             (let linked := setLink file true (Some token) in
              save linked ;;
              logActivity (mkActivity "share_link" (Some (_id linked)) (name linked)
                                      (Some user)) ;;
              ret (LinkJson (publicLink base token))) in
           match publicUrl file with
           | Some url =>
               if (isPublic file && Js.truthy url)%bool
               then ret (LinkJson (publicLink base url))
               else create
           | None => create
           end
     end)
    (ret (Plain (ErrorJson 500 "Server error while creating share link"))).

(** [router.post('/:fileId/revoke-link')] *)
Definition revokeLink (user fileId : ObjectId) : World -> Response * World :=
  respond
    (file <- findOne (ownedBy user fileId) ;;
     match file with
     | None => ret NotFoundError
     | Some file =>
         let closed := setLink file false None in
         save closed ;;
         logActivity (mkActivity "share_link" (Some (_id closed)) (name closed)
                                 (Some user)) ;;
         ret (MessageJson 200 "Public link revoked")
     end)
    (ret (ErrorJson 500 "Server error while revoking share link")).

(* ------------------------------------------------------------------------- *)
(** ** Sharing with another account *)

(** The notification switches of an account; [None] is a switch that is
    not set. *)
Record Preferences := mkPreferences {
  sharedFiles : option bool;
  fileUpdates : option bool
}.

(** What the code reads of a document of the [User] collection. *)
Record User := mkUser {
  userKey : ObjectId;
  email : string;
  username : string;
  notifications : option Preferences
}.

Definition setSharedWith (f : File) (entries : list (option ObjectId)) : File :=
  mkFile (_id f) (userId f) (name f) (originalName f) (type f) (size f) (path f)
         (parentFolder f) (isFolder f) (inTrash f) (deletedAt f) (permanentDeleteAt f)
         (isPublic f) (publicUrl f) entries (createdAt f) (updatedAt f).

(** [sharedWith.some(share => share.user.toString() === id.toString())] on a
    document that is not populated: [None] when an entry without a user is
    met before a match, where [share.user.toString()] throws. *)
Fixpoint someSharedWith (target : ObjectId) (entries : list (option ObjectId))
    : option bool :=
  match entries with
  | [] => Some false
  | Some r :: rest => if Nat.eqb r target then Some true else someSharedWith target rest
  | None :: _ => None
  end.

(** [router.post('/:fileId/share')] over the accounts [users].  The schema
    of [email] has [lowercase] and [trim], and Mongoose runs these setters on
    the value of the query as well.  The request's [permission] is one the
    entry accepts. *)
Definition share (users : list User) (user fileId : ObjectId)
    (targetUserEmail : option string) : World -> Response * World :=
  respond
    (match targetUserEmail with
     | None => ret (ErrorJson 400 "Target user email is required")
     | Some address =>
         if negb (Js.truthy address)
         then ret (ErrorJson 400 "Target user email is required")
         else
           match find (fun u => String.eqb (email u) (trim (Js.toLowerCase address)))
                      users with
           | None => ret (ErrorJson 404 "User not found")
           | Some targetUser =>
               if Nat.eqb (userKey targetUser) user
               then ret (ErrorJson 400 "Cannot share file with yourself")
               else
                 file <- findOne (ownedBy user fileId) ;;
                 match file with
                 | None => ret NotFoundError
                 | Some file =>
                     match someSharedWith (userKey targetUser) (sharedWith file) with
                     | None => throw
                     | Some true => ret (ErrorJson 400 "File already shared with this user")
                     | Some false =>
                         let shared :=
                           setSharedWith file
                             (sharedWith file ++ [Some (userKey targetUser)])%list in
                         save shared ;;
                         logActivity (mkActivity "share" (Some (_id shared)) (name shared)
                                                 (Some user)) ;;
                         ret (MessageJson 200 ("File shared successfully with " ++ address))
                     end
                 end
           end
     end)
    (ret (ErrorJson 500 "Server error while sharing file")).

(** [populate('sharedWith.user', ...)]: the user of every entry is replaced
    by the account it refers to, and by [null] when there is no such
    account. *)
Definition populate (users : list User) (entries : list (option ObjectId))
    : list (option User) :=
  map (fun entry =>
         match entry with
         | Some r => find (fun u => Nat.eqb (userKey u) r) users
         | None => None
         end) entries.

(** What is stored of populated entries: the id of the account, and [null]
    for an entry that has none. *)
Definition depopulate (entries : list (option User)) : list (option ObjectId) :=
  map (option_map userKey) entries.

(** [arr.findIndex(p)]: [None] stands for -1. *)
Fixpoint findIndex {A} (p : A -> bool) (l : list A) : option nat :=
  match l with
  | [] => None
  | x :: rest => if p x then Some O else option_map S (findIndex p rest)
  end.

(** [arr.splice(i, 1)] *)
Definition splice1 {A} (i : nat) (l : list A) : list A :=
  (firstn i l ++ skipn (S i) l)%list.

(** [share.user && share.user._id.toString() === id.toString()] *)
Definition isAccount (user : ObjectId) (entry : option User) : bool :=
  match entry with
  | Some u => Nat.eqb (userKey u) user
  | None => false
  end.

(** [router.post('/:fileId/remove-share')] over the accounts [users].  The
    document is populated when it is read and saved as it then stands: an
    entry whose account was not found is written back without a user. *)
Definition removeShare (users : list User) (user fileId : ObjectId)
    : World -> Response * World :=
  respond
    (file <- findOne (hasId fileId) ;;
     match file with
     | None => ret NotFoundError
     | Some file =>
         let populated := populate users (sharedWith file) in
         match findIndex (isAccount user) populated with
         | None => ret (ErrorJson 403 "You are not a recipient of this file")
         | Some shareIndex =>
             let remaining :=
               setSharedWith file (depopulate (splice1 shareIndex populated)) in
             save remaining ;;
             logActivity (mkActivity "share" (Some (_id remaining)) (name remaining)
                                     (Some user)) ;;
             ret (MessageJson 200 "Removed shared file from your list")
         end
     end)
    (ret (ErrorJson 500 "Server error while removing shared entry")).

(* ------------------------------------------------------------------------- *)
(** ** Permanent removal *)

(** [router.delete('/:fileId')] *)
Definition permanentDelete (user fileId : ObjectId) : World -> Response * World :=
  respond
    (file <- findOne (ownedBy user fileId) ;;
     match file with
     | None => ret NotFoundError
     | Some file =>
         unlinkRecorded (path file) ;;
         findByIdAndDelete fileId ;;
         updateUserStats user ;;
         logActivity (mkActivity "permanent_delete" (Some fileId) (name file) (Some user)) ;;
         ret (MessageJson 200 "File permanently deleted")
     end)
    (ret (ErrorJson 500 "Server error while deleting file")).

(** The query [{ userId, inTrash: true }] *)
Definition trashedOf (user : ObjectId) (f : File) : bool :=
  (Nat.eqb (userId f) user && inTrash f)%bool.

(** [router.delete('/trash/empty')] *)
Definition emptyTrash (user : ObjectId) : World -> Answer * World :=
  answer
    (trashFiles <- findMany (trashedOf user) ;;
     forEach trashFiles (fun file => unlinkRecorded (path file)) ;;
     deleteMany (trashedOf user) ;;
     updateUserStats user ;;
     logActivity (mkActivity "empty_trash" None "Multiple Files" (Some user)) ;;
     ret (CountJson "Trash emptied successfully" (List.length trashFiles)))
    (ret (Plain (ErrorJson 500 "Server error while emptying trash"))).

(* ------------------------------------------------------------------------- *)
(** ** Listing a folder *)

(** The query [{ userId, inTrash: false, parentFolder }] *)
Definition inFolder (user : ObjectId) (parent : option ObjectId) (f : File) : bool :=
  (Nat.eqb (userId f) user && negb (inTrash f) && optEqb (parentFolder f) parent)%bool.

(** The order of [.sort({ isFolder: -1, name: 1 })]: folders first, then by
    name, strings compared character code by character code. *)
Definition listedBefore (f g : File) : bool :=
  if Bool.eqb (isFolder f) (isFolder g)
  then String.leb (name f) (name g)
  else isFolder f.

Fixpoint insertListed (f : File) (l : list File) : list File :=
  match l with
  | [] => [f]
  | g :: r => if listedBefore f g then f :: l else g :: insertListed f r
  end.

(** The sort of the listing; documents equal on both keys keep their
    natural order. *)
Definition sortListing (l : list File) : list File :=
  fold_right insertListed [] l.

(** [router.get('/folders/:folderId')]; [None] stands for the parameter
    ['root']. *)
Definition folderContents (user : ObjectId) (folderId : option ObjectId)
    : World -> Answer * World :=
  answer
    (found <- findMany (inFolder user folderId) ;;
     ret (ListJson (sortListing found)))
    (ret (Plain (ErrorJson 500 "Server error while fetching folder contents"))).

(* ------------------------------------------------------------------------- *)
(** ** Vocabulary of the further statements *)

(** A name made of white space only (or of nothing). *)
Definition blank (s : string) : bool :=
  forallb isWhiteSpace (list_ascii_of_string s).

(** No two folders out of the trash carry the same name under the same
    parent for the same account. *)
Definition uniqueFolderNames (fs : list File) : Prop :=
  forall f g, In f fs -> In g fs ->
    isFolder f = true -> isFolder g = true ->
    inTrash f = false -> inTrash g = false ->
    userId f = userId g -> parentFolder f = parentFolder g -> name f = name g ->
    _id f = _id g.

(** The document the create-folder route makes. *)
Definition createdFolder (w : World) (user : ObjectId) (nm : string)
    (parent : option ObjectId) : File :=
  mkFile (nextId w) user (trim nm) None "folder" 0 None parent true
         false None None false None [] (clock w) (clock w).

(** The document the copy route makes of [f]. *)
Definition copyOf (w : World) (user : ObjectId) (f : File)
    (target : option ObjectId) : File :=
  mkFile (nextId w) user (name f ++ " (Copy)") (originalName f) (type f) (size f)
         (path f) target (isFolder f)
         false None None false None [] (clock w) (clock w).

(** The world after a route appended the document [f] and logged [a]. *)
Definition afterInsert (w : World) (f : File) (a : Activity) : World :=
  setActivities (activities w ++ [a])
                (setFiles (files w ++ [f]) (setNextId (S (nextId w)) w)).

(** The world after a route wrote the document [f] back and logged [a]. *)
Definition afterWrite (w : World) (f : File) (a : Activity) : World :=
  setActivities (activities w ++ [a]) (setFiles (replaceDoc f (files w)) w).

(** The path a document records can be unlinked without an error: there is
    none, or it holds regular bytes or nothing. *)
Definition removable (d : Disk) (p : option FsPath) : Prop :=
  match p with
  | Some q => regularOrGone d q
  | None => True
  end.

(** [file.isPublic && file.publicUrl]: the node already has a public link. *)
Definition hasLink (f : File) : bool :=
  (isPublic f && match publicUrl f with Some u => Js.truthy u | None => false end)%bool.

(** The query of the public route: [{ publicUrl: token, inTrash: false }] *)
Definition carriesToken (token : string) (f : File) : bool :=
  (optStrEqb (publicUrl f) (Some token) && negb (inTrash f))%bool.

(** No folder carries a public token. *)
Definition foldersUnlinked (fs : list File) : Prop :=
  forall g, In g fs -> isFolder g = true -> publicUrl g = None.

(** The accounts a node is shared with: the users of its entries. *)
Fixpoint recipientsOf (entries : list (option ObjectId)) : list ObjectId :=
  match entries with
  | [] => []
  | Some r :: rest => r :: recipientsOf rest
  | None :: rest => recipientsOf rest
  end.

(** Every node is shared with distinct accounts, none of them its owner. *)
Definition recipientsDistinct (fs : list File) : Prop :=
  forall g, In g fs ->
    NoDup (recipientsOf (sharedWith g)) /\ ~ In (userId g) (recipientsOf (sharedWith g)).

(** The state the upload routes are shown to keep: fresh ids stay fresh and
    folder names stay unique. *)
Definition tidy (w : World) : Prop :=
  idsBelowCounter w /\ uniqueFolderNames (files w).

(** A computation that keeps the collection tidy, however it ends. *)
Definition keepsTidy {A} (c : M A) : Prop :=
  forall w r w', tidy w -> c w = (r, w') -> tidy w'.

(** A computation that writes no document and draws no id. *)
Definition leavesFiles {A} (c : M A) : Prop :=
  forall w r w', c w = (r, w') -> files w' = files w /\ nextId w' = nextId w.

(* ------------------------------------------------------------------------- *)
(** ** Checks that decide the invariants of a concrete collection *)

Definition idsBelowCounterb (w : World) : bool :=
  forallb (fun f => Nat.ltb (_id f) (nextId w)) (files w).

Fixpoint distinct (l : list ObjectId) : bool :=
  match l with
  | [] => true
  | x :: r => (negb (existsb (Nat.eqb x) r) && distinct r)%bool
  end.

Definition uniqueFolderNamesb (fs : list File) : bool :=
  forallb (fun f =>
    forallb (fun g =>
      implb (isFolder f && isFolder g && negb (inTrash f) && negb (inTrash g)
             && Nat.eqb (userId f) (userId g)
             && optEqb (parentFolder f) (parentFolder g)
             && String.eqb (name f) (name g))%bool
            (Nat.eqb (_id f) (_id g))) fs) fs.

Definition foldersUnlinkedb (fs : list File) : bool :=
  forallb (fun g => implb (isFolder g) (isNone (publicUrl g))) fs.

Definition recipientsDistinctb (fs : list File) : bool :=
  forallb (fun g => (distinct (recipientsOf (sharedWith g))
                     && negb (existsb (Nat.eqb (userId g))
                                      (recipientsOf (sharedWith g))))%bool) fs.

(* ------------------------------------------------------------------------- *)
(** ** More concrete worlds *)

Module Cases.

Definition bob : ObjectId := 8.

Definition carol : ObjectId := 9.

(** Bob keeps the default switches; Carol turned file updates off. *)
Definition people : list User :=
  [mkUser Scenario.alice "alice@example.org" "alice" None;
   mkUser bob "bob@example.org" "bob" (Some (mkPreferences (Some true) (Some true)));
   mkUser carol "carol@example.org" "carol"
          (Some (mkPreferences (Some true) (Some false)))].

Definition base : string := "http://localhost:3000".
Definition token : string := "9f86d081884c7d659a2feaa0c55ad015".
Definition laterToken : string := "60303ae22b998861bce3b28f33eec1be".

(** a.txt next to a trashed copy of it, which records the same path. *)
Definition aCopy : File :=
  mkFile 8 Scenario.alice "a.txt (Copy)" (Some "a.txt") "document" 500
         (Some (InArea "000000000000000000000007" "a-1700000000000-1.txt")) None false
         true (Some 1700000050000) (Some (1700000050000 + retentionMillis))
         false None [] 1700000040000 1700000040000.

Definition twins : World :=
  mkWorld [Scenario.aTxt; aCopy] [] []
          (Some [("000000000000000000000007", AreaDir Scenario.aliceArea)])
          9 1700000100000.

(** a.txt once Alice shared it with Bob and with Carol. *)
Definition sharedTxt : File := setSharedWith Scenario.aTxt [Some bob; Some carol].

(** b.txt was received twice for one batch. *)
Definition twice : Multer.file * World :=
  multerStore Scenario.alice "b.txt" "text/plain" 700 "b-1700000100000-10.txt"
              (snd Scenario.freshUpload).

End Cases.

(* ------------------------------------------------------------------------- *)
(** ** Notifications *)

(** [utils/notificationHelper.js] over the [Notification] model.  The helper
    works on three collections, which it is given here: the accounts, the
    [File] documents and the notifications, the last in insertion order. *)

(** What [createNotification] stores (time stamps and the free-form
    [metadata] left out). *)
Record Notification := mkNotification {
  notifiedUser : ObjectId;
  notificationType : string;
  title : string;
  message : string;
  relatedFile : option ObjectId;
  relatedUser : option ObjectId;
  isRead : bool
}.

Definition notificationTypes : list string :=
  ["file_shared"; "file_updated"; "file_edited"; "file_moved"; "file_renamed";
   "file_uploaded"; "file_deleted"].

(** Schema validation of a notification: [type] is one of the enumerated
    values, [title] and [message] are required (hence non-empty) strings. *)
Definition validNotification (n : Notification) : bool :=
  (existsb (String.eqb (notificationType n)) notificationTypes
   && Js.truthy (title n) && Js.truthy (message n))%bool.

(** [createNotification]: saves the notification; [None] when saving throws,
    which the function passes on. *)
Definition createNotification (n : Notification) (inbox : list Notification)
    : option (list Notification) :=
  if validNotification n then Some (inbox ++ [n])%list else None.

(** A value as a template literal prints it. *)
Definition interpolate (v : option string) : string :=
  match v with
  | Some s => s
  | None => "undefined"
  end.

Definition quoted (s : string) : string := doubleQuote ++ s ++ doubleQuote.

(** [notificationTemplates[operation]] (own keys), each template as a
    function of the three arguments the one call site passes; a template with
    fewer parameters ignores the others. *)
Definition notificationTemplates (operation : string)
    : option (string -> string -> option string -> string * string) :=
  if String.eqb operation "file_shared" then
    Some (fun sharerName fileName _ =>
            ("File Shared with You",
             sharerName ++ " shared " ++ quoted fileName ++ " with you"))
  else if String.eqb operation "file_updated" then
    Some (fun updaterName fileName _ =>
            ("File Updated", updaterName ++ " updated " ++ quoted fileName))
  else if String.eqb operation "file_renamed" then
    Some (fun renamerName oldName newName =>
            ("File Renamed",
             renamerName ++ " renamed " ++ quoted oldName ++ " to "
             ++ quoted (interpolate newName)))
  else if String.eqb operation "file_moved" then
    Some (fun moverName fileName _ =>
            ("File Moved", moverName ++ " moved " ++ quoted fileName))
  else if String.eqb operation "file_uploaded" then
    Some (fun fileName _ _ =>
            ("File Uploaded", quoted fileName ++ " has been uploaded successfully"))
  else if String.eqb operation "file_deleted" then
    Some (fun fileName _ _ =>
            ("File Deleted", quoted fileName ++ " has been moved to trash"))
  else None.

(** [users.add(id)] on a [Set] kept in insertion order. *)
Definition addUser (u : ObjectId) (set : list ObjectId) : list ObjectId :=
  if existsb (Nat.eqb u) set then set else (set ++ [u])%list.

(** [getFileAccessUsers]: the owner, then the accounts of the populated
    entries ([share.user && share.user._id]), each once. *)
Definition getFileAccessUsers (users : list User) (db : list File) (fileId : ObjectId)
    : list ObjectId :=
  match find (hasId fileId) db with
  | None => []
  | Some file =>
      fold_left (fun set share =>
                   match share with
                   | Some account => addUser (userKey account) set
                   | None => set
                   end)
                (populate users (sharedWith file)) [userId file]
  end.

(** [value !== false] *)
Definition notFalse (v : option bool) : bool :=
  match v with
  | Some false => false
  | _ => true
  end.

(** [shouldSendNotification] *)
Definition shouldSendNotification (users : list User) (userId : ObjectId)
    (notificationType : string) : bool :=
  match find (fun u => Nat.eqb (userKey u) userId) users with
  | None => false
  | Some user =>
      match notifications user with
      | None => true
      | Some prefs =>
          if String.eqb notificationType "file_shared" then notFalse (sharedFiles prefs)
          else if (String.eqb notificationType "file_updated"
                   || String.eqb notificationType "file_renamed"
                   || String.eqb notificationType "file_moved")%bool
          then notFalse (fileUpdates prefs)
          else true
      end
  end.

(** The loop of [notifyFileOperation] over the accounts to notify; a
    [createNotification] that throws ends it. *)
Fixpoint notifyEach (users : list User) (operation title message : string)
    (file : File) (user : User) (usersToNotify : list ObjectId)
    (inbox : list Notification) : list Notification :=
  match usersToNotify with
  | [] => inbox
  | targetUser :: rest =>
      if Nat.eqb targetUser (userKey user)
      then notifyEach users operation title message file user rest inbox
      else if negb (shouldSendNotification users targetUser operation)
      then notifyEach users operation title message file user rest inbox
      else
        match createNotification
                (mkNotification targetUser operation title message
                                (Some (_id file)) (Some (userKey user)) false)
                inbox with
        | Some inbox' => notifyEach users operation title message file user rest inbox'
        | None => inbox
        end
  end.

(** [notifyFileOperation(operation, file, user, targetUsers, additionalData)],
    of whose last argument only [oldName] is read; errors are logged and
    swallowed. *)
Definition notifyFileOperation (users : list User) (db : list File)
    (operation : string) (file : File) (user : User) (targetUsers : list ObjectId)
    (oldName : option string) (inbox : list Notification) : list Notification :=
  match notificationTemplates operation with
  | None => inbox
  | Some template =>
      let (title, message) := template (username user) (name file) oldName in
      let usersToNotify :=
        match targetUsers with
        | [] => getFileAccessUsers users db (_id file)
        | _ => targetUsers
        end in
      notifyEach users operation title message file user usersToNotify inbox
  end.

(** The accounts a notification about [operation] by [actor] goes to, out of
    a list of candidates. *)
Definition reached (users : list User) (operation : string) (actor : ObjectId)
    (candidates : list ObjectId) : list ObjectId :=
  filter (fun u => (negb (Nat.eqb u actor)
                    && shouldSendNotification users u operation)%bool) candidates.

(* ------------------------------------------------------------------------- *)
(** ** Proof automation *)

(** Closes a goal whose premise equates an answer of the single-file route
    on one of its failure paths with a different answer. *)
Ltac fail_paths :=
  repeat match goal with
         | |- context [unlinkSync ?p ?w] =>
             destruct (unlinkSync p w) as [[[]|] ?]; cbn
         | |- context [tryUnlink ?p ?w] =>
             destruct (tryUnlink p w) as [[[]|] ?]; cbn
         end;
  discriminate.

(** Unfolds the plumbing of a route down to its queries. *)
Ltac open_route :=
  unfold respond, tryCatch, bind, findOne, statsFindOne, existsSync;
  unfold gets, ret.

(* ========================================================================= *)
(** * Properties *)

(** ** String helpers on examples *)

Example extname_keeps_case : Js.extname "report.final.TXT" = ".TXT".
Proof. reflexivity. Qed.

Example extname_of_dotfile : Js.extname ".bashrc" = "".
Proof. reflexivity. Qed.

Example basename_strips_extension :
  Js.basename "report-17.txt" (Js.extname "report-17.txt") = "report-17".
Proof. reflexivity. Qed.

Example split_relative_path :
  Js.split "/"%char "docs/a/b.txt" = ["docs"; "a"; "b.txt"].
Proof. reflexivity. Qed.

Example includes_ignoring_case :
  Js.includes (Js.toLowerCase "Report-17") (Js.toLowerCase "REPORT") = true.
Proof. reflexivity. Qed.

(** Lower case beyond the letters [A]-[Z]: the capital E with acute accent
    (201) becomes the small one (233); the multiplication sign (215) and the
    sharp s (223) stay. *)
Example lower_case_of_accented_letters :
  map (fun n => nat_of_ascii (Js.lowerChar (ascii_of_nat n))) [69; 201; 215; 222; 223; 255]%nat
  = [101; 233; 215; 254; 223; 255]%nat.
Proof. reflexivity. Qed.

Example name_match_ignores_case_of_accented_letters :
  nameMatches (Some ("R" ++ String (ascii_of_nat 201) "SUM" ++ String (ascii_of_nat 201) ""))
              ("r" ++ String (ascii_of_nat 233) "sum" ++ String (ascii_of_nat 233) "-17.pdf")
  = true.
Proof. reflexivity. Qed.

Example mime_classification :
  map getFileTypeFromMime ["image/png"; "application/pdf"; "application/zip";
                           "text/plain"; "application/javascript"; "application/msword"]
  = ["image"; "pdf"; "archive"; "text"; "code"; "document"].
Proof. reflexivity. Qed.

(** ** Queries *)

Lemma optStrEqb_eq (a b : option string) : optStrEqb a b = true <-> a = b.
Proof.
  destruct a as [x|], b as [y|]; cbn; try (split; congruence).
  rewrite String.eqb_eq. split; congruence.
Qed.

Lemma optEqb_eq (a b : option ObjectId) : optEqb a b = true <-> a = b.
Proof.
  destruct a as [x|], b as [y|]; cbn; try (split; congruence).
  rewrite Nat.eqb_eq. split; congruence.
Qed.

Lemma optEqb_refl (a : option ObjectId) : optEqb a a = true.
Proof. now apply optEqb_eq. Qed.

Lemma find_all_false {A} (q : A -> bool) (l : list A) :
  (forall x, In x l -> q x = false) -> find q l = None.
Proof.
  induction l as [|a l IH]; cbn; intros H; [reflexivity|].
  rewrite (H a (or_introl eq_refl)). apply IH. intros x Hx. apply H. now right.
Qed.

Lemma find_is_some {A} (q : A -> bool) (l : list A) (x : A) :
  In x l -> q x = true -> exists y, find q l = Some y.
Proof.
  induction l as [|a l IH]; cbn; intros Hin Hq; [contradiction|].
  destruct (q a) eqn:E; [now exists a|].
  destruct Hin as [->|Hin]; [congruence|]. now apply IH.
Qed.

Lemma find_app_left {A} (q : A -> bool) (l r : list A) (x : A) :
  find q l = Some x -> find q (l ++ r) = Some x.
Proof.
  induction l as [|a l IH]; cbn; [discriminate|].
  destruct (q a); [trivial|apply IH].
Qed.

Lemma find_app_right {A} (q : A -> bool) (l r : list A) :
  find q l = None -> find q (l ++ r) = find q r.
Proof.
  induction l as [|a l IH]; cbn; [reflexivity|].
  destruct (q a); [discriminate|apply IH].
Qed.

Lemma find_has_id (db : list File) (i : ObjectId) (f : File) :
  find (hasId i) db = Some f -> _id f = i.
Proof.
  intros H. apply find_some in H as [_ H]. now apply Nat.eqb_eq in H.
Qed.

(** ** Public links *)

(** C10. A public-link request whose token is carried by no node out of the
    trash (none at all, or only trashed ones) is answered 404 "File not
    found"; one whose token belongs to a folder is answered 400.  Either way
    the answer is a JSON error, never file bytes, and nothing changes; the
    token may well still be set on the trashed node. *)
Theorem public_download_refusals (token : string) (w : World) (r : Response) :
  PublicRefusal w token r ->
  publicDownload token w = (r, w) /\ sendsBytes r = false.
Proof.
  intros [Hall | f Hin Htok Huniq Hlive Hfolder];
    (split; [|reflexivity]);
    unfold publicDownload; open_route.
  - rewrite find_all_false; [reflexivity|].
    intros g Hg. destruct (optStrEqb (publicUrl g) (Some token)) eqn:E; [|reflexivity].
    apply optStrEqb_eq in E. now rewrite (Hall g Hg E).
  - destruct (find_is_some
                (fun g => (optStrEqb (publicUrl g) (Some token) && negb (inTrash g))%bool)
                (files w) f Hin) as [g Hfind].
    { rewrite Hlive. cbn. rewrite andb_true_r. now apply optStrEqb_eq. }
    rewrite Hfind. apply find_some in Hfind as [Hg Hq].
    apply andb_prop in Hq as [Hq _]. apply optStrEqb_eq in Hq.
    rewrite (Huniq g Hg Hq), Hfolder. reflexivity.
Qed.

Lemma public_download_refusals_witness :
  publicDownload "tok-trashed" Scenario.linked = (NotFoundError, Scenario.linked)
  /\ publicDownload "tok-none" Scenario.linked = (NotFoundError, Scenario.linked)
  /\ publicDownload "tok-folder" Scenario.linked
     = (ErrorJson 400 "Cannot download folders", Scenario.linked).
Proof.
  split; [|split].
  - apply public_download_refusals. apply RefusedNoLiveNode.
    intros g [<-|[<-|[]]]; cbn; intros E; [reflexivity|discriminate].
  - apply public_download_refusals. apply RefusedNoLiveNode.
    intros g [<-|[<-|[]]]; cbn; intros E; discriminate.
  - apply public_download_refusals.
    apply RefusedFolder with (f := Scenario.withLink "tok-folder"
                                     (Scenario.folderDoc 41 Scenario.alice "Shared" None false)).
    + cbn. right. left. reflexivity.
    + reflexivity.
    + intros g [<-|[<-|[]]]; cbn; intros E; [discriminate|reflexivity].
    + reflexivity.
    + reflexivity.
Defined.

(** Nothing is ever streamed by the public route: the activity it logs has
    no [userId], which the schema requires. *)
Lemma public_download_never_streams (token : string) (w : World) :
  sendsBytes (fst (publicDownload token w)) = false.
Proof.
  unfold publicDownload. open_route.
  destruct (find _ (files w)) as [f|]; [|reflexivity].
  destruct (isFolder f); [reflexivity|]. cbn.
  destruct (existsSyncAt (disk w) (path f)); cbn; [|reflexivity].
  unfold logActivity, validActivity. cbn.
  rewrite andb_false_r. reflexivity.
Qed.

(** ** Printed ids *)

Lemma uint_of_zeros (k : nat) (s : string) (d : Hexadecimal.uint) :
  NilEmpty.uint_of_string s = Some d ->
  exists d', NilEmpty.uint_of_string (zeros k ++ s) = Some d'
             /\ Nat.of_hex_uint d' = Nat.of_hex_uint d.
Proof.
  intros Hs. induction k as [|k (d' & Hd' & Hv)]; [now exists d|].
  exists (D0 d'). split; [|exact Hv].
  cbn [zeros append NilEmpty.uint_of_string]. now rewrite Hd'.
Qed.

(** Reading the digits of a printed id gives the id back. *)
Lemma idString_value (i : ObjectId) :
  option_map Nat.of_hex_uint (NilEmpty.uint_of_string (idString i)) = Some i.
Proof.
  unfold idString, padStart.
  destruct (@uint_of_zeros
              (24 - String.length (NilEmpty.string_of_uint (Nat.to_hex_uint i))) _ _
              (NilEmpty.usu (Nat.to_hex_uint i))) as (d' & Hd' & Hv).
  rewrite Hd'. cbn. now rewrite Hv, Unsigned.of_to.
Qed.

(** Two ids that print alike are the same id. *)
Lemma idString_inj (a b : ObjectId) : idString a = idString b -> a = b.
Proof.
  intros E. pose proof (idString_value a) as Ha. rewrite E, idString_value in Ha.
  congruence.
Qed.

Lemma idString_eqb (a b : ObjectId) :
  String.eqb (idString a) (idString b) = Nat.eqb a b.
Proof.
  destruct (Nat.eqb_spec a b) as [->|Hne].
  - apply String.eqb_refl.
  - apply String.eqb_neq. intros E. now apply Hne, idString_inj.
Qed.

(** A text that casts to an id is neither empty nor ["root"]. *)
Lemma cast_is_a_target (s : string) (i : ObjectId) :
  castObjectId s = Some i ->
  targetField (Some s) = TargetString s /\ falsy (Some s) = false.
Proof.
  unfold castObjectId, targetField, falsy, Js.truthy.
  destruct (Nat.eqb_spec (String.length s) 24) as [Hlen|]; [|discriminate].
  intros _.
  destruct (String.eqb_spec s "") as [->|_]; [discriminate|].
  destruct (String.eqb_spec s "root") as [->|_]; [discriminate|].
  split; reflexivity.
Qed.

Example ids_as_printed :
  idString 6 = "000000000000000000000006"
  /\ idString 171 = "0000000000000000000000ab"
  /\ castObjectId "0000000000000000000000ab" = Some 171%nat
  /\ castObjectId "0000000000000000000000AB" = Some 171%nat
  /\ castObjectId "root" = None
  /\ castObjectId "00000000000000000000000g" = None.
Proof. repeat split; reflexivity. Qed.

(** ** The subfolder walk *)

Section Walk.

Variable db : list File.
Variable x : ObjectId.

(** More iterations never change an answer. *)
Lemma checkIfSubfolder_more_fuel (n m : nat) (s : option ObjectId) (t : string) (b : bool) :
  checkIfSubfolder n db s t = Some b -> (n <= m)%nat ->
  checkIfSubfolder m db s t = Some b.
Proof.
  revert m s. induction n as [|n IH]; intros m s H Hle; [discriminate|].
  destruct m as [|m]; [lia|]. cbn in *.
  destruct s as [i|]; [|assumption].
  destruct (find (hasId i) db) as [f|]; [|assumption].
  destruct (String.eqb (idString (_id f)) t); [assumption|].
  apply IH; [assumption|lia].
Qed.

Lemma checkIfSubfolder_true_reaches (n : nat) (s : option ObjectId) :
  checkIfSubfolder n db s (idString x) = Some true -> Reaches db x s.
Proof.
  revert s. induction n as [|n IH]; intros s H; [discriminate|]. cbn in H.
  destruct s as [i|]; [|discriminate].
  destruct (find (hasId i) db) as [f|] eqn:Hf; [|discriminate].
  rewrite idString_eqb in H.
  destruct (Nat.eqb (_id f) x) eqn:E.
  - apply Nat.eqb_eq in E. eauto with walk.
  - apply Nat.eqb_neq in E. eauto with walk.
Qed.

Lemma checkIfSubfolder_false_misses (n : nat) (s : option ObjectId) :
  checkIfSubfolder n db s (idString x) = Some false -> Misses db x s.
Proof.
  revert s. induction n as [|n IH]; intros s H; [discriminate|]. cbn in H.
  destruct s as [i|]; [|auto with walk].
  destruct (find (hasId i) db) as [f|] eqn:Hf; [|auto with walk].
  rewrite idString_eqb in H.
  destruct (Nat.eqb (_id f) x) eqn:E; [discriminate|].
  apply Nat.eqb_neq in E. eauto with walk.
Qed.

Lemma reaches_checkIfSubfolder (s : option ObjectId) :
  Reaches db x s -> exists n, checkIfSubfolder n db s (idString x) = Some true.
Proof.
  induction 1 as [i f Hf Hx | i f Hf Hx _ [n IH]].
  - exists 1%nat. cbn. rewrite Hf, idString_eqb. apply Nat.eqb_eq in Hx. now rewrite Hx.
  - exists (S n). cbn. rewrite Hf, idString_eqb. apply Nat.eqb_neq in Hx. now rewrite Hx.
Qed.

Lemma misses_checkIfSubfolder (s : option ObjectId) :
  Misses db x s -> exists n, checkIfSubfolder n db s (idString x) = Some false.
Proof.
  induction 1 as [ | i Hf | i f Hf Hx _ [n IH]].
  - now exists 1%nat.
  - exists 1%nat. cbn. now rewrite Hf.
  - exists (S n). cbn. rewrite Hf, idString_eqb. apply Nat.eqb_neq in Hx. now rewrite Hx.
Qed.

Lemma reaches_not_misses (s : option ObjectId) :
  Reaches db x s -> Misses db x s -> False.
Proof.
  intros Hr Hm.
  destruct (reaches_checkIfSubfolder Hr) as [n Hn].
  destruct (misses_checkIfSubfolder Hm) as [m Hm'].
  assert (H1 := @checkIfSubfolder_more_fuel n (n + m)%nat s _ true Hn ltac:(lia)).
  assert (H2 := @checkIfSubfolder_more_fuel m (n + m)%nat s _ false Hm' ltac:(lia)).
  congruence.
Qed.

End Walk.

(** The walk compares printed ids with the text it was given: a text that
    no id prints as is never met. *)
Lemma checkIfSubfolder_unprinted_text (db : list File) (t : string) (n : nat)
    (s : option ObjectId) :
  (forall i, idString i <> t) -> checkIfSubfolder n db s t <> Some true.
Proof.
  intros Ht. revert s. induction n as [|n IH]; intros s; [discriminate|]. cbn.
  destruct s as [i|]; [|discriminate].
  destruct (find (hasId i) db) as [f|]; [|discriminate].
  destruct (String.eqb_spec (idString (_id f)) t) as [E|_]; [|apply IH].
  now apply Ht in E.
Qed.

(** C8. [checkIfSubfolder], asked for a node by the text its id prints as,
    comes back exactly on the walks that end: those that meet the searched
    node, arrive at the root, or follow a link that resolves to nothing.  Its
    answer then says whether the node was met, and more iterations never
    change it.  The loop carries no bound of its own and has no integrity
    error to report. *)
Theorem checkIfSubfolder_returns_iff_walk_ends (db : list File) (x : ObjectId)
    (s : option ObjectId) :
  (Reaches db x s \/ Misses db x s)
  <-> exists fuel b,
        (forall n, (fuel <= n)%nat -> checkIfSubfolder n db s (idString x) = Some b)
        /\ (b = true <-> Reaches db x s).
Proof.
  split.
  - intros [Hr | Hm].
    + destruct (reaches_checkIfSubfolder Hr) as [fuel Hfuel].
      exists fuel, true. split; [|tauto].
      intros n Hn. now apply checkIfSubfolder_more_fuel with fuel.
    + destruct (misses_checkIfSubfolder Hm) as [fuel Hfuel].
      exists fuel, false. split.
      * intros n Hn. now apply checkIfSubfolder_more_fuel with fuel.
      * split; [discriminate|]. intros Hr. exfalso. eapply reaches_not_misses; eauto.
  - intros (fuel & b & Hfuel & _). specialize (Hfuel fuel (le_n _)).
    destruct b.
    + left. eapply checkIfSubfolder_true_reaches; eauto.
    + right. eapply checkIfSubfolder_false_misses; eauto.
Qed.

Lemma looped_never_returns (n : nat) (i : ObjectId) :
  i = 11%nat \/ i = 12%nat ->
  checkIfSubfolder n Scenario.looped (Some i) (idString 99) = None.
Proof.
  revert i. induction n as [|n IH]; intros i Hi; [reflexivity|].
  destruct Hi as [-> | ->]; cbn; apply IH; auto.
Qed.

Lemma checkIfSubfolder_returns_iff_walk_ends_witness :
  exists fuel b,
    (forall n, (fuel <= n)%nat ->
       checkIfSubfolder n (files Scenario.tree) (Some 3%nat) (idString 1) = Some b)
    /\ (b = true <-> Reaches (files Scenario.tree) 1 (Some 3%nat)).
Proof.
  apply (proj1 (checkIfSubfolder_returns_iff_walk_ends (files Scenario.tree) 1 (Some 3%nat))).
  left.
  apply ReachesUp with Scenario.Z; [reflexivity | cbn; lia |].
  apply ReachesUp with Scenario.Y; [reflexivity | cbn; lia |].
  apply ReachesHere with Scenario.X; reflexivity.
Defined.

(** C8, as stated, fails: on two folders that are each other's parent the
    loop is still running after any number of iterations. *)
Lemma checkIfSubfolder_unbounded_on_cycle :
  ~ exists fuel b,
      checkIfSubfolder fuel Scenario.looped (Some 11%nat) (idString 99) = Some b.
Proof.
  intros (fuel & b & H). rewrite looped_never_returns in H; [discriminate|now left].
Qed.

(** ** Writing a document back *)

Lemma find_replaceDoc_other (m : File) (db : list File) (i : ObjectId) :
  i <> _id m -> find (hasId i) (replaceDoc m db) = find (hasId i) db.
Proof.
  intros Hi. unfold replaceDoc. induction db as [|g db IH]; [reflexivity|]. cbn.
  destruct (hasId (_id m) g) eqn:E.
  - apply Nat.eqb_eq in E.
    assert (Hm : hasId i m = false) by (apply Nat.eqb_neq; congruence).
    assert (Hg : hasId i g = false) by (apply Nat.eqb_neq; congruence).
    now rewrite Hm, Hg.
  - destruct (hasId i g); [reflexivity|apply IH].
Qed.

Lemma replaceDoc_absent (m : File) (db : list File) :
  find (hasId (_id m)) db = None -> replaceDoc m db = db.
Proof.
  unfold replaceDoc. induction db as [|g db IH]; [reflexivity|]. cbn.
  destruct (hasId (_id m) g); [discriminate|]. intros H. now rewrite IH.
Qed.

Lemma find_replaceDoc_none (m : File) (db : list File) (i : ObjectId) :
  find (hasId i) db = None -> find (hasId i) (replaceDoc m db) = None.
Proof.
  intros H. destruct (Nat.eq_dec i (_id m)) as [->|Hne].
  - now rewrite replaceDoc_absent.
  - now rewrite find_replaceDoc_other.
Qed.

Lemma find_owned_replaceDoc (m a : File) (db : list File) (user : ObjectId) :
  find (ownedBy user (_id m)) db = Some a -> userId m = user ->
  find (ownedBy user (_id m)) (replaceDoc m db) = Some m.
Proof.
  intros H Hu.
  assert (Hm : ownedBy user (_id m) m = true).
  { unfold ownedBy, hasId. now rewrite Hu, !Nat.eqb_refl. }
  unfold replaceDoc. induction db as [|g db IH]; [discriminate|]. cbn in *.
  destruct (hasId (_id m) g) eqn:E.
  - now rewrite Hm.
  - unfold ownedBy in H |- * at 1. rewrite E in *. cbn in *. now apply IH.
Qed.

Lemma owned_has_id (user i : ObjectId) (db : list File) (a : File) :
  find (ownedBy user i) db = Some a -> _id a = i /\ userId a = user /\ In a db.
Proof.
  intros H. apply find_some in H as [Hin Hq].
  apply andb_prop in Hq as [H1 H2].
  apply Nat.eqb_eq in H1, H2. auto.
Qed.

Lemma same_id_same_doc (db : list File) (f g : File) :
  NoDup (map _id db) -> In f db -> In g db -> _id f = _id g -> f = g.
Proof.
  induction db as [|h db IH]; cbn; intros Hnd Hf Hg E; [contradiction|].
  inversion Hnd as [|? ? Hnot Hnd']; subst.
  destruct Hf as [->|Hf], Hg as [->|Hg]; auto.
  - exfalso. apply Hnot. rewrite E. now apply in_map.
  - exfalso. apply Hnot. rewrite <- E. now apply in_map.
Qed.

(** A walk that misses [x] sees the same documents after the document [x]
    was written back. *)
Lemma checkIfSubfolder_after_save (m : File) (db : list File) (n : nat)
    (s : option ObjectId) :
  checkIfSubfolder n db s (idString (_id m)) = Some false ->
  checkIfSubfolder n (replaceDoc m db) s (idString (_id m)) = Some false.
Proof.
  revert s. induction n as [|n IH]; intros s H; [discriminate|]. cbn in *.
  destruct s as [i|]; [|reflexivity].
  destruct (find (hasId i) db) as [f|] eqn:Hf.
  - destruct (String.eqb (idString (_id f)) (idString (_id m))) eqn:E; [discriminate|].
    assert (Hi : i <> _id m).
    { apply find_has_id in Hf. rewrite idString_eqb in E. apply Nat.eqb_neq in E.
      congruence. }
    rewrite find_replaceDoc_other by assumption. rewrite Hf, E. now apply IH.
  - now rewrite find_replaceDoc_none.
Qed.

(** ** Moves *)

(** The route up to the target checks, for a text that casts to the id of a
    node of the requester and a target given as a text that casts. *)
Lemma move_opens (w : World) (user : ObjectId) (a : File) (fileId s : string)
    (t : ObjectId) (targetFolderName : option string) (fuel : nat) :
  castObjectId fileId = Some (_id a) ->
  find (ownedBy user (_id a)) (files w) = Some a ->
  castObjectId s = Some t ->
  move fuel user fileId (Some s) targetFolderName w
  = match tryCatch (moveChecked fuel user fileId a (TargetString s))
                   (ret (Some (ErrorJson 500 "Server error while moving file"))) w with
    | (Ok (Some r), w') => Some (r, w')
    | _ => None
    end.
Proof.
  intros Hcast Ha Hs. destruct (cast_is_a_target _ Hs) as [Htarget Hfalsy].
  unfold move, moveBody, tryCatch, bind, castQuery, findOne, gets.
  rewrite Hcast, Htarget, Hfalsy. cbn. rewrite Ha.
  destruct targetFolderName as [nm|]; [|reflexivity].
  now rewrite andb_false_r.
Qed.

(** A request that names its target by [targetFolderId], or names none, is
    not looked up by folder name. *)
Lemma no_name_lookup (targetFolderId targetFolderName : option string) :
  targetField targetFolderId = NoTarget ->
  (falsy targetFolderId = true -> falsy targetFolderName = true) ->
  match targetFolderName with
  | Some nm => if (Js.truthy nm && falsy targetFolderId)%bool then Some nm else None
  | None => None
  end = None.
Proof.
  intros _ Hbyid. destruct targetFolderName as [nm|]; [|reflexivity].
  destruct (falsy targetFolderId) eqn:E; [|now rewrite andb_false_r].
  specialize (Hbyid eq_refl). cbn in Hbyid. apply negb_true_iff in Hbyid.
  now rewrite Hbyid.
Qed.

Lemma move_self (w : World) (user : ObjectId) (a : File) (fileId : string)
    (targetFolderName : option string) (fuel : nat) :
  castObjectId fileId = Some (_id a) ->
  find (ownedBy user (_id a)) (files w) = Some a -> isFolder a = true ->
  move fuel user fileId (Some fileId) targetFolderName w = Some (SelfMoveError, w).
Proof.
  intros Hcast Ha Hfolder.
  destruct (owned_has_id _ _ _ Ha) as (_ & Hu & Hin).
  destruct (@find_is_some _ (isFolderOf user (_id a)) _ _ Hin) as [b Hb].
  { unfold isFolderOf, hasId. now rewrite Hu, !Nat.eqb_refl, Hfolder. }
  rewrite (move_opens _ _ _ _ targetFolderName fuel Hcast Ha Hcast).
  unfold moveChecked, tryCatch, bind, targetId, castQuery, findOne, gets.
  rewrite Hcast. cbn. rewrite Hb, Hfolder, String.eqb_refl. reflexivity.
Qed.

Lemma move_file_onto_itself (w : World) (user : ObjectId) (a : File) (fileId s : string)
    (targetFolderName : option string) (fuel : nat) :
  NoDup (map _id (files w)) ->
  castObjectId fileId = Some (_id a) ->
  castObjectId s = Some (_id a) ->
  find (ownedBy user (_id a)) (files w) = Some a -> isFolder a = false ->
  move fuel user fileId (Some s) targetFolderName w = Some (TargetNotFoundError, w).
Proof.
  intros Hnd Hcast Hs Ha Hfile.
  destruct (owned_has_id _ _ _ Ha) as (_ & Hu & Hin).
  assert (Hnone : find (isFolderOf user (_id a)) (files w) = None).
  { apply find_all_false. intros g Hg. unfold isFolderOf.
    destruct (hasId (_id a) g) eqn:E; [|reflexivity].
    apply Nat.eqb_eq in E.
    rewrite (@same_id_same_doc (files w) g a Hnd Hg Hin) by congruence.
    rewrite Hfile. now rewrite andb_false_r. }
  rewrite (move_opens _ _ _ _ targetFolderName fuel Hcast Ha Hs).
  unfold moveChecked, tryCatch, bind, targetId, castQuery, findOne, gets.
  rewrite Hs. cbn. rewrite Hnone. reflexivity.
Qed.

(** C6. A move whose [targetFolderId] is the very text of the URL's [fileId]
    never changes anything, whatever [targetFolderName] says.  A folder is
    answered with the self-move error; a file is answered with "Target folder
    not found", because the target must first be found among the requester's
    folders. *)
Theorem move_onto_itself (w : World) (user : ObjectId) (a : File) (fileId : string)
    (targetFolderName : option string) (fuel : nat) :
  NoDup (map _id (files w)) ->
  castObjectId fileId = Some (_id a) ->
  find (ownedBy user (_id a)) (files w) = Some a ->
  move fuel user fileId (Some fileId) targetFolderName w
  = Some (if isFolder a then SelfMoveError else TargetNotFoundError, w).
Proof.
  intros Hnd Hcast Ha. destruct (isFolder a) eqn:E.
  - now apply move_self with a.
  - now apply move_file_onto_itself with a.
Qed.

Lemma move_onto_itself_witness :
  move 0 Scenario.alice (idString 1) (Some (idString 1)) (Some "W") Scenario.tree
  = Some (SelfMoveError, Scenario.tree)
  /\ move 0 Scenario.alice (idString 6) (Some (idString 6)) None Scenario.tree
     = Some (TargetNotFoundError, Scenario.tree).
Proof.
  assert (Hnd : NoDup (map _id (files Scenario.tree))).
  { cbn. repeat constructor; cbn; intuition discriminate. }
  split.
  - apply (@move_onto_itself Scenario.tree Scenario.alice Scenario.X (idString 1)
             (Some "W") 0 Hnd); reflexivity.
  - apply (@move_onto_itself Scenario.tree Scenario.alice Scenario.aTxt (idString 6)
             None 0 Hnd); reflexivity.
Defined.

(** C6, as stated, fails for files: moving a.txt onto itself is not answered
    with the self-move error. *)
Lemma move_file_onto_itself_not_self_move_error :
  ~ exists fuel w',
      move fuel Scenario.alice (idString 6) (Some (idString 6)) None Scenario.tree
      = Some (SelfMoveError, w').
Proof.
  intros (fuel & w' & H).
  rewrite (@move_file_onto_itself Scenario.tree Scenario.alice Scenario.aTxt
             (idString 6) (idString 6) None fuel) in H.
  - discriminate.
  - cbn. repeat constructor; cbn; intuition discriminate.
  - reflexivity.
  - reflexivity.
  - reflexivity.
  - reflexivity.
Qed.

(** The self-move test compares texts.  With the folder named in capitals
    in the URL and as printed in the body, the two texts differ, the walk
    meets no printed id equal to the capitals, and the folder becomes its own
    parent. *)
Example move_onto_itself_in_capitals :
  castObjectId "00000000000000000000000A" = Some (_id Scenario.folderA)
  /\ castObjectId "00000000000000000000000a" = Some (_id Scenario.folderA)
  /\ forall fuel, exists w',
       move (S (S fuel)) Scenario.alice "00000000000000000000000A"
            (Some "00000000000000000000000a") None Scenario.lettered
       = Some (Moved, w')
       /\ option_map parentFolder (find (hasId 10) (files w')) = Some (Some 10%nat).
Proof.
  split; [reflexivity|]. split; [reflexivity|].
  intros fuel. eexists. split; vm_compute; reflexivity.
Qed.

(** With the URL's text as printed, a target that spells the folder's own id
    in capitals passes the self-move test and is stopped by the walk. *)
Example move_onto_itself_spelled_in_capitals :
  forall fuel,
    move (S fuel) Scenario.alice "00000000000000000000000a"
         (Some "00000000000000000000000A") None Scenario.lettered
    = Some (CycleError, Scenario.lettered).
Proof. intros fuel. vm_compute. reflexivity. Qed.

Lemma misses_excludes_start (db : list File) (user A B : ObjectId) (a : File) :
  find (ownedBy user A) db = Some a -> Misses db A (Some B) -> B <> A.
Proof.
  intros Ha Hm E. destruct (owned_has_id _ _ _ Ha) as (Hid & _ & Hin).
  inversion Hm as [ | i Hnone Hi | i f Hf Hne _ Hi].
  - apply (find_none _ _ Hnone) in Hin. unfold hasId in Hin.
    rewrite Hid, E, Nat.eqb_refl in Hin. discriminate.
  - apply find_has_id in Hf. congruence.
Qed.

(** C1. Moving a folder [A] of the requester that the URL names by the text
    its id prints as, with the target given by [targetFolderId] (a text that
    casts to a folder of the requester, or a value that stands for the root;
    [targetFolderName] is then not looked at, and where [targetFolderId] is
    missing or empty there is no [targetFolderName] either):
    - the target is the very text of the URL: the self-move error, whatever
      the walk would say;
    - another text, for a folder whose upward walk meets [A] (be it [A]
      itself in another spelling): the cycle error;
    - a folder whose upward walk ends without meeting [A], or the root: the
      move is carried out and recorded; the stored node has the target as its
      [parentFolder] and the time of the request as [updatedAt], its other
      fields and all other nodes are as before, and the walk from the target
      still does not meet [A] afterwards.
    A refused move leaves the world as it was. *)
Theorem move_folder (w : World) (user : ObjectId) (a : File) (fileId : string)
    (targetFolderId targetFolderName : option string) (target : option ObjectId) :
  fileId = idString (_id a) ->
  castObjectId fileId = Some (_id a) ->
  find (ownedBy user (_id a)) (files w) = Some a ->
  isFolder a = true ->
  Js.truthy (name a) = true ->
  Denotes targetFolderId target ->
  (falsy targetFolderId = true -> falsy targetFolderName = true) ->
  (forall B, target = Some B -> exists b, find (isFolderOf user B) (files w) = Some b) ->
  (targetFolderId = Some fileId ->
     forall fuel, move fuel user fileId targetFolderId targetFolderName w = Some (SelfMoveError, w))
  /\ (targetFolderId <> Some fileId -> Reaches (files w) (_id a) target ->
      exists enough, forall fuel, (enough <= fuel)%nat ->
        move fuel user fileId targetFolderId targetFolderName w = Some (CycleError, w))
  /\ (Misses (files w) (_id a) target ->
      exists enough, forall fuel, (enough <= fuel)%nat ->
        exists moved w',
          move fuel user fileId targetFolderId targetFolderName w = Some (Moved, w')
          /\ find (ownedBy user (_id a)) (files w') = Some moved
          /\ parentFolder moved = target
          /\ updatedAt moved = clock w
          /\ moved = setParent a target (clock w)
          /\ (_id moved, userId moved, name moved, originalName moved, type moved,
              size moved, path moved)
             = (_id a, userId a, name a, originalName a, type a, size a, path a)
          /\ (isFolder moved, inTrash moved, deletedAt moved, permanentDeleteAt moved,
              isPublic moved, publicUrl moved, sharedWith moved, createdAt moved)
             = (isFolder a, inTrash a, deletedAt a, permanentDeleteAt a,
                isPublic a, publicUrl a, sharedWith a, createdAt a)
          /\ (forall i, i <> _id a ->
                find (hasId i) (files w') = find (hasId i) (files w))
          /\ w' = afterMove w moved user
          /\ checkIfSubfolder fuel (files w') target fileId = Some false).
Proof.
  intros Hprinted Hcast Ha Hfolder Hname Hden Hbyid Htarget.
  destruct (owned_has_id _ _ _ Ha) as (_ & Hu & Hin).
  assert (Hex : existsb (hasId (_id a)) (files w) = true).
  { apply existsb_exists. exists a. split; [assumption|]. apply Nat.eqb_refl. }
  split; [|split].
  - intros -> fuel. now apply move_self with a.
  - intros Hne Hr.
    destruct Hden as [field Hroot | s t Hs]; [inversion Hr|].
    destruct (Htarget t eq_refl) as [b Hb].
    destruct (reaches_checkIfSubfolder Hr) as [enough He].
    exists enough. intros fuel Hfuel.
    pose proof (checkIfSubfolder_more_fuel _ _ _ He Hfuel) as Hwalk.
    rewrite (move_opens _ _ _ _ targetFolderName fuel Hcast Ha Hs).
    unfold moveChecked, tryCatch, bind, targetId, castQuery, findOne, gets.
    rewrite Hs. cbn. rewrite Hb, Hfolder. cbn.
    assert (Hneq : String.eqb fileId s = false).
    { apply String.eqb_neq. congruence. }
    rewrite Hneq, Hprinted, Hwalk. reflexivity.
  - intros Hm.
    destruct (misses_checkIfSubfolder Hm) as [enough He].
    exists enough. intros fuel Hfuel.
    pose proof (checkIfSubfolder_more_fuel _ _ _ He Hfuel) as Hwalk.
    set (moved := setParent a target (clock w)).
    set (w' := afterMove w moved user).
    exists moved, w'.
    split; [|split; [|split; [|split; [|split; [|split; [|split; [|split; [|split]]]]]]]].
    + destruct Hden as [field Hroot | s t Hs].
      * unfold move, moveBody, tryCatch, bind, castQuery, findOne, gets.
        rewrite Hcast. cbn. rewrite Ha, (no_name_lookup _ _ Hroot Hbyid), Hroot.
        unfold moveChecked, bind, targetId, gets, ret, save, modify. cbn.
        rewrite Hex. unfold logActivity, validActivity. cbn. rewrite Hname.
        reflexivity.
      * destruct (Htarget t eq_refl) as [b Hb].
        rewrite (move_opens _ _ _ _ targetFolderName fuel Hcast Ha Hs).
        unfold moveChecked, tryCatch, bind, targetId, castQuery, findOne, gets.
        rewrite Hs. cbn. rewrite Hb, Hfolder. cbn.
        assert (Hneq : String.eqb fileId s = false).
        { apply String.eqb_neq. intros E. subst s.
          rewrite Hcast in Hs. injection Hs as <-.
          now apply (misses_excludes_start _ Ha Hm). }
        rewrite Hneq, Hprinted, Hwalk. cbn.
        rewrite Hex. unfold logActivity, validActivity. cbn. rewrite Hname.
        reflexivity.
    + subst w'. cbn. apply (@find_owned_replaceDoc moved a (files w) user); assumption.
    + reflexivity.
    + reflexivity.
    + reflexivity.
    + reflexivity.
    + reflexivity.
    + intros i Hi. subst w'. cbn. now apply find_replaceDoc_other.
    + reflexivity.
    + subst w'. cbn. rewrite Hprinted in *.
      now apply (@checkIfSubfolder_after_save moved).
Qed.

Lemma move_folder_witness :
  (exists enough, forall fuel, (enough <= fuel)%nat ->
     move fuel Scenario.alice (idString 1) (Some (idString 3)) (Some "W") Scenario.tree
     = Some (CycleError, Scenario.tree))
  /\ (exists enough, forall fuel, (enough <= fuel)%nat ->
        exists moved w',
          move fuel Scenario.alice (idString 2) (Some (idString 4)) None Scenario.tree
          = Some (Moved, w')
          /\ find (ownedBy Scenario.alice 2) (files w') = Some moved
          /\ parentFolder moved = Some 4%nat
          /\ updatedAt moved = 1700000100000).
Proof.
  split.
  - refine (proj1 (proj2 (@move_folder Scenario.tree Scenario.alice Scenario.X
                            (idString 1) (Some (idString 3)) (Some "W") (Some 3%nat)
                            eq_refl eq_refl eq_refl eq_refl eq_refl _ _ _)) _ _).
    + now apply DenotesFolder.
    + discriminate.
    + intros B E. injection E as <-. exists Scenario.Z. reflexivity.
    + discriminate.
    + apply ReachesUp with Scenario.Z; [reflexivity | cbn; lia |].
      apply ReachesUp with Scenario.Y; [reflexivity | cbn; lia |].
      apply ReachesHere with Scenario.X; reflexivity.
  - assert (Hmiss : Misses (files Scenario.tree) 2 (Some 4%nat)).
    { apply MissesUp with Scenario.W; [reflexivity | cbn; lia | apply MissesRoot]. }
    assert (Htarget : forall B, Some 4%nat = Some B ->
              exists b, find (isFolderOf Scenario.alice B) (files Scenario.tree) = Some b).
    { intros B E. injection E as <-. exists Scenario.W. reflexivity. }
    assert (Hbyid : falsy (Some (idString 4)) = true -> falsy None = true).
    { reflexivity. }
    destruct (proj2 (proj2 (@move_folder Scenario.tree Scenario.alice Scenario.Y
                              (idString 2) (Some (idString 4)) None (Some 4%nat)
                              eq_refl eq_refl eq_refl eq_refl eq_refl
                              (@DenotesFolder (idString 4) 4 eq_refl) Hbyid Htarget)) Hmiss)
      as [enough H].
    exists enough. intros fuel Hfuel.
    destruct (H fuel Hfuel) as (moved & w' & H1 & H2 & H3 & H4 & _).
    exists moved, w'. auto.
Defined.

(** C1, as stated, fails where the target is the folder itself: the answer
    is the self-move error, not the cycle error. *)
Lemma move_folder_onto_itself_not_cycle_error :
  ~ exists fuel w',
      move fuel Scenario.alice (idString 1) (Some (idString 1)) None Scenario.tree
      = Some (CycleError, w').
Proof.
  intros (fuel & w' & H).
  rewrite (@move_self Scenario.tree Scenario.alice Scenario.X (idString 1) None fuel
             eq_refl eq_refl eq_refl) in H.
  discriminate.
Qed.

(** The walk compares the printed id of each folder with the text of the
    URL.  With the folder named in capitals there, no printed id equals the
    text, and a move into the folder's own subfolder is carried out: A ends
    up below B, which is below A. *)
Example move_in_capitals_passes_the_walk :
  Reaches (files Scenario.lettered) (_id Scenario.folderA) (Some (_id Scenario.folderB))
  /\ forall fuel, exists w',
       move (S (S (S fuel))) Scenario.alice "00000000000000000000000A"
            (Some "00000000000000000000000b") None Scenario.lettered
       = Some (Moved, w')
       /\ option_map parentFolder (find (hasId 10) (files w')) = Some (Some 11%nat)
       /\ option_map parentFolder (find (hasId 11) (files w')) = Some (Some 10%nat).
Proof.
  split.
  - apply ReachesUp with Scenario.folderB; [reflexivity | cbn; lia |].
    apply ReachesHere with Scenario.folderA; reflexivity.
  - intros fuel. eexists. split; [|split]; vm_compute; reflexivity.
Qed.

(** A self-move asked for by folder name passes the comparison of texts and
    is caught by the walk instead. *)
Example move_onto_itself_by_name :
  move 1 Scenario.alice (idString 1) None (Some "X") Scenario.tree
  = Some (CycleError, Scenario.tree).
Proof. vm_compute. reflexivity. Qed.

(** On a parent chain that loops, a move into the loop is never answered. *)
Lemma move_into_loop_never_answers (fuel : nat) :
  move fuel Scenario.alice (idString 99) (Some (idString 11)) None
       (mkWorld (Scenario.looped ++ [Scenario.folderDoc 99 Scenario.alice "N" None false])
                [] [] None 100 0)
  = None.
Proof.
  set (w := mkWorld _ _ _ _ _ _).
  assert (H : forall n i, i = 11%nat \/ i = 12%nat ->
            checkIfSubfolder n (files w) (Some i) (idString 99) = None).
  { induction n as [|n IH]; intros i Hi; [reflexivity|].
    destruct Hi as [-> | ->]; cbn; apply IH; auto. }
  rewrite (@move_opens w Scenario.alice (Scenario.folderDoc 99 Scenario.alice "N" None false)
             (idString 99) (idString 11) 11 None fuel eq_refl eq_refl eq_refl).
  unfold moveChecked, tryCatch, bind, targetId, castQuery, findOne, gets, strictEqual.
  change (castObjectId (idString 11)) with (Some 11%nat). cbn.
  rewrite idString_eqb. cbn. rewrite H by now left. reflexivity.
Qed.

(** A text of the URL that is no id is a cast error, which the route
    answers with 500. *)
Lemma move_with_malformed_id (w : World) (user : ObjectId) (fileId : string)
    (targetFolderId targetFolderName : option string) (fuel : nat) :
  castObjectId fileId = None ->
  move fuel user fileId targetFolderId targetFolderName w
  = Some (ErrorJson 500 "Server error while moving file", w).
Proof.
  intros H. unfold move, moveBody, tryCatch, bind, castQuery. now rewrite H.
Qed.

(** The query of a move target does not look at the trash flag; the query
    of a parent folder in the upload routes does. *)
Lemma isFolderOf_ignores_trash (user i : ObjectId) (f : File) (t : bool)
    (d p : option Z) :
  isFolderOf user i (setTrash f t d p) = isFolderOf user i f.
Proof. reflexivity. Qed.

Lemma isLiveFolderOf_rejects_trashed (user i : ObjectId) (f : File) :
  inTrash f = true -> isLiveFolderOf user i f = false.
Proof. intros H. unfold isLiveFolderOf. rewrite H. apply andb_false_r. Qed.

(** A file moves into any folder of the requester that the target query
    finds, and that query does not ask whether the folder is in the trash. *)
Lemma move_file_into_folder (w : World) (user B : ObjectId) (a b : File)
    (fileId s : string) (fuel : nat) :
  castObjectId fileId = Some (_id a) ->
  castObjectId s = Some B ->
  find (ownedBy user (_id a)) (files w) = Some a ->
  isFolder a = false ->
  Js.truthy (name a) = true ->
  find (isFolderOf user B) (files w) = Some b ->
  move fuel user fileId (Some s) None w
  = Some (Moved, afterMove w (setParent a (Some B) (clock w)) user).
Proof.
  intros Hcast Hs Ha Hfile Hname Hb.
  destruct (owned_has_id _ _ _ Ha) as (_ & Hu & Hin).
  assert (Hex : existsb (hasId (_id a)) (files w) = true).
  { apply existsb_exists. exists a. split; [assumption|]. apply Nat.eqb_refl. }
  rewrite (move_opens _ _ _ _ None fuel Hcast Ha Hs).
  unfold moveChecked, tryCatch, bind, targetId, castQuery, findOne, gets.
  rewrite Hs. cbn. rewrite Hb, Hfile. cbn.
  rewrite Hex. unfold logActivity, validActivity. cbn. rewrite Hname. reflexivity.
Qed.

(** C7. The move route accepts a trashed folder as target: a.txt is moved
    into the trashed folder T, while an upload into T is refused. *)
Theorem move_into_trashed_folder_is_accepted :
  find (hasId 5) (files Scenario.tree) = Some Scenario.T
  /\ inTrash Scenario.T = true
  /\ (forall fuel, exists w',
        move fuel Scenario.alice (idString 6) (Some (idString 5)) None Scenario.tree
        = Some (Moved, w')
        /\ option_map parentFolder (find (hasId 6) (files w')) = Some (Some 5%nat))
  /\ fst (upload Scenario.alice (Some (fst Scenario.secondCopy)) (FieldId 5)
                 (snd Scenario.secondCopy))
     = InvalidParentError.
Proof.
  split; [reflexivity|]. split; [reflexivity|]. split; [|reflexivity].
  intros fuel. eexists. split; vm_compute; reflexivity.
Qed.

(** ** Trash and restore *)

Lemma find_replaceDoc_hit (q : File -> bool) (m : File) (db : list File) :
  (forall g, q g = true -> hasId (_id m) g = true) ->
  q m = true ->
  existsb (hasId (_id m)) db = true ->
  find q (replaceDoc m db) = Some m.
Proof.
  intros Hq Hm. unfold replaceDoc.
  induction db as [|g db IH]; cbn; [discriminate|].
  destruct (hasId (_id m) g) eqn:E; cbn.
  - now rewrite Hm.
  - intros Hex. destruct (q g) eqn:Eq; [|now apply IH].
    apply Hq in Eq. congruence.
Qed.

Lemma replaceDoc_twice (m m' : File) (db : list File) :
  _id m' = _id m -> replaceDoc m' (replaceDoc m db) = replaceDoc m' db.
Proof.
  intros E. unfold replaceDoc. rewrite map_map. apply map_ext. intros g.
  cbv beta. rewrite E. destruct (hasId (_id m) g) eqn:Eg; [|now rewrite Eg].
  unfold hasId. now rewrite Nat.eqb_refl.
Qed.

Lemma replaceDoc_same (f : File) (db : list File) :
  NoDup (map _id db) -> In f db -> replaceDoc f db = db.
Proof.
  intros Hnd Hin. unfold replaceDoc.
  rewrite <- (map_id db) at 2. apply map_ext_in. intros g Hg. cbv beta.
  destruct (hasId (_id f) g) eqn:E; [|reflexivity].
  apply Nat.eqb_eq in E. symmetry. now apply (@same_id_same_doc db g f Hnd).
Qed.

Lemma usedStorage_cons (user : ObjectId) (g : File) (db : list File) :
  usedStorage (recompute user (g :: db))
  = contribution user g + usedStorage (recompute user db).
Proof.
  unfold contribution. cbn.
  destruct (counted user g); cbn; [|reflexivity].
  destruct (isFolder g); reflexivity.
Qed.

Lemma usedStorage_replaceDoc (user : ObjectId) (f m : File) (db : list File) :
  NoDup (map _id db) -> In f db -> _id m = _id f ->
  usedStorage (recompute user (replaceDoc m db))
  = usedStorage (recompute user db) - contribution user f + contribution user m.
Proof.
  intros Hnd Hin Hid.
  induction db as [|g db IH]; [contradiction|].
  inversion Hnd as [|? ? Hnot Hnd']; subst.
  change (replaceDoc m (g :: db))
    with ((if hasId (_id m) g then m else g) :: replaceDoc m db).
  rewrite !usedStorage_cons.
  destruct Hin as [->|Hin].
  - unfold hasId at 1. rewrite Hid, Nat.eqb_refl.
    rewrite replaceDoc_absent; [lia|].
    apply find_all_false. intros x Hx. apply Nat.eqb_neq. intros E.
    apply Hnot. rewrite <- Hid, <- E. now apply in_map.
  - destruct (hasId (_id m) g) eqn:E.
    + exfalso. apply Nat.eqb_eq in E. apply Hnot.
      rewrite E, Hid. now apply in_map.
    + rewrite IH by assumption. lia.
Qed.

Lemma stats_after_update (user : ObjectId) (w : World) :
  statsOf user (snd (updateUserStats user w)) = Some (recompute user (files w)).
Proof.
  unfold statsOf, updateUserStats. cbn.
  rewrite find_app_right.
  - cbn. now rewrite Nat.eqb_refl.
  - apply find_all_false. intros s Hs. apply filter_In in Hs as [_ Hs].
    now apply negb_true_iff in Hs.
Qed.

Lemma trash_effect (w : World) (elapsed : Z) (user i : ObjectId) (f : File) :
  find (ownedBy user i) (files w) = Some f ->
  let trashed := setTrash f true (Some (clock w)) (Some (clock w + elapsed + retentionMillis)) in
  files (snd (trash elapsed user i w)) = replaceDoc trashed (files w)
  /\ statsOf user (snd (trash elapsed user i w))
     = Some (recompute user (replaceDoc trashed (files w)))
  /\ clock (snd (trash elapsed user i w)) = clock w
  /\ (Js.truthy (name f) = true ->
      fst (trash elapsed user i w) = MessageJson 200 "Moved to trash").
Proof.
  intros Hf trashed.
  destruct (owned_has_id _ _ _ Hf) as (Hid & Hu & Hin).
  assert (Hex : existsb (hasId (_id f)) (files w) = true).
  { apply existsb_exists. exists f. split; [assumption|]. apply Nat.eqb_refl. }
  pose proof (stats_after_update user (setFiles (replaceDoc trashed (files w)) w)) as Hs.
  unfold trash, respond, tryCatch, bind, findOne, gets, save, modify.
  rewrite Hf. cbn. rewrite Hex.
  unfold logActivity, validActivity. cbn.
  destruct (Js.truthy (name f)); cbn; repeat split; try exact Hs; discriminate.
Qed.

Lemma restore_effect (w : World) (user i : ObjectId) (f : File) :
  find (fun g => (ownedBy user i g && inTrash g)%bool) (files w) = Some f ->
  let restored := setTrash f false None None in
  files (snd (restore user i w)) = replaceDoc restored (files w)
  /\ statsOf user (snd (restore user i w))
     = Some (recompute user (replaceDoc restored (files w)))
  /\ (Js.truthy (name f) = true ->
      fst (restore user i w) = MessageJson 200 "File restored successfully").
Proof.
  intros Hf restored.
  assert (Hex : existsb (hasId (_id f)) (files w) = true).
  { pose proof Hf as Hf'. apply find_some in Hf' as [Hin _].
    apply existsb_exists. exists f. split; [assumption|]. apply Nat.eqb_refl. }
  pose proof (stats_after_update user (setFiles (replaceDoc restored (files w)) w)) as Hs.
  unfold restore, respond, tryCatch, bind, findOne, gets, save, modify.
  rewrite Hf. cbn. rewrite Hex.
  unfold logActivity, validActivity. cbn.
  destruct (Js.truthy (name f)); cbn; repeat split; try exact Hs; discriminate.
Qed.

Lemma find_conjunct {A} (p q : A -> bool) (l : list A) (x : A) :
  find p l = Some x -> q x = true -> find (fun y => (p y && q y)%bool) l = Some x.
Proof.
  induction l as [|a l IH]; cbn; [discriminate|].
  destruct (p a) eqn:E; cbn.
  - intros H Hq. injection H as ->. now rewrite Hq.
  - exact IH.
Qed.

(** Restoring any trashed node of the requester clears its trash fields. *)
Lemma restore_clears_trashed_node (w : World) (user i : ObjectId) (g : File) :
  find (ownedBy user i) (files w) = Some g -> inTrash g = true ->
  find (ownedBy user i) (files (snd (restore user i w)))
  = Some (setTrash g false None None).
Proof.
  intros Hg Htrashed.
  destruct (owned_has_id _ _ _ Hg) as (Hid & Hu & Hin).
  pose proof (find_conjunct (ownedBy user i) inTrash (files w) Hg Htrashed) as Hq.
  destruct (@restore_effect w user i g Hq) as (Hfiles & _).
  rewrite Hfiles.
  pose proof (@find_owned_replaceDoc (setTrash g false None None) g (files w) user) as H.
  cbn [_id setTrash] in H. rewrite Hid in H. now apply H.
Qed.

(** C4. Trashing a node of the requester sets [inTrash], stamps [deletedAt]
    with the first reading of the clock and [permanentDeleteAt] with the
    second reading plus 30 days (2592000000 ms): never earlier than
    [deletedAt] plus 30 days, and exactly that when the clock stood still
    between the two readings.  The other fields of the node and the other
    nodes stay as they were.  Restoring it afterwards clears the three fields
    and again leaves everything else, so a node that was clean before is back
    to what it was; the recomputed used storage, which left the node out
    while it was in the trash, counts its size again.  Restoring clears the
    three fields of any trashed node of the requester, whenever it was
    trashed. *)
Theorem trash_then_restore (w : World) (elapsed : Z) (user fileId : ObjectId) (f : File) :
  NoDup (map _id (files w)) ->
  find (ownedBy user fileId) (files w) = Some f ->
  0 <= elapsed ->
  let w1 := snd (trash elapsed user fileId w) in
  let w2 := snd (restore user fileId w1) in
  exists trashed restored,
    find (ownedBy user fileId) (files w1) = Some trashed
    /\ inTrash trashed = true
    /\ deletedAt trashed = Some (clock w)
    /\ permanentDeleteAt trashed = Some (clock w + elapsed + 2592000000)
    /\ (exists d p, deletedAt trashed = Some d /\ permanentDeleteAt trashed = Some p
                    /\ d + 2592000000 <= p /\ (elapsed = 0 -> p = d + 2592000000))
    /\ otherFields trashed = otherFields f
    /\ (forall i, i <> fileId -> find (hasId i) (files w1) = find (hasId i) (files w))
    /\ find (ownedBy user fileId) (files w2) = Some restored
    /\ inTrash restored = false
    /\ deletedAt restored = None
    /\ permanentDeleteAt restored = None
    /\ otherFields restored = otherFields f
    /\ (forall i, i <> fileId -> find (hasId i) (files w2) = find (hasId i) (files w))
    /\ (inTrash f = false -> deletedAt f = None -> permanentDeleteAt f = None ->
        files w2 = files w)
    /\ statsOf user w1 = Some (recompute user (files w1))
    /\ statsOf user w2 = Some (recompute user (files w2))
    /\ counted user trashed = false
    /\ counted user restored = true
    /\ usedStorage (recompute user (files w2))
       = usedStorage (recompute user (files w1)) + (if isFolder f then 0 else size f)
    /\ (Js.truthy (name f) = true ->
        fst (trash elapsed user fileId w) = MessageJson 200 "Moved to trash"
        /\ fst (restore user fileId w1) = MessageJson 200 "File restored successfully")
    /\ (forall w' g,
          find (ownedBy user fileId) (files w') = Some g -> inTrash g = true ->
          exists r,
            find (ownedBy user fileId) (files (snd (restore user fileId w'))) = Some r
            /\ inTrash r = false /\ deletedAt r = None /\ permanentDeleteAt r = None
            /\ otherFields r = otherFields g).
Proof.
  intros Hnd Hf Helapsed w1 w2.
  set (trashed := setTrash f true (Some (clock w))
                           (Some (clock w + elapsed + retentionMillis))).
  set (restored := setTrash f false None None).
  destruct (owned_has_id _ _ _ Hf) as (Hid & Hu & Hin).
  destruct (@trash_effect w elapsed user fileId f Hf) as (Hfiles1 & Hstats1 & Hclock1 & Hresp1).
  fold trashed in Hfiles1, Hstats1. fold w1 in Hfiles1, Hstats1, Hclock1.
  assert (Hex : existsb (hasId (_id trashed)) (files w) = true).
  { apply existsb_exists. exists f. split; [assumption|]. apply Nat.eqb_refl. }
  assert (Hq : find (fun g => (ownedBy user fileId g && inTrash g)%bool) (files w1)
               = Some trashed).
  { rewrite Hfiles1. apply find_replaceDoc_hit; [| |exact Hex].
    - intros g Hg. apply andb_prop in Hg as [Hg _].
      apply andb_prop in Hg as [Hg _]. unfold hasId in *.
      apply Nat.eqb_eq in Hg. apply Nat.eqb_eq. cbn. congruence.
    - unfold ownedBy, hasId. cbn. now rewrite Hid, Hu, !Nat.eqb_refl. }
  destruct (@restore_effect w1 user fileId trashed Hq) as (Hfiles2 & Hstats2 & Hresp2).
  change (setTrash trashed false None None) with restored in *.
  fold w2 in Hfiles2, Hstats2.
  assert (Hfiles2' : files w2 = replaceDoc restored (files w)).
  { rewrite Hfiles2, Hfiles1. now apply replaceDoc_twice. }
  assert (Hcounted : counted user restored = true).
  { unfold counted. cbn. now rewrite Hu, Nat.eqb_refl. }
  exists trashed, restored.
  repeat match goal with |- _ /\ _ => split end.
  - rewrite Hfiles1.
    pose proof (@find_owned_replaceDoc trashed f (files w) user) as H.
    cbn [_id setTrash trashed] in H. rewrite Hid in H. now apply H.
  - reflexivity.
  - reflexivity.
  - reflexivity.
  - exists (clock w), (clock w + elapsed + 2592000000).
    split; [reflexivity|]. split; [reflexivity|]. split; [lia|]. intros ->. lia.
  - reflexivity.
  - intros i Hi. rewrite Hfiles1. apply find_replaceDoc_other. cbn. congruence.
  - rewrite Hfiles2'.
    pose proof (@find_owned_replaceDoc restored f (files w) user) as H.
    cbn [_id setTrash restored] in H. rewrite Hid in H. now apply H.
  - reflexivity.
  - reflexivity.
  - reflexivity.
  - reflexivity.
  - intros i Hi. rewrite Hfiles2'. apply find_replaceDoc_other. cbn. congruence.
  - intros H1 H2 H3. rewrite Hfiles2'.
    replace restored with f; [now apply replaceDoc_same|].
    unfold restored, setTrash. destruct f; cbn in *. congruence.
  - now rewrite Hstats1, Hfiles1.
  - now rewrite Hstats2, Hfiles2.
  - unfold counted. cbn. apply andb_false_r.
  - exact Hcounted.
  - rewrite Hfiles2', Hfiles1.
    rewrite (@usedStorage_replaceDoc user f restored (files w)) by auto.
    rewrite (@usedStorage_replaceDoc user f trashed (files w)) by auto.
    unfold contribution at 2 4. rewrite Hcounted.
    replace (counted user trashed) with false by (unfold counted; cbn; now rewrite andb_false_r).
    cbn. destruct (isFolder f); cbn; lia.
  - intros Hname. split; [now apply Hresp1 | now apply Hresp2].
  - intros w' g Hg Htrashed. exists (setTrash g false None None).
    split; [now apply restore_clears_trashed_node|]. repeat split.
Qed.

Lemma trash_then_restore_witness :
  let w1 := snd (trash 2 Scenario.alice 6 Scenario.tree) in
  let w2 := snd (restore Scenario.alice 6 w1) in
  exists trashed restored,
    find (ownedBy Scenario.alice 6) (files w1) = Some trashed
    /\ inTrash trashed = true
    /\ deletedAt trashed = Some 1700000100000
    /\ permanentDeleteAt trashed = Some 1702592100002
    /\ find (ownedBy Scenario.alice 6) (files w2) = Some restored
    /\ inTrash restored = false
    /\ deletedAt restored = None
    /\ permanentDeleteAt restored = None
    /\ files w2 = files Scenario.tree
    /\ usedStorage (recompute Scenario.alice (files w2))
       = usedStorage (recompute Scenario.alice (files w1)) + 500.
Proof.
  assert (Hnd : NoDup (map _id (files Scenario.tree))).
  { cbn. repeat constructor; cbn; intuition discriminate. }
  assert (Hpos : 0 <= 2) by lia.
  destruct (@trash_then_restore Scenario.tree 2 Scenario.alice 6 Scenario.aTxt Hnd eq_refl Hpos)
    as (trashed & restored & H1 & H2 & H3 & H4 & _ & _ & _ & H8 & H9 & H10 & H11 & _ & _
        & H14 & _ & _ & _ & _ & H19 & _).
  exists trashed, restored.
  split; [exact H1|]. split; [exact H2|]. split; [exact H3|]. split; [exact H4|].
  split; [exact H8|]. split; [exact H9|]. split; [exact H10|]. split; [exact H11|].
  split; [apply H14; reflexivity | exact H19].
Defined.

(** C4, as stated, fails when the clock advances between the two readings:
    with one millisecond between them, [permanentDeleteAt] is one millisecond
    later than [deletedAt] plus 30 days. *)
Lemma trash_dates_one_tick_apart :
  let w1 := snd (trash 1 Scenario.alice 6 Scenario.tree) in
  exists trashed,
    find (hasId 6) (files w1) = Some trashed
    /\ deletedAt trashed = Some 1700000100000
    /\ permanentDeleteAt trashed = Some 1702592100001
    /\ permanentDeleteAt trashed
       <> option_map (fun d => d + 2592000000) (deletedAt trashed).
Proof.
  eexists. split; [vm_compute; reflexivity|].
  split; [reflexivity|]. split; [reflexivity|]. discriminate.
Qed.

(** ** Removing bytes from the disk *)

Lemma areaOf_removeEntry (d : Disk) (account entry u : string) :
  areaOf (removeEntry d account entry) u
  = match areaOf d u with
    | Some (AreaDir es) =>
        if String.eqb u account
        then Some (AreaDir (filter (fun e => negb (String.eqb (fst e) entry)) es))
        else Some (AreaDir es)
    | other => other
    end.
Proof.
  destruct d as [areas|]; [|reflexivity]. cbn.
  induction areas as [|[v a] areas IH]; [reflexivity|]. cbn.
  destruct a as [es|]; cbn.
  - destruct (String.eqb v account) eqn:Ev; cbn.
    + destruct (String.eqb v u) eqn:Eu; cbn.
      * apply String.eqb_eq in Ev, Eu. subst. now rewrite String.eqb_refl.
      * exact IH.
    + destruct (String.eqb v u) eqn:Eu; cbn.
      * apply String.eqb_eq in Eu. subst. now rewrite Ev.
      * exact IH.
  - destruct (String.eqb v u); [reflexivity|exact IH].
Qed.

Lemma find_filter_other (entry e : string) (es : list (string * Stat)) :
  String.eqb e entry = false ->
  find (fun x => String.eqb (fst x) e) (filter (fun x => negb (String.eqb (fst x) entry)) es)
  = find (fun x => String.eqb (fst x) e) es.
Proof.
  intros Hne. induction es as [|[n st] es IH]; [reflexivity|]. cbn.
  destruct (String.eqb n entry) eqn:E1; cbn.
  - apply String.eqb_eq in E1. subst. now rewrite String.eqb_sym, Hne.
  - now rewrite IH.
Qed.

Lemma find_filter_same (entry : string) (es : list (string * Stat)) :
  find (fun x => String.eqb (fst x) entry) (filter (fun x => negb (String.eqb (fst x) entry)) es)
  = None.
Proof.
  apply find_all_false. intros x Hx. apply filter_In in Hx as [_ Hx].
  now apply negb_true_iff in Hx.
Qed.

(** After [unlinkSync] the path is gone and every other path is as before. *)
Lemma statOf_removeEntry (d : Disk) (account entry : string) (p : FsPath) :
  statOf (removeEntry d account entry) p
  = match p with
    | InArea u e =>
        if (String.eqb u account && String.eqb e entry)%bool then None else statOf d p
    | Elsewhere _ => None
    end.
Proof.
  destruct p as [u e|q]; [|reflexivity]. cbn.
  rewrite areaOf_removeEntry.
  destruct (areaOf d u) as [[es|]|]; cbn.
  - destruct (String.eqb u account); cbn; [|reflexivity].
    destruct (String.eqb e entry) eqn:E.
    + apply String.eqb_eq in E. subst. now rewrite find_filter_same.
    + now rewrite find_filter_other.
  - now destruct (String.eqb u account && String.eqb e entry)%bool.
  - now destruct (String.eqb u account && String.eqb e entry)%bool.
Qed.

Lemma unlinkSync_regular (w : World) (p : FsPath) (bytes : Z) :
  statOf (disk w) p = Some (RegularFile bytes) ->
  exists w', unlinkSync p w = (Ok tt, w')
             /\ files w' = files w
             /\ storageStats w' = storageStats w
             /\ existsSyncAt (disk w') (Some p) = false
             /\ (forall q, statOf (disk w') q = None \/ statOf (disk w') q = statOf (disk w) q).
Proof.
  intros H. unfold unlinkSync.
  destruct p as [u e|q]; [|discriminate]. rewrite H.
  eexists. split; [reflexivity|]. cbn [files storageStats disk setDisk].
  repeat split.
  - unfold existsSyncAt. rewrite statOf_removeEntry, !String.eqb_refl. reflexivity.
  - intros q. rewrite statOf_removeEntry. destruct q as [u' e'|]; [|now left].
    destruct (String.eqb u' u && String.eqb e' e)%bool; auto.
Qed.

Lemma unlinkIfExists_ok (w : World) (p : FsPath) :
  regularOrGone (disk w) p ->
  exists w', unlinkIfExists p w = (Ok tt, w')
             /\ files w' = files w
             /\ storageStats w' = storageStats w
             /\ existsSyncAt (disk w') (Some p) = false
             /\ (forall q, statOf (disk w') q = None \/ statOf (disk w') q = statOf (disk w) q).
Proof.
  intros [Hgone | [bytes Hreg]]; unfold unlinkIfExists, bind, existsSync, gets.
  - unfold existsSyncAt at 1. rewrite Hgone. exists w. cbn.
    repeat split; auto. unfold existsSyncAt. now rewrite Hgone.
  - unfold existsSyncAt at 1. rewrite Hreg.
    now apply unlinkSync_regular with bytes.
Qed.

Lemma forEach_unlinkIfExists (l : list Multer.file) (w : World) :
  (forall f, In f l -> regularOrGone (disk w) (Multer.path f)) ->
  exists w', forEach l (fun f => unlinkIfExists (Multer.path f)) w = (Ok tt, w')
             /\ files w' = files w
             /\ storageStats w' = storageStats w
             /\ (forall f, In f l -> existsSyncAt (disk w') (Some (Multer.path f)) = false)
             /\ (forall q, statOf (disk w') q = None \/ statOf (disk w') q = statOf (disk w) q).
Proof.
  revert w. induction l as [|f l IH]; intros w Hall.
  - exists w. cbn. repeat split; auto. intros f [].
  - destruct (@unlinkIfExists_ok w (Multer.path f) (Hall f (or_introl eq_refl)))
      as (w1 & Hrun & Hfiles & Hstats & Hgone & Hother).
    destruct (IH w1) as (w2 & Hrun2 & Hfiles2 & Hstats2 & Hgone2 & Hother2).
    { intros g Hg. destruct (Hother (Multer.path g)) as [Hn | Hs].
      - now left.
      - unfold regularOrGone. rewrite Hs. apply Hall. now right. }
    exists w2. cbn. unfold bind. rewrite Hrun, Hrun2.
    split; [reflexivity|]. split; [congruence|]. split; [congruence|]. split.
    + intros g [<-|Hg]; [|now apply Hgone2].
      unfold existsSyncAt in *. destruct (Hother2 (Multer.path f)) as [Hn | Hs].
      * now rewrite Hn.
      * now rewrite Hs.
    + intros q. destruct (Hother2 q) as [Hn | Hs]; [now left|].
      rewrite Hs. apply Hother.
Qed.

(** ** Uploads over the ceiling *)

Lemma fold_left_sizes (l : list Multer.file) (acc : Z) :
  fold_left (fun sum f => sum + Multer.size f) l acc
  = acc + fold_right (fun f a => Multer.size f + a) 0 l.
Proof.
  revert acc. induction l as [|f l IH]; intros acc; cbn; [lia|].
  rewrite IH. lia.
Qed.

Lemma parent_lookup (w : World) (user : ObjectId) (field : FolderField) :
  ParentAccepted w user field ->
  match normalizeParent field with
  | Some p => exists doc, find (isLiveFolderOf user p) (files w) = Some doc
  | None => True
  end.
Proof.
  intros [f Hf | p doc Hdoc]; [now rewrite Hf | cbn; eauto].
Qed.

Lemma upload_single_over_quota (w : World) (user : ObjectId) (f : Multer.file)
    (field : FolderField) :
  ParentAccepted w user field -> stored w f ->
  usedBy user w + Multer.size f > quotaBytes ->
  exists w', upload user (Some f) field w = (QuotaExceededError, w')
             /\ files w' = files w
             /\ existsSyncAt (disk w') (Some (Multer.path f)) = false.
Proof.
  intros Hparent [Hdisk Hsize] Hover.
  destruct (@unlinkSync_regular w (Multer.path f) _ Hdisk)
    as (w' & Hrun & Hfiles & _ & Hgone & _).
  exists w'. split; [|now split].
  assert (Hcheck : match statsOf user w with
                   | Some st => usedStorage st + Multer.size f >? quotaBytes
                   | None => false
                   end = true).
  { unfold usedBy in Hover. destruct (statsOf user w) as [st|].
    - apply Z.gtb_lt. lia.
    - unfold Multer.fileSizeLimit, quotaBytes in *. lia. }
  apply parent_lookup in Hparent.
  unfold upload, uploadBody. open_route.
  unfold statsOf in Hcheck.
  destruct (normalizeParent field) as [p|].
  - destruct Hparent as [doc Hdoc]. rewrite Hdoc, Hcheck, Hrun. reflexivity.
  - rewrite Hcheck, Hrun. reflexivity.
Qed.

Lemma upload_batch_over_quota (w : World) (user : ObjectId) (fs : list Multer.file)
    (flag : bool) (paths : PathsField) (field : FolderField) :
  ParentAccepted w user field -> fs <> [] ->
  (forall f, In f fs -> stored w f) ->
  usedBy user w + fold_right (fun f a => Multer.size f + a) 0 fs > quotaBytes ->
  exists w', uploadMultiple user fs field flag paths w = (QuotaExceededError, w')
             /\ files w' = files w
             /\ forall f, In f fs -> existsSyncAt (disk w') (Some (Multer.path f)) = false.
Proof.
  intros Hparent Hne Hstored Hover.
  destruct (@forEach_unlinkIfExists fs w) as (w' & Hrun & Hfiles & _ & Hgone & _).
  { intros f Hf. right. destruct (Hstored f Hf) as [Hdisk _]. eauto. }
  exists w'. split; [|now split].
  assert (Hcheck : (match statsOf user w with
                    | Some st => usedStorage st
                    | None => 0
                    end + fold_left (fun sum f => sum + Multer.size f) fs 0 >? quotaBytes)
                   = true).
  { rewrite fold_left_sizes. apply Z.gtb_lt. unfold usedBy in Hover. lia. }
  apply parent_lookup in Hparent.
  unfold uploadMultiple. destruct fs as [|f0 fs0]; [congruence|].
  unfold uploadMultipleBody. open_route.
  unfold statsOf in Hcheck.
  destruct (normalizeParent field) as [p|].
  - destruct Hparent as [doc Hdoc]. rewrite Hdoc, Hcheck, Hrun. reflexivity.
  - rewrite Hcheck, Hrun. reflexivity.
Qed.

(** C3. An upload that multer accepted (every file at most 100 MiB, its bytes
    on disk) and whose parent folder passed the first check is refused when
    the used storage of the account (0 when it has no record) plus the
    incoming size exceeds 16106127360: the answer is the quota error, the
    [File] collection is as before, and none of the incoming files is left on
    disk.  Both upload routes. *)
Theorem upload_over_quota (w : World) (user : ObjectId) (r : UploadRequest)
    (field : FolderField) :
  ParentAccepted w user field ->
  incoming r <> [] ->
  (forall f, In f (incoming r) -> stored w f) ->
  usedBy user w + incomingSize r > 16106127360 ->
  exists w', runUpload user r field w = (QuotaExceededError, w')
             /\ files w' = files w
             /\ forall f, In f (incoming r) ->
                  existsSyncAt (disk w') (Some (Multer.path f)) = false.
Proof.
  intros Hparent Hne Hstored Hover. destruct r as [f | fs flag paths].
  - destruct (@upload_single_over_quota w user f field Hparent)
      as (w' & Hrun & Hfiles & Hgone).
    + apply Hstored. now left.
    + unfold incomingSize in Hover. cbn in Hover. unfold quotaBytes. lia.
    + exists w'. split; [exact Hrun|]. split; [exact Hfiles|].
      intros g [<-|[]]. exact Hgone.
  - now apply upload_batch_over_quota.
Qed.

Lemma upload_over_quota_witness :
  exists w', upload Scenario.alice (Some (fst Scenario.tooBig)) FieldRoot
                    (snd Scenario.tooBig)
             = (QuotaExceededError, w')
             /\ files w' = files (snd Scenario.tooBig)
             /\ forall f, In f [fst Scenario.tooBig] ->
                  existsSyncAt (disk w') (Some (Multer.path f)) = false.
Proof.
  apply (@upload_over_quota (snd Scenario.tooBig) Scenario.alice
           (Single (fst Scenario.tooBig)) FieldRoot).
  - apply ParentRoot. reflexivity.
  - discriminate.
  - intros f [<-|[]]. split; [vm_compute; reflexivity|]. split; vm_compute; discriminate.
  - vm_compute. reflexivity.
Defined.

(** C3, as stated, fails when the parent folder is not accepted: the
    request is over the ceiling, and the answer is the invalid-parent error. *)
Lemma upload_over_quota_with_bad_parent :
  usedBy Scenario.alice (snd Scenario.tooBig) + Multer.size (fst Scenario.tooBig)
    > quotaBytes
  /\ fst (upload Scenario.alice (Some (fst Scenario.tooBig)) (FieldId 999)
                 (snd Scenario.tooBig))
     = InvalidParentError
  /\ InvalidParentError <> QuotaExceededError.
Proof.
  split; [vm_compute; reflexivity|]. split; [vm_compute; reflexivity|discriminate].
Qed.

(** Without a record the single-file route compares nothing: it is multer's
    limit of 100 MiB per file that keeps such an upload under the ceiling. *)
Example upload_without_record_is_not_checked :
  let w := mkWorld [] [] [] (Some [("000000000000000000000009", AreaDir [("x-1.bin", RegularFile 20000000000)])])
                   1 1700000100000 in
  fst (upload 9 (Some (Multer.mkUpload "x.bin" "application/octet-stream" 20000000000
                                       "x-1.bin" (InArea "000000000000000000000009" "x-1.bin")))
              FieldRoot w)
  = FileJson 201 "File uploaded successfully"
             (mkInfo 1 "x.bin" "document" 20000000000 1700000100000 None).
Proof. reflexivity. Qed.

(** ** Duplicate uploads *)

Lemma fresh_id_absent (w : World) :
  idsBelowCounter w -> existsb (hasId (nextId w)) (files w) = false.
Proof.
  intros Hfresh. apply not_true_iff_false. intros H.
  apply existsb_exists in H as (g & Hg & E). apply Nat.eqb_eq in E.
  specialize (Hfresh g Hg). lia.
Qed.

(** What an answer 201 of the single-file route tells about the request. *)
Lemma upload_created_inv (w w1 : World) (user : ObjectId) (f : Multer.file)
    (field : FolderField) (msg : string) (info : FileInfo) :
  idsBelowCounter w ->
  upload user (Some f) field w = (FileJson 201 msg info, w1) ->
  ParentAccepted w user field
  /\ find (sameUpload user (Multer.originalname f) (Multer.size f)
                      (normalizeParent field)) (files w) = None
  /\ files w1 = (files w ++ [uploadedDoc w user f field])%list
  /\ info = infoOf (uploadedDoc w user f field)
  /\ statsOf user w1 = Some (recompute user (files w1)).
Proof.
  intros Hfresh. apply fresh_id_absent in Hfresh.
  unfold upload, uploadBody. open_route.
  unfold uploadedDoc.
  assert (Hpar : forall p doc, field = FieldId p ->
                   find (isLiveFolderOf user p) (files w) = Some doc ->
                   ParentAccepted w user field).
  { intros p doc -> H. now apply ParentLive with doc. }
  assert (Hroot : normalizeParent field = None -> ParentAccepted w user field)
    by apply ParentRoot.
  destruct (normalizeParent field) as [p|] eqn:Hnorm.
  - assert (Hfield : field = FieldId p) by (destruct field; cbn in Hnorm; congruence).
    destruct (find (isLiveFolderOf user p) (files w)) as [doc|] eqn:Hdoc.
    2:{ fail_paths. }
    specialize (Hpar p doc Hfield Hdoc). clear Hroot.
    destruct (match find _ (storageStats w) with Some _ => _ | None => _ end).
    { fail_paths. }
    destruct (find (sameUpload _ _ _ _) (files w)) as [ex|] eqn:Hdup.
    { cbn. discriminate. }
    unfold newFile, save, modify, updateUserStats, logActivity. cbn.
    rewrite Hfresh. cbn.
    destruct (validActivity _); cbn; [|fail_paths].
    intros H. injection H as <- <- <-.
    repeat split; try assumption; try reflexivity.
    unfold statsOf. cbn. rewrite find_app_right.
    + cbn. now rewrite Nat.eqb_refl.
    + apply find_all_false. intros s Hs. apply filter_In in Hs as [_ Hs].
      now apply negb_true_iff in Hs.
  - specialize (Hroot eq_refl). clear Hpar.
    destruct (match find _ (storageStats w) with Some _ => _ | None => _ end).
    { fail_paths. }
    destruct (find (sameUpload _ _ _ _) (files w)) as [ex|] eqn:Hdup.
    { cbn. discriminate. }
    unfold newFile, save, modify, updateUserStats, logActivity. cbn.
    rewrite Hfresh. cbn.
    destruct (validActivity _); cbn; [|fail_paths].
    intros H. injection H as <- <- <-.
    repeat split; try assumption; try reflexivity.
    unfold statsOf. cbn. rewrite find_app_right.
    + cbn. now rewrite Nat.eqb_refl.
    + apply find_all_false. intros s Hs. apply filter_In in Hs as [_ Hs].
      now apply negb_true_iff in Hs.
Qed.

(** The duplicate branch of the single-file route: the existing node is
    reported, the ledger recomputed, and neither the collection nor the disk
    is touched. *)
Lemma upload_duplicate (w : World) (user : ObjectId) (f : Multer.file)
    (field : FolderField) (existing : File) :
  ParentAccepted w user field ->
  usedBy user w + Multer.size f <= quotaBytes ->
  find (sameUpload user (Multer.originalname f) (Multer.size f)
                   (normalizeParent field)) (files w) = Some existing ->
  upload user (Some f) field w
  = (FileJson 200 "File already exists, skipped duplicate" (infoOf existing),
     snd (updateUserStats user w)).
Proof.
  intros Hparent Hquota Hdup.
  assert (Hcheck : match statsOf user w with
                   | Some st => usedStorage st + Multer.size f >? quotaBytes
                   | None => false
                   end = false).
  { unfold usedBy in Hquota. destruct (statsOf user w) as [st|]; [|reflexivity].
    rewrite Z.gtb_ltb. apply Z.ltb_ge. lia. }
  apply parent_lookup in Hparent.
  unfold upload, uploadBody. open_route.
  unfold statsOf in Hcheck.
  destruct (normalizeParent field) as [p|].
  - destruct Hparent as [doc Hdoc]. rewrite Hdoc, Hcheck, Hdup. reflexivity.
  - rewrite Hcheck, Hdup. reflexivity.
Qed.

Lemma sameUpload_uploadedDoc (w : World) (user : ObjectId) (f : Multer.file)
    (field : FolderField) :
  sameUpload user (Multer.originalname f) (Multer.size f) (normalizeParent field)
             (uploadedDoc w user f field) = true.
Proof.
  unfold sameUpload, uploadedDoc. cbn.
  now rewrite Nat.eqb_refl, String.eqb_refl, Z.eqb_refl, optEqb_refl.
Qed.

Lemma parent_accepted_later (w w' : World) (user : ObjectId) (field : FolderField)
    (extra : list File) :
  ParentAccepted w user field -> files w' = (files w ++ extra)%list ->
  ParentAccepted w' user field.
Proof.
  intros [fld Hroot | p doc Hdoc] Hfiles.
  - now apply ParentRoot.
  - apply ParentLive with doc. rewrite Hfiles. now apply find_app_left.
Qed.

(** C2. Two uploads through the single-file route, same name, same size,
    same parent field, nothing else in between: when the first one created
    the node and the second one is within the ceiling, the second one answers
    200 with the identity of the first node (a live node of the collection)
    and leaves the collection exactly as the first one left it. *)
Theorem second_upload_reports_first (w w1 : World) (user : ObjectId)
    (f1 f2 : Multer.file) (field : FolderField) (info : FileInfo) (d : Disk) :
  idsBelowCounter w ->
  upload user (Some f1) field w = (FileJson 201 "File uploaded successfully" info, w1) ->
  Multer.originalname f2 = Multer.originalname f1 ->
  Multer.size f2 = Multer.size f1 ->
  usedBy user w1 + Multer.size f2 <= 16106127360 ->
  exists w2 node,
    upload user (Some f2) field (setDisk d w1)
    = (FileJson 200 "File already exists, skipped duplicate" info, w2)
    /\ files w2 = files w1
    /\ In node (files w1) /\ inTrash node = false
    /\ info = mkInfo (_id node) (name node) (type node) (size node)
                     (createdAt node) (parentFolder node).
Proof.
  intros Hfresh Hfirst Hname Hsize Hquota.
  destruct (@upload_created_inv w w1 user f1 field _ info Hfresh Hfirst) as (Hparent & Hnone & Hfiles & Hinfo & _).
  set (node := uploadedDoc w user f1 field) in *.
  assert (Hdup : find (sameUpload user (Multer.originalname f2) (Multer.size f2)
                                  (normalizeParent field)) (files (setDisk d w1))
                 = Some node).
  { cbn. rewrite Hfiles, Hname, Hsize, find_app_right by assumption.
    cbn. unfold node. now rewrite sameUpload_uploadedDoc. }
  exists (snd (updateUserStats user (setDisk d w1))), node.
  split; [|split; [reflexivity|split; [|split]]].
  - rewrite Hinfo. apply upload_duplicate; [| exact Hquota | exact Hdup].
    apply parent_accepted_later with (w := w) (extra := [node]); assumption.
  - rewrite Hfiles. apply in_or_app. right. now left.
  - reflexivity.
  - exact Hinfo.
Qed.

Lemma second_upload_reports_first_witness :
  exists w2 node,
    upload Scenario.alice (Some (fst Scenario.freshAgain)) (FieldId 1)
           (setDisk (disk (snd Scenario.freshAgain)) (snd Scenario.afterFresh))
    = (FileJson 200 "File already exists, skipped duplicate"
                (mkInfo 7 "b.txt" "text" 700 1700000100000 (Some 1%nat)), w2)
    /\ files w2 = files (snd Scenario.afterFresh)
    /\ In node (files (snd Scenario.afterFresh)) /\ inTrash node = false
    /\ mkInfo 7 "b.txt" "text" 700 1700000100000 (Some 1%nat)
       = mkInfo (_id node) (name node) (type node) (size node)
                (createdAt node) (parentFolder node).
Proof.
  apply (@second_upload_reports_first (snd Scenario.freshUpload) (snd Scenario.afterFresh)
           Scenario.alice (fst Scenario.freshUpload) (fst Scenario.freshAgain)
           (FieldId 1)).
  - intros g [<-|[<-|[<-|[<-|[<-|[<-|[]]]]]]]; cbn; lia.
  - vm_compute. reflexivity.
  - reflexivity.
  - reflexivity.
  - vm_compute. discriminate.
Defined.

(** C2, as stated, fails close to the ceiling: the first upload of big.iso
    creates the node, and the second one, same name and size, is refused for
    quota instead of reporting the first node. *)
Lemma second_upload_refused_near_ceiling :
  (exists info,
     fst Scenario.afterFirstBig = FileJson 201 "File uploaded successfully" info)
  /\ Multer.originalname (fst Scenario.secondBig)
     = Multer.originalname (fst Scenario.firstBig)
  /\ Multer.size (fst Scenario.secondBig) = Multer.size (fst Scenario.firstBig)
  /\ fst (upload Scenario.alice (Some (fst Scenario.secondBig)) FieldRoot
                 (snd Scenario.secondBig))
     = QuotaExceededError.
Proof.
  split; [eexists; vm_compute; reflexivity|].
  split; [reflexivity|]. split; [reflexivity|].
  vm_compute. reflexivity.
Qed.

(** ** The duplicate branch of the batch route *)

Lemma tryUnlink_ok (p : FsPath) (w : World) :
  exists w', tryUnlink p w = (Ok tt, w') /\ files w' = files w.
Proof.
  unfold tryUnlink, tryCatch, unlinkSync, ret.
  destruct p as [u e|q]; [|now exists w].
  destruct (statOf (disk w) (InArea u e)) as [[bytes| |]|]; eauto.
Qed.

Lemma forEach_tryUnlink (l : list Multer.file) (w : World) :
  exists w', forEach l (fun f => tryUnlink (Multer.path f)) w = (Ok tt, w')
             /\ files w' = files w.
Proof.
  revert w. induction l as [|f l IH]; intros w; [now exists w|].
  destruct (tryUnlink_ok (Multer.path f) w) as (w1 & H1 & Hf1).
  destruct (IH w1) as (w2 & H2 & Hf2).
  exists w2. cbn. unfold bind. rewrite H1, H2. split; [reflexivity|congruence].
Qed.

(** The activity type the batch route logs for a duplicate is not among the
    types the schema allows, so logging it throws. *)
Lemma skipped_activity_is_rejected (existing : File) (orig : string) (user : ObjectId)
    (w : World) :
  logActivity (skippedActivity existing orig user) w = (Throw, w).
Proof. reflexivity. Qed.

(** A batch that starts with a duplicate ends in the [catch] block: answer
    500, no node created. *)
Lemma batch_duplicate_fails (w : World) (user : ObjectId) (f : Multer.file)
    (rest : list Multer.file) (field : FolderField) (existing : File) :
  ParentAccepted w user field ->
  usedBy user w + fold_right (fun g a => Multer.size g + a) 0 (f :: rest) <= quotaBytes ->
  find (sameUpload user (Multer.originalname f) (Multer.size f)
                   (normalizeParent field)) (files w) = Some existing ->
  exists w', uploadMultiple user (f :: rest) field false PathsMissing w
             = (ErrorJson 500 "Server error while uploading files", w')
             /\ files w' = files w.
Proof.
  intros Hparent Hquota Hdup.
  destruct (forEach_tryUnlink (f :: rest) w) as (w' & Hrun & Hfiles).
  exists w'. split; [|exact Hfiles].
  assert (Hcheck : (match statsOf user w with
                    | Some st => usedStorage st
                    | None => 0
                    end + fold_left (fun sum g => sum + Multer.size g) (f :: rest) 0
                    >? quotaBytes) = false).
  { rewrite fold_left_sizes, Z.gtb_ltb. apply Z.ltb_ge. unfold usedBy in Hquota. lia. }
  apply parent_lookup in Hparent.
  unfold uploadMultiple, uploadMultipleBody. open_route.
  unfold statsOf in Hcheck.
  destruct (normalizeParent field) as [p|].
  - destruct Hparent as [doc Hdoc]. rewrite Hdoc, Hcheck.
    cbn [placeFiles]. unfold bind, ret, findOne, gets. rewrite Hdup.
    rewrite skipped_activity_is_rejected. unfold bind in Hrun. rewrite Hrun. reflexivity.
  - rewrite Hcheck.
    cbn [placeFiles]. unfold bind, ret, findOne, gets. rewrite Hdup.
    rewrite skipped_activity_is_rejected. unfold bind in Hrun. rewrite Hrun. reflexivity.
Qed.

Example batch_duplicate_on_disk :
  let f := fst Scenario.secondCopy in
  let out := uploadMultiple Scenario.alice [f] (FieldId 1) false PathsMissing
                            (snd Scenario.secondCopy) in
  fst out = ErrorJson 500 "Server error while uploading files"
  /\ existsSyncAt (disk (snd out)) (Some (Multer.path f)) = false.
Proof. split; reflexivity. Qed.

(** C9. A duplicate sent to the single-file route is answered 200 with the
    existing node, and the bytes multer wrote for it stay on disk although
    no node refers to them. *)
Theorem duplicate_upload_leaves_bytes_behind :
  let f := fst Scenario.secondCopy in
  let w := snd Scenario.secondCopy in
  let out := upload Scenario.alice (Some f) (FieldId 1) w in
  statOf (disk w) (Multer.path f) = Some (RegularFile 500)
  /\ fst out = FileJson 200 "File already exists, skipped duplicate"
                        (infoOf Scenario.aTxt)
  /\ files (snd out) = files w
  /\ statOf (disk (snd out)) (Multer.path f) = Some (RegularFile 500)
  /\ forall g, In g (files (snd out)) -> path g <> Some (Multer.path f).
Proof.
  cbv zeta. split; [reflexivity|]. split; [reflexivity|].
  split; [reflexivity|]. split; [reflexivity|].
  intros g [<-|[<-|[<-|[<-|[<-|[<-|[]]]]]]]; discriminate.
Qed.

(** The same holds of every duplicate the single-file route detects. *)
Lemma duplicate_upload_keeps_disk (w : World) (user : ObjectId) (f : Multer.file)
    (field : FolderField) (existing : File) :
  ParentAccepted w user field ->
  usedBy user w + Multer.size f <= quotaBytes ->
  find (sameUpload user (Multer.originalname f) (Multer.size f)
                   (normalizeParent field)) (files w) = Some existing ->
  disk (snd (upload user (Some f) field w)) = disk w.
Proof.
  intros Hparent Hquota Hdup.
  now rewrite (@upload_duplicate w user f field existing Hparent Hquota Hdup).
Qed.

(** ** The fallback search of the download route *)










(* ========================================================================= *)
(** * Further properties of the routes *)

(** ** The checks decide the invariants *)

Lemma idsBelowCounter_checked (w : World) :
  idsBelowCounterb w = true -> idsBelowCounter w.
Proof.
  unfold idsBelowCounterb. intros H f Hf.
  rewrite forallb_forall in H. now apply Nat.ltb_lt, H.
Defined.

Lemma distinct_checked (l : list ObjectId) : distinct l = true -> NoDup l.
Proof.
  induction l as [|x r IH]; cbn; intros H; [constructor|].
  apply andb_prop in H as [Hx Hr]. constructor; [|now apply IH].
  intros Hin. apply negb_true_iff in Hx. apply not_true_iff_false in Hx. apply Hx.
  apply existsb_exists. exists x. split; [assumption|apply Nat.eqb_refl].
Defined.

Lemma uniqueFolderNames_checked (fs : list File) :
  uniqueFolderNamesb fs = true -> uniqueFolderNames fs.
Proof.
  unfold uniqueFolderNamesb. intros H f g Hf Hg Hff Hgf Hft Hgt Hu Hp Hn.
  rewrite forallb_forall in H. specialize (H f Hf).
  rewrite forallb_forall in H. specialize (H g Hg).
  rewrite Hff, Hgf, Hft, Hgt, Hu, Hp, Hn in H.
  rewrite Nat.eqb_refl, optEqb_refl, String.eqb_refl in H. cbn in H.
  now apply Nat.eqb_eq.
Defined.

Lemma foldersUnlinked_checked (fs : list File) :
  foldersUnlinkedb fs = true -> foldersUnlinked fs.
Proof.
  unfold foldersUnlinkedb. intros H g Hg Hfolder.
  rewrite forallb_forall in H. specialize (H g Hg). rewrite Hfolder in H.
  cbn in H. now destruct (publicUrl g).
Defined.

Lemma recipientsDistinct_checked (fs : list File) :
  recipientsDistinctb fs = true -> recipientsDistinct fs.
Proof.
  unfold recipientsDistinctb. intros H g Hg.
  rewrite forallb_forall in H. specialize (H g Hg).
  apply andb_prop in H as [Hd Ho]. split; [now apply distinct_checked|].
  intros Hin. apply negb_true_iff in Ho. apply not_true_iff_false in Ho. apply Ho.
  apply existsb_exists. exists (userId g). split; [assumption|apply Nat.eqb_refl].
Defined.

(** ** Names *)

Lemma trimStart_blank (s : string) : blank s = true -> trimStart s = "".
Proof.
  unfold blank. induction s as [|c r IH]; cbn; [reflexivity|].
  intros H. apply andb_prop in H as [Hc Hr]. rewrite Hc. now apply IH.
Qed.

Lemma trim_blank (s : string) : blank s = true -> trim s = "".
Proof. intros H. unfold trim. now rewrite trimStart_blank. Qed.

Lemma trimEnd_empty (s : string) : trimEnd s = "" -> blank s = true.
Proof.
  unfold blank. induction s as [|c r IH]; cbn; [reflexivity|].
  destruct (trimEnd r) eqn:E; [|discriminate].
  destruct (isWhiteSpace c); [|discriminate]. intros _. now rewrite IH.
Qed.

Lemma trim_empty (s : string) : trim s = "" -> blank s = true.
Proof.
  unfold trim. induction s as [|c r IH]; [reflexivity|].
  cbn [trimStart]. destruct (isWhiteSpace c) eqn:Hc.
  - intros H. unfold blank in *. cbn. rewrite Hc. now apply IH.
  - intros H. apply trimEnd_empty in H. exact H.
Qed.

Lemma trim_truthy (s : string) : Js.truthy (trim s) = true -> Js.truthy s = true.
Proof. destruct s; [discriminate|reflexivity]. Qed.

Lemma truthy_not_blank (s : string) :
  blank s = false -> Js.truthy (trim s) = true.
Proof.
  intros H. unfold Js.truthy. destruct (String.eqb_spec (trim s) ""); [|reflexivity].
  apply trim_empty in e. congruence.
Qed.

(** The leading and the trailing white space of a name are gone after
    [trim], and trimming again changes nothing. *)
Lemma trimEnd_idempotent (s : string) : trimEnd (trimEnd s) = trimEnd s.
Proof.
  induction s as [|c r IH]; cbn; [reflexivity|].
  destruct (trimEnd r) as [|d k] eqn:E.
  - destruct (isWhiteSpace c) eqn:Hc; cbn; [reflexivity|]. now rewrite Hc.
  - cbn. cbn in IH. destruct (match trimEnd k with "" => _ | String _ _ => _ end) eqn:E2.
    + discriminate.
    + now rewrite IH.
Qed.

Lemma trimStart_trimEnd (s : string) :
  trimStart (trimEnd (trimStart s)) = trimEnd (trimStart s).
Proof.
  induction s as [|c r IH]; cbn; [reflexivity|].
  destruct (isWhiteSpace c) eqn:Hc; [exact IH|].
  cbn [trimEnd]. destruct (trimEnd r); rewrite ?Hc; cbn [trimStart]; now rewrite Hc.
Qed.

Lemma trim_idempotent (s : string) : trim (trim s) = trim s.
Proof.
  unfold trim. rewrite trimStart_trimEnd. apply trimEnd_idempotent.
Qed.

(** The no-break space (160) is stripped like the space; the next line
    (133) is kept. *)
Example trim_strips_the_no_break_space :
  trim (String (ascii_of_nat 160) " a b" ++ String (ascii_of_nat 160) "") = "a b"
  /\ blank (String (ascii_of_nat 160) "") = true
  /\ blank (String (ascii_of_nat 133) "") = false.
Proof. repeat split; reflexivity. Qed.

(** ** Creating folders *)

Lemma not_blank_checks (nm : string) :
  blank nm = false ->
  (negb (Js.truthy nm) || String.eqb (trim nm) "")%bool = false.
Proof.
  intros H. pose proof (truthy_not_blank nm H) as Ht.
  rewrite (trim_truthy nm Ht). cbn.
  unfold Js.truthy in Ht. now apply negb_true_iff in Ht.
Qed.

Lemma blank_checks (nm : string) :
  blank nm = true ->
  (negb (Js.truthy nm) || String.eqb (trim nm) "")%bool = true.
Proof.
  intros H. rewrite (trim_blank nm H). cbn. apply orb_true_r.
Qed.

Lemma createFolder_creates (w : World) (user : ObjectId) (nm : string)
    (parent : option ObjectId) :
  idsBelowCounter w ->
  blank nm = false ->
  find (isFolderNamed user (trim nm) parent) (files w) = None ->
  createFolder user (Some nm) parent w
  = (NodeJson 201 "Folder created successfully" (createdFolder w user nm parent),
     afterInsert w (createdFolder w user nm parent)
       (mkActivity "create_folder" (Some (nextId w)) (trim nm) (Some user))).
Proof.
  intros Hfresh Hnm Hnone. apply fresh_id_absent in Hfresh.
  unfold createFolder, answer. rewrite (not_blank_checks nm Hnm).
  open_route. rewrite Hnone.
  unfold newFile, save, modify, logActivity, validActivity. cbn.
  rewrite Hfresh. cbn. rewrite (truthy_not_blank nm Hnm). reflexivity.
Qed.

Lemma createFolder_blank (w : World) (user : ObjectId) (nameField : option string)
    (parent : option ObjectId) :
  match nameField with Some nm => blank nm = true | None => True end ->
  createFolder user nameField parent w
  = (Plain (ErrorJson 400 "Folder name is required"), w).
Proof.
  unfold createFolder, answer. destruct nameField as [nm|]; [|reflexivity].
  intros H. now rewrite (blank_checks nm H).
Qed.

Lemma createFolder_existing (w : World) (user : ObjectId) (nm : string)
    (parent : option ObjectId) (ex : File) :
  blank nm = false ->
  find (isFolderNamed user (trim nm) parent) (files w) = Some ex ->
  createFolder user (Some nm) parent w
  = (Plain (ErrorJson 400 "A folder with this name already exists in this location"), w).
Proof.
  intros Hnm Hex. unfold createFolder, answer. rewrite (not_blank_checks nm Hnm).
  open_route. now rewrite Hex.
Qed.

(** What an answer 201 of the create-folder route tells about the request. *)
Lemma createFolder_created_inv (w w1 : World) (user : ObjectId) (nameField : option string)
    (parent : option ObjectId) (msg : string) (nf : File) :
  idsBelowCounter w ->
  createFolder user nameField parent w = (NodeJson 201 msg nf, w1) ->
  exists nm, nameField = Some nm /\ blank nm = false
    /\ find (isFolderNamed user (trim nm) parent) (files w) = None
    /\ nf = createdFolder w user nm parent
    /\ w1 = afterInsert w nf (mkActivity "create_folder" (Some (nextId w)) (trim nm)
                                        (Some user)).
Proof.
  intros Hfresh H.
  destruct nameField as [nm|]; [|now rewrite createFolder_blank in H].
  destruct (blank nm) eqn:Hnm; [now rewrite createFolder_blank in H|].
  destruct (find (isFolderNamed user (trim nm) parent) (files w)) as [ex|] eqn:Hex.
  { now rewrite (createFolder_existing w user nm parent Hnm Hex) in H. }
  rewrite (createFolder_creates user nm parent Hfresh Hnm Hex) in H.
  injection H as _ <- <-. exists nm. now repeat split.
Qed.

Lemma unique_after_insert (user : ObjectId) (nm : string) (parent : option ObjectId)
    (fs : list File) (nf : File) :
  uniqueFolderNames fs ->
  find (isFolderNamed user nm parent) fs = None ->
  userId nf = user -> name nf = nm -> parentFolder nf = parent ->
  uniqueFolderNames (fs ++ [nf]).
Proof.
  intros Huniq Hnone Hu Hn Hp f g Hf Hg Hff Hgf Hft Hgt Hsame Hpar Hname.
  assert (Hold : forall h, In h fs -> isFolder h = true -> inTrash h = false ->
                   userId h = user -> parentFolder h = parent -> name h = nm -> False).
  { intros h Hh H1 H2 H3 H4 H5.
    pose proof (find_none _ _ Hnone h Hh) as Hq. unfold isFolderNamed in Hq.
    rewrite H1, H2, H3, H4, H5, String.eqb_refl, Nat.eqb_refl, optEqb_refl in Hq.
    discriminate. }
  apply in_app_or in Hf as [Hf|[<-|[]]]; apply in_app_or in Hg as [Hg|[<-|[]]].
  - now apply Huniq.
  - exfalso. apply (Hold f Hf Hff Hft); congruence.
  - exfalso. apply (Hold g Hg Hgf Hgt); congruence.
  - reflexivity.
Qed.

Lemma ids_after_insert (w : World) (f : File) (a : Activity) :
  idsBelowCounter w -> _id f = nextId w -> idsBelowCounter (afterInsert w f a).
Proof.
  intros H Hid g Hg. cbn in *. apply in_app_or in Hg as [Hg|[<-|[]]].
  - specialize (H g Hg). lia.
  - lia.
Qed.

(** X1. The create-folder route keeps folder names unique: whatever the
    request, if no two live folders of an account shared a name under one
    parent before, none do afterwards (and the ids stay below the counter, so
    the statement can be iterated over any sequence of such requests). *)
Theorem createFolder_keeps_names_unique (w : World) (user : ObjectId)
    (nameField : option string) (parent : option ObjectId) :
  idsBelowCounter w ->
  uniqueFolderNames (files w) ->
  uniqueFolderNames (files (snd (createFolder user nameField parent w)))
  /\ idsBelowCounter (snd (createFolder user nameField parent w)).
Proof.
  intros Hfresh Huniq.
  destruct nameField as [nm|]; [|now rewrite createFolder_blank].
  destruct (blank nm) eqn:Hnm; [now rewrite createFolder_blank|].
  destruct (find (isFolderNamed user (trim nm) parent) (files w)) as [ex|] eqn:Hex.
  { now rewrite (createFolder_existing w user nm parent Hnm Hex). }
  rewrite (createFolder_creates user nm parent Hfresh Hnm Hex).
  split.
  - cbn [snd]. apply unique_after_insert with user (trim nm) parent; trivial.
  - now apply ids_after_insert.
Qed.

Lemma createFolder_keeps_names_unique_witness :
  uniqueFolderNames
    (files (snd (createFolder Scenario.alice (Some "Docs") (Some 1%nat) Scenario.tree)))
  /\ idsBelowCounter (snd (createFolder Scenario.alice (Some "Docs") (Some 1%nat)
                                         Scenario.tree)).
Proof.
  apply createFolder_keeps_names_unique.
  - apply idsBelowCounter_checked. vm_compute. reflexivity.
  - apply uniqueFolderNames_checked. vm_compute. reflexivity.
Defined.

(** X2. Once a folder was created, asking for it again under the same parent
    is refused and changes nothing, also when the name differs by leading or
    trailing white space. *)
Theorem createFolder_again_is_refused (w w1 : World) (user : ObjectId)
    (nm nm' : string) (parent : option ObjectId) (nf : File) :
  idsBelowCounter w ->
  createFolder user (Some nm) parent w
  = (NodeJson 201 "Folder created successfully" nf, w1) ->
  trim nm' = trim nm ->
  createFolder user (Some nm') parent w1
  = (Plain (ErrorJson 400 "A folder with this name already exists in this location"), w1).
Proof.
  intros Hfresh Hfirst Htrim.
  apply createFolder_created_inv in Hfirst as (n & Hn & Hnm & Hnone & -> & ->); trivial.
  injection Hn as <-.
  assert (Hnm' : blank nm' = false).
  { destruct (blank nm') eqn:E; [|reflexivity].
    apply trim_blank in E. rewrite Htrim in E. apply trim_empty in E. congruence. }
  destruct (find (isFolderNamed user (trim nm') parent)
                 (files (afterInsert w (createdFolder w user nm parent)
                           (mkActivity "create_folder" (Some (nextId w)) (trim nm)
                                       (Some user))))) as [ex|] eqn:Hex.
  { now apply createFolder_existing with ex. }
  exfalso. cbn in Hex. rewrite Htrim in Hex.
  pose proof (find_none _ _ Hex (createdFolder w user nm parent)) as Hq.
  unfold isFolderNamed in Hq. cbn in Hq.
  rewrite String.eqb_refl, Nat.eqb_refl, optEqb_refl in Hq.
  discriminate Hq. apply in_or_app. right. now left.
Qed.

Lemma createFolder_again_is_refused_witness :
  let w1 := snd (createFolder Scenario.alice (Some "Docs") None Scenario.tree) in
  createFolder Scenario.alice (Some " Docs ") None w1
  = (Plain (ErrorJson 400 "A folder with this name already exists in this location"), w1).
Proof.
  apply (@createFolder_again_is_refused Scenario.tree
           (snd (createFolder Scenario.alice (Some "Docs") None Scenario.tree))
           Scenario.alice "Docs" " Docs " None
           (createdFolder Scenario.tree Scenario.alice "Docs" None)).
  - apply idsBelowCounter_checked. vm_compute. reflexivity.
  - vm_compute. reflexivity.
  - vm_compute. reflexivity.
Defined.

(** ** Renaming *)

Lemma found_exists (q : File -> bool) (db : list File) (f : File) (i : ObjectId) :
  find q db = Some f -> _id f = i -> existsb (hasId i) db = true.
Proof.
  intros H E. apply find_some in H as [Hin _]. apply existsb_exists.
  exists f. split; [assumption|]. unfold hasId. now apply Nat.eqb_eq.
Qed.

Lemma rename_blank (w : World) (user fileId : ObjectId) (nameField : option string) :
  match nameField with Some nm => blank nm = true | None => True end ->
  rename user fileId nameField w = (Plain (ErrorJson 400 "New name is required"), w).
Proof.
  unfold rename, answer. destruct nameField as [nm|]; [|reflexivity].
  intros H. now rewrite (blank_checks nm H).
Qed.

Lemma rename_missing (w : World) (user fileId : ObjectId) (nm : string) :
  blank nm = false ->
  find (ownedBy user fileId) (files w) = None ->
  rename user fileId (Some nm) w = (Plain NotFoundError, w).
Proof.
  intros Hnm Hnone. unfold rename, answer. rewrite (not_blank_checks nm Hnm).
  open_route. now rewrite Hnone.
Qed.

Lemma rename_renames (w : World) (user fileId : ObjectId) (nm : string) (f : File) :
  blank nm = false ->
  find (ownedBy user fileId) (files w) = Some f ->
  rename user fileId (Some nm) w
  = (NodeJson 200 "Renamed successfully" (setName f (trim nm) (clock w)),
     afterWrite w (setName f (trim nm) (clock w))
       (mkActivity "rename" (Some (_id f)) (trim nm) (Some user))).
Proof.
  intros Hnm Hf. unfold rename, answer. rewrite (not_blank_checks nm Hnm).
  open_route. rewrite Hf.
  unfold save, modify, logActivity, validActivity. cbn.
  rewrite (found_exists _ _ Hf eq_refl). cbn.
  rewrite (truthy_not_blank nm Hnm). reflexivity.
Qed.

(** X3. Both routes that take a name refuse exactly the missing and the blank
    ones (the empty string, or nothing but characters that [trim] strips: tab,
    line feed, vertical tab, form feed, carriage return, space, no-break
    space), and a refused request changes nothing. *)
Theorem blank_names_are_refused (w : World) (user fileId : ObjectId)
    (nameField : option string) (parent : option ObjectId) :
  let missing := match nameField with Some nm => blank nm = true | None => True end in
  (missing ->
   createFolder user nameField parent w
   = (Plain (ErrorJson 400 "Folder name is required"), w)
   /\ rename user fileId nameField w
      = (Plain (ErrorJson 400 "New name is required"), w))
  /\ (fst (createFolder user nameField parent w)
      = Plain (ErrorJson 400 "Folder name is required") -> missing)
  /\ (fst (rename user fileId nameField w)
      = Plain (ErrorJson 400 "New name is required") -> missing).
Proof.
  cbn zeta. split; [|split].
  - intros H. split; [now apply createFolder_blank|now apply rename_blank].
  - destruct nameField as [nm|]; [|trivial].
    destruct (blank nm) eqn:Hnm; [trivial|].
    destruct (find (isFolderNamed user (trim nm) parent) (files w)) as [ex|] eqn:Hex.
    { rewrite (createFolder_existing w user nm parent Hnm Hex). discriminate. }
    unfold createFolder, answer. rewrite (not_blank_checks nm Hnm).
    open_route. rewrite Hex.
    unfold newFile, save, modify, logActivity, validActivity. cbn.
    rewrite (truthy_not_blank nm Hnm).
    destruct (existsb _ (files w)); cbn; discriminate.
  - destruct nameField as [nm|]; [|trivial].
    destruct (blank nm) eqn:Hnm; [trivial|].
    destruct (find (ownedBy user fileId) (files w)) as [f|] eqn:Hf.
    + rewrite (rename_renames w user fileId nm Hnm Hf). discriminate.
    + rewrite (rename_missing w user fileId nm Hnm Hf). discriminate.
Qed.

Lemma blank_names_are_refused_witness :
  let spaces := String (ascii_of_nat 9) (String (ascii_of_nat 160) " ") in
  createFolder Scenario.alice (Some spaces) None Scenario.tree
  = (Plain (ErrorJson 400 "Folder name is required"), Scenario.tree)
  /\ rename Scenario.alice 6 (Some spaces) Scenario.tree
     = (Plain (ErrorJson 400 "New name is required"), Scenario.tree).
Proof.
  exact (proj1 (blank_names_are_refused Scenario.tree Scenario.alice 6
                  (Some (String (ascii_of_nat 9) (String (ascii_of_nat 160) " "))) None)
               eq_refl).
Defined.

Lemma in_replaceDoc_other (m g : File) (db : list File) :
  In g db -> _id g <> _id m -> In g (replaceDoc m db).
Proof.
  intros Hg Hne. unfold replaceDoc. apply in_map_iff. exists g. split; [|assumption].
  unfold hasId. destruct (Nat.eqb_spec (_id g) (_id m)); [contradiction|reflexivity].
Qed.

Lemma in_replaceDoc_self (m : File) (db : list File) :
  existsb (hasId (_id m)) db = true -> In m (replaceDoc m db).
Proof.
  intros H. apply existsb_exists in H as (g & Hg & E).
  unfold replaceDoc. apply in_map_iff. exists g. now rewrite E.
Qed.

(** X4. The rename route does not look for namesakes: a folder can be given
    the name of a live sibling folder, after which two live folders of the
    account carry the same name under the same parent. *)
Theorem rename_ignores_namesakes (w : World) (user : ObjectId) (a b : File)
    (nm : string) :
  find (ownedBy user (_id a)) (files w) = Some a ->
  In b (files w) -> _id b <> _id a -> userId b = user ->
  isFolder a = true -> isFolder b = true ->
  inTrash a = false -> inTrash b = false ->
  parentFolder b = parentFolder a ->
  blank nm = false -> trim nm = name b ->
  exists a' w1,
    rename user (_id a) (Some nm) w = (NodeJson 200 "Renamed successfully" a', w1)
    /\ In a' (files w1) /\ In b (files w1)
    /\ _id a' = _id a /\ name a' = name b
    /\ ~ uniqueFolderNames (files w1).
Proof.
  intros Ha Hb Hne Hub Hfa Hfb Hta Htb Hpar Hnm Htrim.
  pose proof (owned_has_id _ _ _ Ha) as (_ & Hua & Hina).
  exists (setName a (trim nm) (clock w)). eexists.
  split; [now apply rename_renames|].
  assert (Ha' : In (setName a (trim nm) (clock w))
                   (replaceDoc (setName a (trim nm) (clock w)) (files w))).
  { apply in_replaceDoc_self. cbn. now apply found_exists with (ownedBy user (_id a)) a. }
  assert (Hb' : In b (replaceDoc (setName a (trim nm) (clock w)) (files w))).
  { now apply in_replaceDoc_other. }
  cbn [files afterWrite setActivities setFiles].
  repeat split; trivial.
  intros Huniq.
  specialize (Huniq _ _ Ha' Hb'). cbn in Huniq.
  apply Hne. symmetry. apply Huniq; congruence.
Qed.

Lemma rename_ignores_namesakes_witness :
  exists a' w1,
    rename Scenario.alice 1 (Some "W") Scenario.tree
    = (NodeJson 200 "Renamed successfully" a', w1)
    /\ In a' (files w1) /\ In Scenario.W (files w1)
    /\ _id a' = 1%nat /\ name a' = "W"
    /\ ~ uniqueFolderNames (files w1).
Proof.
  apply (@rename_ignores_namesakes Scenario.tree Scenario.alice Scenario.X Scenario.W "W");
    try reflexivity.
  - cbn. tauto.
  - cbn. lia.
Defined.

(** ** Copies *)

Lemma copy_name_truthy (s : string) : Js.truthy (s ++ " (Copy)") = true.
Proof. destruct s; reflexivity. Qed.

Lemma copy_copies (w : World) (user fileId : ObjectId) (field : FolderField) (f : File) :
  idsBelowCounter w ->
  find (ownedBy user fileId) (files w) = Some f ->
  (forall t, normalizeParent field = Some t ->
     exists d, find (isFolderOf user t) (files w) = Some d) ->
  copy user fileId field w
  = (NodeJson 200 "Copied successfully" (copyOf w user f (normalizeParent field)),
     afterInsert w (copyOf w user f (normalizeParent field))
       (mkActivity "copy" (Some (nextId w)) (name f ++ " (Copy)") (Some user))).
Proof.
  intros Hfresh Hf Htarget. apply fresh_id_absent in Hfresh.
  unfold copy, answer. open_route. rewrite Hf.
  destruct (normalizeParent field) as [t|] eqn:Hnorm.
  - destruct (Htarget t eq_refl) as [d Hd]. rewrite Hd.
    unfold newFile, save, modify, logActivity, validActivity. cbn.
    rewrite Hfresh. cbn. rewrite copy_name_truthy. reflexivity.
  - unfold newFile, save, modify, logActivity, validActivity. cbn.
    rewrite Hfresh. cbn. rewrite copy_name_truthy. reflexivity.
Qed.

(** X5. A copy is one new live node that records the very path of the
    original: no bytes are duplicated, the quota ledger is not recounted, no
    child of a copied folder is copied, and the copy of a trashed node is out
    of the trash. *)
Theorem copy_makes_a_live_twin (w : World) (user fileId : ObjectId)
    (field : FolderField) (f : File) :
  idsBelowCounter w ->
  find (ownedBy user fileId) (files w) = Some f ->
  (forall t, normalizeParent field = Some t ->
     exists d, find (isFolderOf user t) (files w) = Some d) ->
  exists c w1,
    copy user fileId field w = (NodeJson 200 "Copied successfully" c, w1)
    /\ files w1 = (files w ++ [c])%list
    /\ _id c <> _id f
    /\ name c = name f ++ " (Copy)"
    /\ path c = path f /\ size c = size f /\ isFolder c = isFolder f
    /\ parentFolder c = normalizeParent field
    /\ inTrash c = false
    /\ disk w1 = disk w
    /\ storageStats w1 = storageStats w.
Proof.
  intros Hfresh Hf Htarget.
  exists (copyOf w user f (normalizeParent field)). eexists.
  split; [now apply copy_copies|].
  cbn. repeat split.
  apply owned_has_id in Hf as (_ & _ & Hin). specialize (Hfresh f Hin). lia.
Qed.

Lemma copy_makes_a_live_twin_witness :
  exists c w1,
    copy Scenario.alice 6 (FieldId 4) Scenario.tree
    = (NodeJson 200 "Copied successfully" c, w1)
    /\ files w1 = (files Scenario.tree ++ [c])%list
    /\ _id c <> 6%nat
    /\ name c = "a.txt (Copy)"
    /\ path c = path Scenario.aTxt /\ size c = 500 /\ isFolder c = false
    /\ parentFolder c = Some 4%nat
    /\ inTrash c = false
    /\ disk w1 = disk Scenario.tree
    /\ storageStats w1 = storageStats Scenario.tree.
Proof.
  apply (@copy_makes_a_live_twin Scenario.tree Scenario.alice 6 (FieldId 4) Scenario.aTxt).
  - apply idsBelowCounter_checked. vm_compute. reflexivity.
  - reflexivity.
  - intros t E. injection E as <-. eexists. reflexivity.
Defined.

(** ** Permanent removal *)

Lemma unlinkRecorded_ok (w : World) (p : option FsPath) :
  removable (disk w) p ->
  exists w', unlinkRecorded p w = (Ok tt, w')
             /\ files w' = files w
             /\ storageStats w' = storageStats w
             /\ existsSyncAt (disk w') p = false
             /\ (forall q, statOf (disk w') q = None \/ statOf (disk w') q = statOf (disk w) q).
Proof.
  destruct p as [q|].
  - intros H. exact (@unlinkIfExists_ok w q H).
  - intros _. exists w. repeat split. now right.
Qed.

(** Unlinking the bytes a document records leaves every other path as it
    was, whether the call succeeds or throws. *)
Lemma unlinkRecorded_frame (w : World) (p : option FsPath) (q : FsPath) :
  p <> Some q -> statOf (disk (snd (unlinkRecorded p w))) q = statOf (disk w) q.
Proof.
  intros Hne. unfold unlinkRecorded, bind, existsSync, gets.
  destruct (existsSyncAt (disk w) p); [|reflexivity].
  destruct p as [r|]; [|reflexivity].
  unfold unlinkSync. destruct r as [u e|r]; [|reflexivity].
  destruct (statOf (disk w) (InArea u e)) as [[bytes| |]|]; try reflexivity.
  cbn [snd disk setDisk]. rewrite statOf_removeEntry.
  destruct q as [u' e'|]; [|reflexivity].
  destruct (String.eqb u' u && String.eqb e' e)%bool eqn:E; [|reflexivity].
  apply andb_prop in E as [E1 E2]. apply String.eqb_eq in E1, E2. subst.
  now contradiction Hne.
Qed.

Lemma permanentDelete_disk (w : World) (user fileId : ObjectId) (f : File) :
  find (ownedBy user fileId) (files w) = Some f ->
  disk (snd (permanentDelete user fileId w)) = disk (snd (unlinkRecorded (path f) w)).
Proof.
  intros Hf. unfold permanentDelete. open_route. rewrite Hf. cbv beta iota.
  destruct (unlinkRecorded (path f) w) as [[[]|] w']; [|reflexivity].
  unfold findByIdAndDelete, modify, updateUserStats, logActivity. cbn.
  destruct (validActivity _); reflexivity.
Qed.

Lemma find_removeFirst (i : ObjectId) (db : list File) :
  NoDup (map _id db) -> find (hasId i) (removeFirst (hasId i) db) = None.
Proof.
  induction db as [|g db IH]; cbn; [reflexivity|].
  intros Hnd. inversion Hnd as [|? ? Hnotin Hnd']; subst.
  destruct (hasId i g) eqn:E.
  - apply find_all_false. intros h Hh. unfold hasId in *.
    apply Nat.eqb_eq in E. apply Nat.eqb_neq. intros E'.
    apply Hnotin. rewrite E, <- E'. now apply in_map.
  - cbn. rewrite E. now apply IH.
Qed.

Lemma in_removeFirst (q : File -> bool) (db : list File) (g : File) :
  In g db -> q g = false -> In g (removeFirst q db).
Proof.
  induction db as [|h db IH]; cbn; [trivial|].
  intros [->|Hg] Hq.
  - rewrite Hq. now left.
  - destruct (q h); [assumption|]. right. now apply IH.
Qed.

Lemma removeFirst_incl (q : File -> bool) (db : list File) (g : File) :
  In g (removeFirst q db) -> In g db.
Proof.
  induction db as [|h db IH]; cbn; [trivial|].
  destruct (q h); [now right|]. intros [->|Hg]; [now left|right; now apply IH].
Qed.

Lemma permanentDelete_deletes (w : World) (user fileId : ObjectId) (f : File) :
  find (ownedBy user fileId) (files w) = Some f ->
  removable (disk w) (path f) ->
  Js.truthy (name f) = true ->
  exists w1,
    permanentDelete user fileId w = (MessageJson 200 "File permanently deleted", w1)
    /\ files w1 = removeFirst (hasId fileId) (files w)
    /\ existsSyncAt (disk w1) (path f) = false
    /\ (forall q, statOf (disk w1) q = None \/ statOf (disk w1) q = statOf (disk w) q)
    /\ statsOf user w1 = Some (recompute user (files w1)).
Proof.
  intros Hf Hpath Hname.
  destruct (unlinkRecorded_ok w (path f) Hpath) as (w' & Hrun & Hfiles & Hstats & Hgone & Hmono).
  unfold permanentDelete. open_route. rewrite Hf.
  cbv beta iota. rewrite Hrun.
  unfold findByIdAndDelete, modify, updateUserStats, logActivity, validActivity. cbn.
  rewrite Hname. cbn.
  eexists. split; [reflexivity|]. cbn. rewrite Hfiles.
  repeat split; trivial.
  unfold statsOf. cbn. rewrite find_app_right.
  - cbn. now rewrite Nat.eqb_refl.
  - apply find_all_false. intros s Hs. apply filter_In in Hs as [_ Hs].
    now apply negb_true_iff in Hs.
Qed.

Lemma find_owned_none (user i : ObjectId) (db : list File) :
  find (hasId i) db = None -> find (ownedBy user i) db = None.
Proof.
  intros H. apply find_all_false. intros g Hg.
  unfold ownedBy. now rewrite (find_none _ _ H g Hg).
Qed.

Lemma permanentDelete_missing (w : World) (user fileId : ObjectId) :
  find (ownedBy user fileId) (files w) = None ->
  permanentDelete user fileId w = (NotFoundError, w).
Proof. intros H. unfold permanentDelete. open_route. now rewrite H. Qed.

(** X6. Permanent deletion removes the node and the bytes its path records
    and nothing else: the id resolves to no node afterwards, the path holds
    nothing, every other node is still there, every other path of the
    uploads directory holds what it held, and deleting again is answered
    404. *)
Theorem permanentDelete_removes_node_and_bytes (w : World) (user fileId : ObjectId)
    (f : File) :
  NoDup (map _id (files w)) ->
  find (ownedBy user fileId) (files w) = Some f ->
  removable (disk w) (path f) ->
  Js.truthy (name f) = true ->
  exists w1,
    permanentDelete user fileId w = (MessageJson 200 "File permanently deleted", w1)
    /\ find (hasId fileId) (files w1) = None
    /\ existsSyncAt (disk w1) (path f) = false
    /\ (forall q, path f <> Some q -> statOf (disk w1) q = statOf (disk w) q)
    /\ (forall g, In g (files w1) <-> In g (files w) /\ _id g <> fileId)
    /\ permanentDelete user fileId w1 = (NotFoundError, w1).
Proof.
  intros Hnd Hf Hpath Hname.
  destruct (permanentDelete_deletes w user fileId Hf Hpath Hname)
    as (w1 & Hrun & Hfiles & Hgone & _ & _).
  assert (Hnone : find (hasId fileId) (files w1) = None).
  { rewrite Hfiles. now apply find_removeFirst. }
  assert (Hframe : forall q, path f <> Some q -> statOf (disk w1) q = statOf (disk w) q).
  { intros q Hq. replace w1 with (snd (permanentDelete user fileId w)) by now rewrite Hrun.
    rewrite (permanentDelete_disk _ _ _ Hf). now apply unlinkRecorded_frame. }
  exists w1. repeat split; trivial.
  - rewrite Hfiles in H. now apply removeFirst_incl in H.
  - intros E. pose proof (find_none _ _ Hnone g H) as Hq.
    unfold hasId in Hq. apply Nat.eqb_neq in Hq. contradiction.
  - intros [Hg Hne]. rewrite Hfiles. apply in_removeFirst; [assumption|].
    unfold hasId. now apply Nat.eqb_neq.
  - apply permanentDelete_missing. now apply find_owned_none.
Qed.

Lemma permanentDelete_removes_node_and_bytes_witness :
  exists w1,
    permanentDelete Scenario.alice 6 Scenario.tree
    = (MessageJson 200 "File permanently deleted", w1)
    /\ find (hasId 6) (files w1) = None
    /\ existsSyncAt (disk w1) (path Scenario.aTxt) = false
    /\ (forall q, path Scenario.aTxt <> Some q ->
          statOf (disk w1) q = statOf (disk Scenario.tree) q)
    /\ (forall g, In g (files w1) <-> In g (files Scenario.tree) /\ _id g <> 6%nat)
    /\ permanentDelete Scenario.alice 6 w1 = (NotFoundError, w1).
Proof.
  apply (@permanentDelete_removes_node_and_bytes Scenario.tree Scenario.alice 6
           Scenario.aTxt).
  - apply distinct_checked. vm_compute. reflexivity.
  - reflexivity.
  - right. exists 500. reflexivity.
  - reflexivity.
Defined.

(** X7. The copy and the original share their bytes: once the original is
    permanently deleted, the copy is still a live node, but the path it
    records holds nothing. *)
Theorem deleting_the_original_strands_the_copy (w : World) (user fileId : ObjectId)
    (field : FolderField) (f : File) (p : FsPath) (bytes : Z) :
  idsBelowCounter w ->
  find (ownedBy user fileId) (files w) = Some f ->
  (forall t, normalizeParent field = Some t ->
     exists d, find (isFolderOf user t) (files w) = Some d) ->
  path f = Some p ->
  statOf (disk w) p = Some (RegularFile bytes) ->
  Js.truthy (name f) = true ->
  exists c w1 w2,
    copy user fileId field w = (NodeJson 200 "Copied successfully" c, w1)
    /\ permanentDelete user fileId w1
       = (MessageJson 200 "File permanently deleted", w2)
    /\ In c (files w2) /\ inTrash c = false /\ path c = Some p
    /\ existsSyncAt (disk w2) (Some p) = false.
Proof.
  intros Hfresh Hf Htarget Hp Hstat Hname.
  pose proof (copy_copies user fileId field Hfresh Hf Htarget) as Hcopy.
  set (c := copyOf w user f (normalizeParent field)) in *.
  set (w1 := afterInsert w c _) in *.
  assert (Hf1 : find (ownedBy user fileId) (files w1) = Some f).
  { cbn. now apply find_app_left. }
  assert (Hpath1 : removable (disk w1) (path f)).
  { rewrite Hp. cbn. right. now exists bytes. }
  destruct (permanentDelete_deletes w1 user fileId Hf1 Hpath1 Hname)
    as (w2 & Hrun & Hfiles & Hgone & _ & _).
  exists c, w1, w2. repeat split; trivial.
  - rewrite Hfiles. apply in_removeFirst.
    + cbn. apply in_or_app. right. now left.
    + unfold hasId. cbn. apply Nat.eqb_neq.
      apply owned_has_id in Hf as (Hid & _ & Hin). specialize (Hfresh f Hin). lia.
  - now rewrite <- Hp.
Qed.

Lemma deleting_the_original_strands_the_copy_witness :
  exists c w1 w2,
    copy Scenario.alice 6 FieldRoot Scenario.tree
    = (NodeJson 200 "Copied successfully" c, w1)
    /\ permanentDelete Scenario.alice 6 w1
       = (MessageJson 200 "File permanently deleted", w2)
    /\ In c (files w2) /\ inTrash c = false
    /\ path c = Some (InArea "000000000000000000000007" "a-1700000000000-1.txt")
    /\ existsSyncAt (disk w2) (Some (InArea "000000000000000000000007" "a-1700000000000-1.txt")) = false.
Proof.
  apply (@deleting_the_original_strands_the_copy Scenario.tree Scenario.alice 6 FieldRoot
           Scenario.aTxt (InArea "000000000000000000000007" "a-1700000000000-1.txt") 500).
  - apply idsBelowCounter_checked. vm_compute. reflexivity.
  - reflexivity.
  - intros t E. discriminate E.
  - reflexivity.
  - reflexivity.
  - reflexivity.
Defined.

(** ** Emptying the trash *)

Lemma forEach_unlinkRecorded (l : list File) (w : World) :
  (forall f, In f l -> removable (disk w) (path f)) ->
  exists w', forEach l (fun f => unlinkRecorded (path f)) w = (Ok tt, w')
             /\ files w' = files w
             /\ storageStats w' = storageStats w
             /\ (forall f, In f l -> existsSyncAt (disk w') (path f) = false)
             /\ (forall q, statOf (disk w') q = None \/ statOf (disk w') q = statOf (disk w) q).
Proof.
  revert w. induction l as [|f l IH]; intros w Hall.
  - exists w. cbn. repeat split; auto. intros f [].
  - destruct (@unlinkRecorded_ok w (path f) (Hall f (or_introl eq_refl)))
      as (w1 & Hrun & Hfiles & Hstats & Hgone & Hother).
    destruct (IH w1) as (w2 & Hrun2 & Hfiles2 & Hstats2 & Hgone2 & Hother2).
    { intros g Hg. specialize (Hall g (or_intror Hg)). unfold removable in *.
      destruct (path g) as [q|]; [|trivial].
      destruct (Hother q) as [Hn | Hs].
      - now left.
      - unfold regularOrGone. now rewrite Hs. }
    exists w2. cbn. unfold bind. rewrite Hrun, Hrun2.
    split; [reflexivity|]. split; [congruence|]. split; [congruence|]. split.
    + intros g [<-|Hg]; [|now apply Hgone2].
      unfold existsSyncAt in *. destruct (path f) as [q|]; [|reflexivity].
      destruct (Hother2 q) as [Hn | Hs].
      * now rewrite Hn.
      * now rewrite Hs.
    + intros q. destruct (Hother2 q) as [Hn | Hs]; [now left|].
      rewrite Hs. apply Hother.
Qed.

Lemma forEach_unlinkRecorded_frame (l : list File) (w : World) (q : FsPath) :
  (forall f, In f l -> path f <> Some q) ->
  statOf (disk (snd (forEach l (fun f => unlinkRecorded (path f)) w))) q
  = statOf (disk w) q.
Proof.
  revert w. induction l as [|f l IH]; intros w Hall; [reflexivity|].
  cbn. unfold bind.
  pose proof (@unlinkRecorded_frame w (path f) q (Hall f (or_introl eq_refl))) as Hfirst.
  destruct (unlinkRecorded (path f) w) as [[[]|] w1]; cbn in Hfirst |- *; [|exact Hfirst].
  rewrite IH; [exact Hfirst|]. intros g Hg. apply Hall. now right.
Qed.

Lemma emptyTrash_disk (w : World) (user : ObjectId) :
  disk (snd (emptyTrash user w))
  = disk (snd (forEach (filter (trashedOf user) (files w))
                       (fun f => unlinkRecorded (path f)) w)).
Proof.
  unfold emptyTrash, answer, findMany. open_route. cbv beta iota.
  destruct (forEach _ _ w) as [[[]|] w']; reflexivity.
Qed.

Lemma emptyTrash_empties (w : World) (user : ObjectId) :
  (forall f, In f (files w) -> trashedOf user f = true -> removable (disk w) (path f)) ->
  exists w1,
    emptyTrash user w
    = (CountJson "Trash emptied successfully"
                 (List.length (filter (trashedOf user) (files w))), w1)
    /\ files w1 = filter (fun f => negb (trashedOf user f)) (files w)
    /\ (forall f, In f (files w) -> trashedOf user f = true ->
          existsSyncAt (disk w1) (path f) = false)
    /\ (forall q, statOf (disk w1) q = None \/ statOf (disk w1) q = statOf (disk w) q)
    /\ statsOf user w1 = Some (recompute user (files w1)).
Proof.
  intros Hall.
  destruct (@forEach_unlinkRecorded (filter (trashedOf user) (files w)) w)
    as (w' & Hrun & Hfiles & Hstats & Hgone & Hmono).
  { intros f Hf. apply filter_In in Hf as [Hin Hq]. now apply Hall. }
  unfold emptyTrash, answer, findMany. open_route.
  cbv beta iota. rewrite Hrun.
  unfold deleteMany, modify, updateUserStats, logActivity, validActivity. cbn.
  eexists. split; [reflexivity|]. cbn. rewrite Hfiles.
  repeat split; trivial.
  - intros f Hin Hq. apply Hgone. now apply filter_In.
  - unfold statsOf. cbn. rewrite find_app_right.
    + cbn. now rewrite Nat.eqb_refl.
    + apply find_all_false. intros s Hs. apply filter_In in Hs as [_ Hs].
      now apply negb_true_iff in Hs.
Qed.

(** X8. Emptying the trash removes exactly the requester's trashed nodes and
    the bytes their paths record: the answer counts them, no trashed node of
    the account is left, every other node (live ones, other accounts' trash)
    is still there, the paths the trashed nodes record hold nothing, and
    every path that none of them records holds what it held. *)
Theorem emptyTrash_removes_exactly_the_trash (w : World) (user : ObjectId) :
  (forall f, In f (files w) -> trashedOf user f = true -> removable (disk w) (path f)) ->
  exists w1,
    emptyTrash user w
    = (CountJson "Trash emptied successfully"
                 (List.length (filter (trashedOf user) (files w))), w1)
    /\ (forall g, In g (files w1) <-> In g (files w) /\ trashedOf user g = false)
    /\ (forall f, In f (files w) -> trashedOf user f = true ->
          existsSyncAt (disk w1) (path f) = false)
    /\ (forall q, (forall f, In f (files w) -> trashedOf user f = true -> path f <> Some q) ->
          statOf (disk w1) q = statOf (disk w) q)
    /\ fst (emptyTrash user w1) = CountJson "Trash emptied successfully" 0.
Proof.
  intros Hall.
  destruct (emptyTrash_empties w user Hall) as (w1 & Hrun & Hfiles & Hgone & _ & _).
  assert (Hiff : forall g, In g (files w1) <-> In g (files w) /\ trashedOf user g = false).
  { intros g. rewrite Hfiles, filter_In. now rewrite negb_true_iff. }
  assert (Hframe : forall q,
            (forall f, In f (files w) -> trashedOf user f = true -> path f <> Some q) ->
            statOf (disk w1) q = statOf (disk w) q).
  { intros q Hq. replace w1 with (snd (emptyTrash user w)) by now rewrite Hrun.
    rewrite emptyTrash_disk. apply forEach_unlinkRecorded_frame.
    intros f Hf. apply filter_In in Hf as [Hin Ht]. now apply Hq. }
  exists w1. repeat split; trivial; try apply Hiff; trivial.
  destruct (emptyTrash_empties w1 user) as (w2 & Hrun2 & _).
  { intros f Hf Hq. apply Hiff in Hf as [_ Hf]. congruence. }
  rewrite Hrun2. cbn. f_equal.
  rewrite (proj2 (List.length_zero_iff_nil _)); [reflexivity|].
  destruct (filter (trashedOf user) (files w1)) as [|g l] eqn:E; [reflexivity|].
  assert (Hg : In g (filter (trashedOf user) (files w1))) by (rewrite E; now left).
  apply filter_In in Hg as [Hg Hq]. apply Hiff in Hg as [_ Hg]. congruence.
Qed.

Lemma emptyTrash_removes_exactly_the_trash_witness :
  exists w1,
    emptyTrash Scenario.alice Cases.twins
    = (CountJson "Trash emptied successfully" 1, w1)
    /\ (forall g, In g (files w1) <->
          In g (files Cases.twins) /\ trashedOf Scenario.alice g = false)
    /\ (forall f, In f (files Cases.twins) -> trashedOf Scenario.alice f = true ->
          existsSyncAt (disk w1) (path f) = false)
    /\ (forall q, (forall f, In f (files Cases.twins) -> trashedOf Scenario.alice f = true ->
                     path f <> Some q) ->
          statOf (disk w1) q = statOf (disk Cases.twins) q)
    /\ fst (emptyTrash Scenario.alice w1) = CountJson "Trash emptied successfully" 0.
Proof.
  apply (@emptyTrash_removes_exactly_the_trash Cases.twins Scenario.alice).
  intros f [<-|[<-|[]]] H; [discriminate H|]. right. exists 500. reflexivity.
Defined.

(** X9. Emptying the trash unlinks the path of every trashed node, whoever
    else records it: a live node that shares its path with a trashed one (a
    copy and its original) is kept, but the path it records holds nothing
    afterwards. *)
Theorem emptyTrash_takes_the_bytes_of_a_live_twin (w : World) (user : ObjectId)
    (t g : File) (p : FsPath) (bytes : Z) :
  (forall f, In f (files w) -> trashedOf user f = true -> removable (disk w) (path f)) ->
  In t (files w) -> trashedOf user t = true -> path t = Some p ->
  In g (files w) -> inTrash g = false -> path g = Some p ->
  statOf (disk w) p = Some (RegularFile bytes) ->
  exists n w1,
    emptyTrash user w = (CountJson "Trash emptied successfully" n, w1)
    /\ In g (files w1)
    /\ existsSyncAt (disk w) (path g) = true
    /\ existsSyncAt (disk w1) (path g) = false.
Proof.
  intros Hall Ht Hq Hpt Hg Hlive Hpg Hstat.
  destruct (emptyTrash_empties w user Hall) as (w1 & Hrun & Hfiles & Hgone & _ & _).
  eexists. exists w1. split; [exact Hrun|]. split; [|split].
  - rewrite Hfiles. apply filter_In. split; [assumption|].
    unfold trashedOf. rewrite Hlive. now rewrite andb_false_r.
  - rewrite Hpg. unfold existsSyncAt. now rewrite Hstat.
  - rewrite Hpg, <- Hpt. now apply Hgone.
Qed.

Lemma emptyTrash_takes_the_bytes_of_a_live_twin_witness :
  exists n w1,
    emptyTrash Scenario.alice Cases.twins = (CountJson "Trash emptied successfully" n, w1)
    /\ In Scenario.aTxt (files w1)
    /\ existsSyncAt (disk Cases.twins) (path Scenario.aTxt) = true
    /\ existsSyncAt (disk w1) (path Scenario.aTxt) = false.
Proof.
  apply (@emptyTrash_takes_the_bytes_of_a_live_twin Cases.twins Scenario.alice
           Cases.aCopy Scenario.aTxt (InArea "000000000000000000000007" "a-1700000000000-1.txt") 500);
    try reflexivity.
  - intros f [<-|[<-|[]]] H; [discriminate H|]. right. exists 500. reflexivity.
  - cbn. tauto.
  - cbn. tauto.
Defined.

(** ** Making and revoking public links *)

Lemma shareLink_creates (base token : string) (w : World) (user fileId : ObjectId)
    (f : File) :
  find (ownedBy user fileId) (files w) = Some f ->
  isFolder f = false -> hasLink f = false -> Js.truthy (name f) = true ->
  shareLink base token user fileId w
  = (LinkJson (publicLink base token),
     afterWrite w (setLink f true (Some token))
       (mkActivity "share_link" (Some (_id f)) (name f) (Some user))).
Proof.
  intros Hf Hfile Hlink Hname. unfold shareLink, answer. open_route.
  rewrite Hf, Hfile. unfold hasLink in Hlink.
  assert (Hrun : (save (setLink f true (Some token)) ;;
                  logActivity (mkActivity "share_link" (Some (_id (setLink f true (Some token))))
                                          (name (setLink f true (Some token))) (Some user)) ;;
                  ret (LinkJson (publicLink base token))) w
                 = (Ok (LinkJson (publicLink base token)),
                    afterWrite w (setLink f true (Some token))
                      (mkActivity "share_link" (Some (_id f)) (name f) (Some user)))).
  { unfold bind, save, modify, logActivity, validActivity. cbn.
    rewrite (found_exists _ _ Hf eq_refl). cbn. rewrite Hname. reflexivity. }
  unfold bind in Hrun. unfold ret in Hrun.
  destruct (publicUrl f) as [u|]; [|now rewrite Hrun].
  rewrite Hlink. now rewrite Hrun.
Qed.

Lemma shareLink_existing (base token : string) (w : World) (user fileId : ObjectId)
    (f : File) (u : string) :
  find (ownedBy user fileId) (files w) = Some f ->
  isFolder f = false -> isPublic f = true -> publicUrl f = Some u ->
  Js.truthy u = true ->
  shareLink base token user fileId w = (LinkJson (publicLink base u), w).
Proof.
  intros Hf Hfile Hpub Hurl Hu. unfold shareLink, answer. open_route.
  now rewrite Hf, Hfile, Hurl, Hpub, Hu.
Qed.

(** X10. A node has one public link: the first request stores the token it
    drew, and every later request for the same node answers with that same
    link, draws no token into the node and changes nothing. *)
Theorem shareLink_hands_out_one_link (base t1 t2 : string) (w : World)
    (user fileId : ObjectId) (f : File) :
  find (ownedBy user fileId) (files w) = Some f ->
  isFolder f = false -> hasLink f = false ->
  Js.truthy (name f) = true -> Js.truthy t1 = true ->
  exists w1,
    shareLink base t1 user fileId w = (LinkJson (publicLink base t1), w1)
    /\ find (ownedBy user fileId) (files w1) = Some (setLink f true (Some t1))
    /\ shareLink base t2 user fileId w1 = (LinkJson (publicLink base t1), w1).
Proof.
  intros Hf Hfile Hlink Hname Ht1.
  pose proof (owned_has_id _ _ _ Hf) as (Hid & Hu & _).
  eexists. split; [exact (@shareLink_creates base t1 w user fileId f Hf Hfile Hlink Hname)|].
  assert (Hfound : find (ownedBy user fileId)
                        (replaceDoc (setLink f true (Some t1)) (files w))
                   = Some (setLink f true (Some t1))).
  { rewrite <- Hid.
    apply (@find_owned_replaceDoc (setLink f true (Some t1)) f (files w) user);
      [cbn; now rewrite Hid|assumption]. }
  split; [exact Hfound|].
  now apply shareLink_existing with (setLink f true (Some t1)).
Qed.

Lemma shareLink_hands_out_one_link_witness :
  exists w1,
    shareLink Cases.base Cases.token Scenario.alice 6 Scenario.tree
    = (LinkJson (publicLink Cases.base Cases.token), w1)
    /\ find (ownedBy Scenario.alice 6) (files w1)
       = Some (setLink Scenario.aTxt true (Some Cases.token))
    /\ shareLink Cases.base Cases.laterToken Scenario.alice 6 w1
       = (LinkJson (publicLink Cases.base Cases.token), w1).
Proof.
  apply (@shareLink_hands_out_one_link Cases.base Cases.token Cases.laterToken
           Scenario.tree Scenario.alice 6 Scenario.aTxt); reflexivity.
Defined.

Lemma revokeLink_revokes (w : World) (user fileId : ObjectId) (f : File) :
  find (ownedBy user fileId) (files w) = Some f ->
  Js.truthy (name f) = true ->
  revokeLink user fileId w
  = (MessageJson 200 "Public link revoked",
     afterWrite w (setLink f false None)
       (mkActivity "share_link" (Some (_id f)) (name f) (Some user))).
Proof.
  intros Hf Hname. unfold revokeLink. open_route. rewrite Hf.
  unfold save, modify, logActivity, validActivity. cbn.
  rewrite (found_exists _ _ Hf eq_refl). cbn. rewrite Hname. reflexivity.
Qed.

Lemma find_replaceDoc_only (q : File -> bool) (m : File) (db : list File) :
  (forall g, In g db -> _id g <> _id m -> q g = false) ->
  q m = true ->
  existsb (hasId (_id m)) db = true ->
  find q (replaceDoc m db) = Some m.
Proof.
  unfold replaceDoc. induction db as [|g db IH]; cbn; [discriminate|].
  intros Hothers Hm Hex. unfold hasId in *.
  destruct (Nat.eqb_spec (_id g) (_id m)) as [E|E].
  - now rewrite Hm.
  - rewrite (Hothers g (or_introl eq_refl) E).
    apply IH; trivial.
    intros h Hh. apply Hothers. now right.
Qed.

Lemma publicDownload_unknown (token : string) (w : World) :
  (forall g, In g (files w) -> carriesToken token g = false) ->
  publicDownload token w = (NotFoundError, w).
Proof.
  intros H. unfold publicDownload. open_route.
  change (fun f0 : File => (optStrEqb (publicUrl f0) (Some token) && negb (inTrash f0))%bool)
    with (carriesToken token).
  now rewrite (find_all_false (carriesToken token) (files w) H).
Qed.

Lemma publicDownload_known (token : string) (w : World) (f : File) :
  find (carriesToken token) (files w) = Some f -> isFolder f = false ->
  fst (publicDownload token w) <> NotFoundError.
Proof.
  intros Hf Hfile. unfold publicDownload. open_route.
  change (fun f0 : File => (optStrEqb (publicUrl f0) (Some token) && negb (inTrash f0))%bool)
    with (carriesToken token).
  rewrite Hf, Hfile. cbn.
  destruct (existsSyncAt (disk w) (path f)); cbn; [|discriminate].
  unfold logActivity, validActivity. cbn. rewrite andb_false_r. cbn. discriminate.
Qed.

(** X11. A public link lives from the share-link request to the revoke-link
    request: in between the public route finds the node under the token,
    afterwards the token is answered 404 like one that never existed, and the
    node is as it was before the link was made. *)
Theorem link_round_trip (base token : string) (w : World) (user fileId : ObjectId)
    (f : File) :
  NoDup (map _id (files w)) ->
  find (ownedBy user fileId) (files w) = Some f ->
  isFolder f = false -> inTrash f = false ->
  isPublic f = false -> publicUrl f = None ->
  Js.truthy (name f) = true ->
  (forall g, In g (files w) -> publicUrl g <> Some token) ->
  exists w1 w2,
    shareLink base token user fileId w = (LinkJson (publicLink base token), w1)
    /\ fst (publicDownload token w1) <> NotFoundError
    /\ revokeLink user fileId w1 = (MessageJson 200 "Public link revoked", w2)
    /\ publicDownload token w2 = (NotFoundError, w2)
    /\ files w2 = files w.
Proof.
  intros Hnd Hf Hfile Hlive Hpub Hurl Hname Hnew.
  pose proof (owned_has_id _ _ _ Hf) as (Hid & Hu & Hin).
  assert (Hlink : hasLink f = false) by (unfold hasLink; now rewrite Hpub).
  set (linked := setLink f true (Some token)).
  assert (Hex : existsb (hasId (_id linked)) (files w) = true).
  { now apply found_exists with (ownedBy user fileId) f. }
  assert (Hf1 : find (ownedBy user fileId) (replaceDoc linked (files w)) = Some linked).
  { rewrite <- Hid.
    apply (@find_owned_replaceDoc linked f (files w) user);
      [cbn; now rewrite Hid|assumption]. }
  assert (Hback : replaceDoc (setLink linked false None) (replaceDoc linked (files w))
                  = files w).
  { rewrite replaceDoc_twice by reflexivity.
    replace (setLink linked false None) with f; [now apply replaceDoc_same|].
    destruct f; cbn in *. now subst. }
  set (w1 := afterWrite w linked
               (mkActivity "share_link" (Some (_id f)) (name f) (Some user))).
  set (w2 := afterWrite w1 (setLink linked false None)
               (mkActivity "share_link" (Some (_id linked)) (name linked) (Some user))).
  assert (Hfiles2 : files w2 = files w) by exact Hback.
  exists w1, w2.
  split; [exact (@shareLink_creates base token w user fileId f Hf Hfile Hlink Hname)|].
  split.
  { apply publicDownload_known with linked; [|assumption].
    change (files w1) with (replaceDoc linked (files w)).
    apply find_replaceDoc_only; trivial.
    - intros g Hg _. unfold carriesToken.
      destruct (optStrEqb (publicUrl g) (Some token)) eqn:E; [|reflexivity].
      apply optStrEqb_eq in E. now apply Hnew in E.
    - unfold carriesToken. cbn. rewrite String.eqb_refl, Hlive. reflexivity. }
  split.
  { apply (@revokeLink_revokes w1 user fileId linked); [exact Hf1|assumption]. }
  split; [|exact Hfiles2].
  apply publicDownload_unknown. rewrite Hfiles2.
  intros g Hg. unfold carriesToken.
  destruct (optStrEqb (publicUrl g) (Some token)) eqn:E; [|reflexivity].
  apply optStrEqb_eq in E. now apply Hnew in E.
Qed.

Lemma link_round_trip_witness :
  exists w1 w2,
    shareLink Cases.base Cases.token Scenario.alice 6 Scenario.tree
    = (LinkJson (publicLink Cases.base Cases.token), w1)
    /\ fst (publicDownload Cases.token w1) <> NotFoundError
    /\ revokeLink Scenario.alice 6 w1 = (MessageJson 200 "Public link revoked", w2)
    /\ publicDownload Cases.token w2 = (NotFoundError, w2)
    /\ files w2 = files Scenario.tree.
Proof.
  apply (@link_round_trip Cases.base Cases.token Scenario.tree Scenario.alice 6
           Scenario.aTxt); try reflexivity.
  - apply distinct_checked. vm_compute. reflexivity.
  - intros g [<-|[<-|[<-|[<-|[<-|[<-|[]]]]]]]; discriminate.
Defined.

Lemma in_replaceDoc_inv (m g : File) (db : list File) :
  In g (replaceDoc m db) -> g = m \/ In g db.
Proof.
  unfold replaceDoc. intros H. apply in_map_iff in H as (h & E & Hh).
  destruct (hasId (_id m) h); [left|right]; congruence.
Qed.

Lemma shareLink_files (base token : string) (w : World) (user fileId : ObjectId) :
  files (snd (shareLink base token user fileId w)) = files w
  \/ exists f, find (ownedBy user fileId) (files w) = Some f /\ isFolder f = false
       /\ files (snd (shareLink base token user fileId w))
          = replaceDoc (setLink f true (Some token)) (files w).
Proof.
  unfold shareLink, answer. open_route.
  destruct (find (ownedBy user fileId) (files w)) as [f|] eqn:Hf; [|now left].
  destruct (isFolder f) eqn:Hfolder; [now left|].
  unfold save, modify, logActivity, validActivity. cbn.
  pose proof (found_exists _ _ Hf eq_refl) as Hex.
  destruct (publicUrl f) as [u|].
  - destruct (isPublic f && Js.truthy u)%bool; [now left|].
    right. exists f. rewrite Hex. destruct (Js.truthy (name f)); cbn; auto.
  - right. exists f. rewrite Hex. destruct (Js.truthy (name f)); cbn; auto.
Qed.

(** X12. The share-link route never gives a folder a token: a request that
    names a folder is answered 400 and changes nothing, and whatever the
    request, a collection without linked folders stays one.  In such a
    collection the public route never has to refuse a folder. *)
Theorem folders_get_no_public_link (base token : string) (w : World)
    (user fileId : ObjectId) :
  foldersUnlinked (files w) ->
  (forall f, find (ownedBy user fileId) (files w) = Some f -> isFolder f = true ->
     shareLink base token user fileId w
     = (Plain (ErrorJson 400 "Cannot create public link for folders"), w))
  /\ foldersUnlinked (files (snd (shareLink base token user fileId w)))
  /\ (forall t, fst (publicDownload t w) <> ErrorJson 400 "Cannot download folders").
Proof.
  intros Hinv. split; [|split].
  - intros f Hf Hfolder. unfold shareLink, answer. open_route. now rewrite Hf, Hfolder.
  - destruct (shareLink_files base token w user fileId) as [->|(f & Hf & Hfile & ->)];
      [exact Hinv|].
    intros g Hg Hgf.
    apply in_replaceDoc_inv in Hg as [->|Hg]; [cbn in Hgf; congruence|now apply Hinv].
  - intros t. unfold publicDownload. open_route.
    destruct (find _ (files w)) as [f|] eqn:Hf; [|discriminate].
    apply find_some in Hf as [Hin Hq]. apply andb_prop in Hq as [Hq _].
    apply optStrEqb_eq in Hq.
    destruct (isFolder f) eqn:Hfolder.
    { rewrite (Hinv f Hin Hfolder) in Hq. discriminate. }
    cbn. destruct (existsSyncAt (disk w) (path f)); cbn; [|discriminate].
    unfold logActivity, validActivity. cbn. rewrite andb_false_r. cbn. discriminate.
Qed.

Lemma folders_get_no_public_link_witness :
  (forall f, find (ownedBy Scenario.alice 4) (files Scenario.tree) = Some f ->
     isFolder f = true ->
     shareLink Cases.base Cases.token Scenario.alice 4 Scenario.tree
     = (Plain (ErrorJson 400 "Cannot create public link for folders"), Scenario.tree))
  /\ foldersUnlinked
       (files (snd (shareLink Cases.base Cases.token Scenario.alice 4 Scenario.tree)))
  /\ (forall t, fst (publicDownload t Scenario.tree)
                <> ErrorJson 400 "Cannot download folders").
Proof.
  apply folders_get_no_public_link.
  apply foldersUnlinked_checked. vm_compute. reflexivity.
Defined.

(** ** Sharing with another account *)

Lemma recipientsOf_app (l r : list (option ObjectId)) :
  recipientsOf (l ++ r) = (recipientsOf l ++ recipientsOf r)%list.
Proof.
  induction l as [|[x|] l IH]; cbn; [reflexivity| |exact IH]. now rewrite IH.
Qed.

Lemma in_recipientsOf (x : ObjectId) (l : list (option ObjectId)) :
  In x (recipientsOf l) <-> In (Some x) l.
Proof.
  induction l as [|[y|] l IH]; cbn; [tauto| |].
  - rewrite IH. split; intros [H|H]; auto; left; congruence.
  - rewrite IH. split; [auto|]. intros [H|H]; [discriminate|assumption].
Qed.

(** The already-shared test comes back with "no" exactly on the lists that
    have an account in every entry and the target in none. *)
Lemma someSharedWith_false (t : ObjectId) (l : list (option ObjectId)) :
  someSharedWith t l = Some false <-> ~ In None l /\ ~ In (Some t) l.
Proof.
  induction l as [|[x|] l IH]; cbn.
  - split; [intros _; split; intros []|reflexivity].
  - destruct (Nat.eqb_spec x t) as [->|Hne].
    + split; [discriminate|]. intros [_ H]. exfalso. apply H. now left.
    + rewrite IH. split; intros [H1 H2]; split; try tauto.
      * intros [H|H]; [discriminate|tauto].
      * intros [H|H]; [congruence|tauto].
  - split; [discriminate|]. intros [H _]. exfalso. apply H. now left.
Qed.

Lemma someSharedWith_last (t : ObjectId) (l : list (option ObjectId)) :
  ~ In None l -> someSharedWith t (l ++ [Some t]) = Some true.
Proof.
  induction l as [|[x|] l IH]; cbn; intros H.
  - now rewrite Nat.eqb_refl.
  - destruct (Nat.eqb x t); [reflexivity|]. apply IH. tauto.
  - exfalso. apply H. now left.
Qed.

Lemma share_shares (users : list User) (w : World) (user fileId : ObjectId)
    (address : string) (target : User) (f : File) :
  Js.truthy address = true ->
  find (fun u => String.eqb (email u) (trim (Js.toLowerCase address))) users = Some target ->
  userKey target <> user ->
  find (ownedBy user fileId) (files w) = Some f ->
  someSharedWith (userKey target) (sharedWith f) = Some false ->
  Js.truthy (name f) = true ->
  share users user fileId (Some address) w
  = (MessageJson 200 ("File shared successfully with " ++ address),
     afterWrite w (setSharedWith f (sharedWith f ++ [Some (userKey target)]))
       (mkActivity "share" (Some (_id f)) (name f) (Some user))).
Proof.
  intros Haddr Htarget Hother Hf Hnew Hname.
  unfold share. rewrite Haddr. cbn [negb]. rewrite Htarget.
  apply Nat.eqb_neq in Hother. rewrite Hother.
  open_route. rewrite Hf, Hnew.
  unfold save, modify, logActivity, validActivity. cbn.
  rewrite (found_exists _ _ Hf eq_refl). cbn. rewrite Hname. reflexivity.
Qed.

Lemma share_already (users : list User) (w : World) (user fileId : ObjectId)
    (address : string) (target : User) (f : File) :
  Js.truthy address = true ->
  find (fun u => String.eqb (email u) (trim (Js.toLowerCase address))) users = Some target ->
  userKey target <> user ->
  find (ownedBy user fileId) (files w) = Some f ->
  someSharedWith (userKey target) (sharedWith f) = Some true ->
  share users user fileId (Some address) w
  = (ErrorJson 400 "File already shared with this user", w).
Proof.
  intros Haddr Htarget Hother Hf Hold.
  unfold share. rewrite Haddr. cbn [negb]. rewrite Htarget.
  apply Nat.eqb_neq in Hother. rewrite Hother.
  open_route. now rewrite Hf, Hold.
Qed.

Lemma share_files (users : list User) (w : World) (user fileId : ObjectId)
    (targetUserEmail : option string) :
  files (snd (share users user fileId targetUserEmail w)) = files w
  \/ exists f target,
       find (ownedBy user fileId) (files w) = Some f
       /\ userKey target <> user
       /\ someSharedWith (userKey target) (sharedWith f) = Some false
       /\ files (snd (share users user fileId targetUserEmail w))
          = replaceDoc (setSharedWith f (sharedWith f ++ [Some (userKey target)]))
                       (files w).
Proof.
  unfold share. destruct targetUserEmail as [address|]; [|now left].
  destruct (Js.truthy address); [|now left]. cbn [negb].
  destruct (find _ users) as [target|]; [|now left].
  destruct (Nat.eqb_spec (userKey target) user) as [E|E]; [now left|].
  open_route.
  destruct (find (ownedBy user fileId) (files w)) as [f|] eqn:Hf; [|now left].
  destruct (someSharedWith (userKey target) (sharedWith f)) as [[|]|] eqn:Hold;
    [now left| |now left].
  right. exists f, target. repeat split; trivial.
  unfold save, modify, logActivity, validActivity. cbn.
  rewrite (found_exists _ _ Hf eq_refl). destruct (Js.truthy (name f)); reflexivity.
Qed.

Lemma existsb_eqb_in (x : ObjectId) (l : list ObjectId) :
  existsb (Nat.eqb x) l = false -> ~ In x l.
Proof.
  intros H Hin. apply not_true_iff_false in H. apply H.
  apply existsb_exists. exists x. split; [assumption|apply Nat.eqb_refl].
Qed.

(** X13. Sharing keeps the recipients of every node distinct and never makes
    the owner a recipient of the own node, whatever the request. *)
Theorem share_keeps_recipients_distinct (users : list User) (w : World)
    (user fileId : ObjectId) (targetUserEmail : option string) :
  recipientsDistinct (files w) ->
  recipientsDistinct (files (snd (share users user fileId targetUserEmail w))).
Proof.
  intros Hinv.
  destruct (share_files users w user fileId targetUserEmail)
    as [->|(f & target & Hf & Hother & Hnew & ->)]; [exact Hinv|].
  intros g Hg. apply in_replaceDoc_inv in Hg as [->|Hg]; [|now apply Hinv].
  apply owned_has_id in Hf as (_ & Hu & Hin). destruct (Hinv f Hin) as [Hnd Hown].
  apply someSharedWith_false in Hnew as [_ Hnew].
  rewrite <- in_recipientsOf in Hnew.
  cbn [sharedWith setSharedWith userId]. rewrite recipientsOf_app. cbn. split.
  - apply NoDup_app; [assumption|repeat constructor; intros []|].
    intros x Hx [<-|[]]. contradiction.
  - intros Hx. apply in_app_or in Hx as [Hx|[Hx|[]]]; [contradiction|].
    apply Hother. now rewrite Hx, Hu.
Qed.

Lemma share_keeps_recipients_distinct_witness :
  recipientsDistinct
    (files (snd (share Cases.people Scenario.alice 6 (Some "Bob@Example.org")
                       Scenario.tree))).
Proof.
  apply share_keeps_recipients_distinct.
  apply recipientsDistinct_checked. vm_compute. reflexivity.
Defined.

(** The account is looked up by the address in lower case and without the
    white space around it. *)
Example share_finds_a_padded_address :
  fst (share Cases.people Scenario.alice 6 (Some "  Bob@Example.org ") Scenario.tree)
  = MessageJson 200 "File shared successfully with   Bob@Example.org ".
Proof. vm_compute. reflexivity. Qed.

Lemma download_denied (w : World) (user fileId : ObjectId) :
  find (canRead user fileId) (files w) = None ->
  download user fileId w = (ErrorJson 404 "File not found or access denied", w).
Proof. intros H. unfold download. open_route. now rewrite H. Qed.

Lemma download_found (w : World) (user fileId : ObjectId) (f : File) :
  find (canRead user fileId) (files w) = Some f ->
  fst (download user fileId w) <> ErrorJson 404 "File not found or access denied".
Proof.
  intros H. unfold download. open_route. rewrite H.
  destruct (isFolder f); [discriminate|]. cbn.
  destruct (existsSyncAt (disk w) (path f)); cbn.
  - destruct (logActivity _ w) as [[[]|] ?]; cbn; discriminate.
  - destruct (findOnDisk (disk w) f); cbn; [|discriminate].
    unfold updateOnePath, modify. cbn.
    destruct (logActivity _ _) as [[[]|] ?]; cbn; discriminate.
Qed.

Lemma found_by_key (users : list User) (r : ObjectId) (u : User) :
  find (fun v => Nat.eqb (userKey v) r) users = Some u -> userKey u = r.
Proof. intros H. apply find_some in H as [_ H]. now apply Nat.eqb_eq. Qed.

Lemma populate_app (users : list User) (l r : list (option ObjectId)) :
  populate users (l ++ r) = (populate users l ++ populate users r)%list.
Proof. apply map_app. Qed.

(** Entries whose accounts are all there are stored as they were read. *)
Lemma depopulate_populate (users : list User) (l : list (option ObjectId)) :
  (forall r, In (Some r) l -> exists u, find (fun v => Nat.eqb (userKey v) r) users = Some u) ->
  depopulate (populate users l) = l.
Proof.
  induction l as [|[r|] l IH]; cbn; intros H; [reflexivity| |].
  - destruct (H r (or_introl eq_refl)) as [u Hu]. rewrite Hu. cbn.
    rewrite (found_by_key _ _ Hu). f_equal. apply IH. intros q Hq. apply H. now right.
  - f_equal. apply IH. intros q Hq. apply H. now right.
Qed.

(** No populated entry belongs to an account that no entry names. *)
Lemma isAccount_populate (users : list User) (user : ObjectId)
    (l : list (option ObjectId)) (e : option User) :
  ~ In (Some user) l -> In e (populate users l) -> isAccount user e = false.
Proof.
  intros Hnot He. apply in_map_iff in He as ([r|] & <- & Hr); [|reflexivity].
  destruct (find _ users) as [u|] eqn:Hu; [|reflexivity]. cbn.
  apply Nat.eqb_neq. rewrite (found_by_key _ _ Hu). intros ->. contradiction.
Qed.

Lemma findIndex_none {A} (p : A -> bool) (l : list A) :
  (forall x, In x l -> p x = false) -> findIndex p l = None.
Proof.
  induction l as [|x l IH]; cbn; intros H; [reflexivity|].
  rewrite (H x (or_introl eq_refl)), IH; [reflexivity|].
  intros y Hy. apply H. now right.
Qed.

Lemma findIndex_last {A} (p : A -> bool) (l : list A) (y : A) :
  (forall x, In x l -> p x = false) -> p y = true ->
  findIndex p (l ++ [y]) = Some (List.length l).
Proof.
  induction l as [|x l IH]; cbn; intros H Hy; [now rewrite Hy|].
  rewrite (H x (or_introl eq_refl)), IH; [reflexivity| |assumption].
  intros z Hz. apply H. now right.
Qed.

Lemma splice1_last {A} (l : list A) (y : A) : splice1 (List.length l) (l ++ [y]) = l.
Proof.
  unfold splice1. rewrite firstn_app, Nat.sub_diag, firstn_all. cbn [firstn].
  rewrite skipn_all2 by (rewrite length_app; cbn; lia). now rewrite !app_nil_r.
Qed.

Lemma removeShare_removes (users : list User) (w : World) (user fileId : ObjectId)
    (g : File) (shareIndex : nat) :
  find (hasId fileId) (files w) = Some g ->
  findIndex (isAccount user) (populate users (sharedWith g)) = Some shareIndex ->
  Js.truthy (name g) = true ->
  removeShare users user fileId w
  = (MessageJson 200 "Removed shared file from your list",
     afterWrite w (setSharedWith g (depopulate (splice1 shareIndex
                                                  (populate users (sharedWith g)))))
       (mkActivity "share" (Some (_id g)) (name g) (Some user))).
Proof.
  intros Hg Hin Hname. unfold removeShare. open_route. rewrite Hg, Hin.
  unfold save, modify, logActivity, validActivity. cbn.
  rewrite (found_exists _ _ Hg eq_refl). cbn. rewrite Hname. reflexivity.
Qed.

(** X14. Sharing opens the download route to the recipient and the
    recipient's remove-share closes it again: before the share and after the
    removal the recipient is answered 404 "File not found or access denied",
    in between the node is found; a second share with the same account is
    refused, and after the removal the collection is what it was.  The
    entries the node had before all name accounts that exist. *)
Theorem share_round_trip (users : list User) (w : World) (user fileId : ObjectId)
    (address : string) (target : User) (f : File) :
  NoDup (map _id (files w)) ->
  Js.truthy address = true ->
  find (fun u => String.eqb (email u) (trim (Js.toLowerCase address))) users = Some target ->
  userKey target <> user ->
  find (ownedBy user fileId) (files w) = Some f ->
  ~ In None (sharedWith f) ->
  (forall r, In (Some r) (sharedWith f) ->
     exists u, find (fun v => Nat.eqb (userKey v) r) users = Some u) ->
  ~ In (Some (userKey target)) (sharedWith f) ->
  Js.truthy (name f) = true ->
  let denied := ErrorJson 404 "File not found or access denied" in
  exists w1 w2 shared,
    download (userKey target) fileId w = (denied, w)
    /\ share users user fileId (Some address) w
       = (MessageJson 200 ("File shared successfully with " ++ address), w1)
    /\ find (hasId fileId) (files w1) = Some shared
    /\ sharedWith shared = (sharedWith f ++ [Some (userKey target)])%list
    /\ fst (download (userKey target) fileId w1) <> denied
    /\ share users user fileId (Some address) w1
       = (ErrorJson 400 "File already shared with this user", w1)
    /\ removeShare users (userKey target) fileId w1
       = (MessageJson 200 "Removed shared file from your list", w2)
    /\ files w2 = files w
    /\ download (userKey target) fileId w2 = (denied, w2).
Proof.
  intros Hnd Haddr Htarget Hother Hf Hfull Haccounts Hnew Hname denied.
  pose proof (owned_has_id _ _ _ Hf) as (Hid & Hu & Hin).
  assert (Hnewb : someSharedWith (userKey target) (sharedWith f) = Some false).
  { now apply someSharedWith_false. }
  assert (Hnotb : existsb (isRecipient (userKey target)) (sharedWith f) = false).
  { apply not_true_iff_false. intros H. apply existsb_exists in H as ([x|] & Hx & E);
      [|discriminate]. apply Nat.eqb_eq in E. now subst x. }
  assert (Hdenied : forall db, db = files w -> find (canRead (userKey target) fileId) db = None).
  { intros db ->. apply find_all_false. intros g Hg. unfold canRead.
    destruct (hasId fileId g) eqn:E; [|reflexivity]. cbn.
    assert (g = f) as ->.
    { apply same_id_same_doc with (files w); trivial.
      unfold hasId in E. apply Nat.eqb_eq in E. congruence. }
    rewrite Hnotb, Hu. apply Nat.eqb_neq in Hother. rewrite Nat.eqb_sym in Hother.
    now rewrite Hother. }
  destruct (find (fun v => Nat.eqb (userKey v) (userKey target)) users) as [account|]
    eqn:Haccount.
  2:{ apply find_some in Htarget as [Hmember _].
      apply (find_none _ _ Haccount) in Hmember. now rewrite Nat.eqb_refl in Hmember. }
  pose proof (found_by_key _ _ Haccount) as Hkey.
  set (shared := setSharedWith f (sharedWith f ++ [Some (userKey target)])).
  set (w1 := afterWrite w shared (mkActivity "share" (Some (_id f)) (name f) (Some user))).
  assert (Hpop : populate users (sharedWith shared)
                 = (populate users (sharedWith f) ++ [Some account])%list).
  { cbn [sharedWith setSharedWith shared]. rewrite populate_app. cbn. now rewrite Haccount. }
  assert (Hindex : findIndex (isAccount (userKey target)) (populate users (sharedWith shared))
                   = Some (List.length (populate users (sharedWith f)))).
  { rewrite Hpop. apply findIndex_last.
    - intros e He. now apply isAccount_populate with users (sharedWith f).
    - cbn. now apply Nat.eqb_eq. }
  set (remaining := setSharedWith shared
                      (depopulate (splice1 (List.length (populate users (sharedWith f)))
                                           (populate users (sharedWith shared))))).
  set (w2 := afterWrite w1 remaining
               (mkActivity "share" (Some (_id shared)) (name shared)
                           (Some (userKey target)))).
  assert (Hex : existsb (hasId (_id shared)) (files w) = true).
  { now apply found_exists with (ownedBy user fileId) f. }
  assert (Hshared : existsb (isRecipient (userKey target)) (sharedWith shared) = true).
  { cbn. rewrite existsb_app. cbn. now rewrite Nat.eqb_refl, orb_true_r. }
  assert (Hback : remaining = f).
  { unfold remaining. rewrite Hpop, splice1_last, depopulate_populate by assumption.
    now destruct f. }
  assert (Hfiles2 : files w2 = files w).
  { change (files w2) with (replaceDoc remaining (replaceDoc shared (files w))).
    rewrite replaceDoc_twice by now rewrite Hback.
    rewrite Hback. now apply replaceDoc_same. }
  assert (Hstored : find (hasId fileId) (files w1) = Some shared).
  { change (files w1) with (replaceDoc shared (files w)).
    apply find_replaceDoc_only; trivial.
    - intros g Hg Hne. unfold hasId. apply Nat.eqb_neq. cbn in Hne. congruence.
    - unfold hasId. cbn. now apply Nat.eqb_eq. }
  exists w1, w2, shared.
  split; [|split; [|split; [|split; [|split; [|split; [|split; [|split]]]]]]].
  - apply download_denied. now apply Hdenied.
  - now apply share_shares.
  - exact Hstored.
  - reflexivity.
  - apply download_found with shared.
    change (files w1) with (replaceDoc shared (files w)).
    apply find_replaceDoc_only; trivial.
    + intros g Hg Hne. unfold canRead, hasId.
      apply Nat.eqb_neq in Hne. cbn in Hne. rewrite <- Hid. now rewrite Hne.
    + unfold canRead. rewrite Hshared, orb_true_r, andb_true_r.
      unfold hasId. cbn. now apply Nat.eqb_eq.
  - apply share_already with target shared; trivial.
    + change (files w1) with (replaceDoc shared (files w)). rewrite <- Hid.
      apply (@find_owned_replaceDoc shared f (files w) user); [cbn; now rewrite Hid|assumption].
    + cbn [sharedWith setSharedWith shared]. now apply someSharedWith_last.
  - now apply (@removeShare_removes users w1 (userKey target) fileId shared).
  - exact Hfiles2.
  - apply download_denied. now apply Hdenied.
Qed.

Lemma share_round_trip_witness :
  let denied := ErrorJson 404 "File not found or access denied" in
  exists w1 w2 shared,
    download Cases.bob 6 Scenario.tree = (denied, Scenario.tree)
    /\ share Cases.people Scenario.alice 6 (Some "Bob@Example.org") Scenario.tree
       = (MessageJson 200 "File shared successfully with Bob@Example.org", w1)
    /\ find (hasId 6) (files w1) = Some shared
    /\ sharedWith shared = [Some Cases.bob]
    /\ fst (download Cases.bob 6 w1) <> denied
    /\ share Cases.people Scenario.alice 6 (Some "Bob@Example.org") w1
       = (ErrorJson 400 "File already shared with this user", w1)
    /\ removeShare Cases.people Cases.bob 6 w1
       = (MessageJson 200 "Removed shared file from your list", w2)
    /\ files w2 = files Scenario.tree
    /\ download Cases.bob 6 w2 = (denied, w2).
Proof.
  apply (@share_round_trip Cases.people Scenario.tree Scenario.alice 6 "Bob@Example.org"
           (mkUser Cases.bob "bob@example.org" "bob"
              (Some (mkPreferences (Some true) (Some true)))) Scenario.aTxt); try reflexivity.
  - apply distinct_checked. vm_compute. reflexivity.
  - cbn. unfold Cases.bob, Scenario.alice. lia.
  - intros [].
  - intros r [].
  - intros [].
Defined.

(** A recipient whose account is gone is written back without a user when
    another recipient ends the own share, and from then on the already-shared
    test of the share route throws on the node. *)
Example removeShare_forgets_a_gone_account :
  let present := [mkUser Scenario.alice "alice@example.org" "alice" None;
                  mkUser Cases.carol "carol@example.org" "carol" None] in
  let w := mkWorld [Cases.sharedTxt] [] [] None 7 1700000100000 in
  let w1 := snd (removeShare present Cases.carol 6 w) in
  fst (removeShare present Cases.carol 6 w)
  = MessageJson 200 "Removed shared file from your list"
  /\ option_map sharedWith (find (hasId 6) (files w1)) = Some [None]
  /\ share present Scenario.alice 6 (Some "carol@example.org") w1
     = (ErrorJson 500 "Server error while sharing file", w1).
Proof. vm_compute. repeat split. Qed.

(** ** Listing a folder *)

Lemma string_compare_trans (s1 s2 s3 : string) :
  String.compare s1 s2 <> Gt -> String.compare s2 s3 <> Gt ->
  String.compare s1 s3 <> Gt.
Proof.
  revert s2 s3. induction s1 as [|c1 s1 IH]; intros [|c2 s2] [|c3 s3]; cbn;
    try congruence.
  unfold Ascii.compare.
  destruct (N.compare_spec (N_of_ascii c1) (N_of_ascii c2)) as [E12|L12|G12];
    destruct (N.compare_spec (N_of_ascii c2) (N_of_ascii c3)) as [E23|L23|G23];
    destruct (N.compare_spec (N_of_ascii c1) (N_of_ascii c3)) as [E13|L13|G13];
    try congruence; try lia.
  apply IH.
Qed.

Lemma string_leb_trans (s1 s2 s3 : string) :
  String.leb s1 s2 = true -> String.leb s2 s3 = true -> String.leb s1 s3 = true.
Proof.
  unfold String.leb. intros H12 H23.
  pose proof (@string_compare_trans s1 s2 s3) as H.
  destruct (String.compare s1 s2); try discriminate;
    destruct (String.compare s2 s3); try discriminate;
    destruct (String.compare s1 s3); try reflexivity;
    exfalso; apply H; congruence.
Qed.

Lemma listedBefore_total (f g : File) :
  listedBefore f g = true \/ listedBefore g f = true.
Proof.
  unfold listedBefore.
  destruct (isFolder f), (isFolder g); cbn; auto; apply String.leb_total.
Qed.

Lemma listedBefore_trans (f g h : File) :
  listedBefore f g = true -> listedBefore g h = true -> listedBefore f h = true.
Proof.
  unfold listedBefore.
  destruct (isFolder f), (isFolder g), (isFolder h); cbn; try congruence;
    apply string_leb_trans.
Qed.

Lemma insertListed_perm (f : File) (l : list File) :
  Permutation (insertListed f l) (f :: l).
Proof.
  induction l as [|g l IH]; cbn; [reflexivity|].
  destruct (listedBefore f g); [reflexivity|].
  rewrite IH. apply perm_swap.
Qed.

Lemma sortListing_perm (l : list File) : Permutation (sortListing l) l.
Proof.
  induction l as [|f l IH]; cbn; [reflexivity|].
  rewrite insertListed_perm. now constructor.
Qed.

Lemma insertListed_sorted (f : File) (l : list File) :
  StronglySorted (fun a b => listedBefore a b = true) l ->
  StronglySorted (fun a b => listedBefore a b = true) (insertListed f l).
Proof.
  induction l as [|g l IH]; cbn; intros Hs.
  - repeat constructor.
  - inversion Hs as [|? ? Hl Hall]; subst.
    destruct (listedBefore f g) eqn:E.
    + constructor; [assumption|]. constructor; [assumption|].
      eapply Forall_impl; [|exact Hall]. intros h Hh. now apply listedBefore_trans with g.
    + constructor; [now apply IH|].
      apply Forall_forall. intros h Hh.
      apply (Permutation_in _ (insertListed_perm f l)) in Hh as [<-|Hh].
      * destruct (listedBefore_total f g); congruence.
      * rewrite Forall_forall in Hall. now apply Hall.
Qed.

Lemma sortListing_sorted (l : list File) :
  StronglySorted (fun a b => listedBefore a b = true) (sortListing l).
Proof.
  induction l as [|f l IH]; cbn; [constructor|now apply insertListed_sorted].
Qed.

Lemma sorted_tail (pre l : list File) :
  StronglySorted (fun a b => listedBefore a b = true) (pre ++ l) ->
  StronglySorted (fun a b => listedBefore a b = true) l.
Proof.
  induction pre as [|a pre IH]; cbn; [trivial|].
  intros H. inversion H; subst. now apply IH.
Qed.

(** X15. The listing of a folder holds exactly the requester's nodes out of
    the trash whose parent is that folder, each as often as the collection
    has it, with the folders before the files and each group by ascending
    name; nothing is written. *)
Theorem folderContents_lists (w : World) (user : ObjectId) (folderId : option ObjectId) :
  exists nodes,
    folderContents user folderId w = (ListJson nodes, w)
    /\ Permutation nodes (filter (inFolder user folderId) (files w))
    /\ (forall g, In g nodes <->
          In g (files w) /\ userId g = user /\ inTrash g = false
          /\ parentFolder g = folderId)
    /\ StronglySorted (fun a b => listedBefore a b = true) nodes
    /\ (forall pre f post, nodes = (pre ++ f :: post)%list -> isFolder f = false ->
          forall g, In g post -> isFolder g = false).
Proof.
  exists (sortListing (filter (inFolder user folderId) (files w))).
  split; [reflexivity|]. split; [apply sortListing_perm|]. split; [|split].
  - intros g. split.
    + intros Hg. apply (Permutation_in _ (sortListing_perm _)) in Hg.
      apply filter_In in Hg as [Hin Hq]. unfold inFolder in Hq.
      apply andb_prop in Hq as [Hq Hp]. apply andb_prop in Hq as [Hu Ht].
      apply Nat.eqb_eq in Hu. apply negb_true_iff in Ht. apply optEqb_eq in Hp.
      now repeat split.
    + intros (Hin & Hu & Ht & Hp).
      apply (Permutation_in _ (Permutation_sym (sortListing_perm _))).
      apply filter_In. split; [assumption|]. unfold inFolder.
      rewrite Hu, Ht, Hp, Nat.eqb_refl, optEqb_refl. reflexivity.
  - apply sortListing_sorted.
  - intros pre f post E Hfile g Hg.
    pose proof (sortListing_sorted (filter (inFolder user folderId) (files w))) as Hs.
    rewrite E in Hs. apply sorted_tail in Hs. inversion Hs as [|? ? _ Hall]; subst.
    rewrite Forall_forall in Hall. specialize (Hall g Hg).
    unfold listedBefore in Hall. rewrite Hfile in Hall.
    destruct (isFolder g); [discriminate|reflexivity].
Qed.

Lemma in_replaceDoc_id (m g : File) (db : list File) :
  In g (replaceDoc m db) -> _id g = _id m -> g = m.
Proof.
  unfold replaceDoc. intros H E. apply in_map_iff in H as (h & Eh & _).
  destruct (hasId (_id m) h) eqn:Hh; [congruence|].
  subst h. unfold hasId in Hh. apply Nat.eqb_neq in Hh. contradiction.
Qed.

Lemma in_sortListing (l : list File) (g : File) : In g (sortListing l) <-> In g l.
Proof.
  split; intros H.
  - now apply (Permutation_in _ (sortListing_perm l)).
  - now apply (Permutation_in _ (Permutation_sym (sortListing_perm l))).
Qed.

Lemma listed (w : World) (user : ObjectId) (folderId : option ObjectId) (g : File) :
  In g (files w) -> userId g = user -> inTrash g = false -> parentFolder g = folderId ->
  exists nodes, folderContents user folderId w = (ListJson nodes, w) /\ In g nodes.
Proof.
  intros Hin Hu Ht Hp.
  exists (sortListing (filter (inFolder user folderId) (files w))).
  split; [reflexivity|]. apply in_sortListing. apply filter_In. split; [assumption|].
  unfold inFolder. rewrite Hu, Ht, Hp, Nat.eqb_refl, optEqb_refl. reflexivity.
Qed.

Lemma listed_inv (w : World) (user : ObjectId) (folderId : option ObjectId)
    (nodes : list File) (g : File) :
  fst (folderContents user folderId w) = ListJson nodes -> In g nodes ->
  In g (files w) /\ inTrash g = false.
Proof.
  intros H Hg.
  change (fst (folderContents user folderId w))
    with (ListJson (sortListing (filter (inFolder user folderId) (files w)))) in H.
  injection H as <-.
  apply (proj1 (in_sortListing _ _)) in Hg. apply filter_In in Hg as [Hin Hq].
  split; [assumption|]. unfold inFolder in Hq.
  apply andb_prop in Hq as [Hq _]. apply andb_prop in Hq as [_ Ht].
  now apply negb_true_iff in Ht.
Qed.

(** X16. Trashing a folder trashes that one node only: a node inside it is
    left as it is, out of the trash, and is still listed as content of the
    trashed folder, while the folder itself is listed nowhere any more. *)
Theorem trash_does_not_cascade (w : World) (elapsed : Z) (user fileId : ObjectId) (f c : File) :
  find (ownedBy user fileId) (files w) = Some f ->
  In c (files w) -> _id c <> fileId ->
  userId c = user -> inTrash c = false -> parentFolder c = Some fileId ->
  let w1 := snd (trash elapsed user fileId w) in
  In c (files w1)
  /\ (exists nodes,
        folderContents user (Some fileId) w1 = (ListJson nodes, w1) /\ In c nodes)
  /\ (forall parent nodes g,
        fst (folderContents user parent w1) = ListJson nodes -> In g nodes ->
        _id g <> fileId).
Proof.
  intros Hf Hc Hne Hu Hlive Hpar w1.
  pose proof (owned_has_id _ _ _ Hf) as (Hid & _ & _).
  destruct (trash_effect w elapsed user fileId Hf) as (Hfiles & _).
  fold w1 in Hfiles.
  assert (Hc1 : In c (files w1)).
  { rewrite Hfiles. apply in_replaceDoc_other; [assumption|]. cbn. congruence. }
  split; [exact Hc1|]. split; [now apply listed|].
  intros parent nodes g Hrun Hg E.
  destruct (@listed_inv w1 user parent nodes g Hrun Hg) as [Hin Hlive'].
  rewrite Hfiles in Hin. apply in_replaceDoc_id in Hin; [|cbn; congruence].
  subst g. discriminate Hlive'.
Qed.

Lemma trash_does_not_cascade_witness :
  let w1 := snd (trash 2 Scenario.alice 1 Scenario.tree) in
  In Scenario.Y (files w1)
  /\ (exists nodes,
        folderContents Scenario.alice (Some 1%nat) w1 = (ListJson nodes, w1)
        /\ In Scenario.Y nodes)
  /\ (forall parent nodes g,
        fst (folderContents Scenario.alice parent w1) = ListJson nodes -> In g nodes ->
        _id g <> 1%nat).
Proof.
  apply (@trash_does_not_cascade Scenario.tree 2 Scenario.alice 1 Scenario.X Scenario.Y);
    try reflexivity.
  - cbn. tauto.
  - cbn. lia.
Defined.

(** X17. Permanently deleting a folder deletes that one node only: a node
    inside it stays, its parent link now resolves to no node, and it is still
    listed under the id of the folder that is gone. *)
Theorem permanentDelete_orphans_children (w : World) (user fileId : ObjectId)
    (f c : File) :
  NoDup (map _id (files w)) ->
  find (ownedBy user fileId) (files w) = Some f ->
  removable (disk w) (path f) -> Js.truthy (name f) = true ->
  In c (files w) -> _id c <> fileId ->
  userId c = user -> inTrash c = false -> parentFolder c = Some fileId ->
  exists w1,
    permanentDelete user fileId w = (MessageJson 200 "File permanently deleted", w1)
    /\ In c (files w1)
    /\ find (hasId fileId) (files w1) = None
    /\ (exists nodes,
          folderContents user (Some fileId) w1 = (ListJson nodes, w1) /\ In c nodes).
Proof.
  intros Hnd Hf Hpath Hname Hc Hne Hu Hlive Hpar.
  destruct (permanentDelete_deletes w user fileId Hf Hpath Hname)
    as (w1 & Hrun & Hfiles & _).
  assert (Hc1 : In c (files w1)).
  { rewrite Hfiles. apply in_removeFirst; [assumption|].
    unfold hasId. now apply Nat.eqb_neq. }
  exists w1. split; [assumption|]. split; [assumption|]. split.
  - rewrite Hfiles. now apply find_removeFirst.
  - now apply listed.
Qed.

Lemma permanentDelete_orphans_children_witness :
  exists w1,
    permanentDelete Scenario.alice 1 Scenario.tree
    = (MessageJson 200 "File permanently deleted", w1)
    /\ In Scenario.aTxt (files w1)
    /\ find (hasId 1) (files w1) = None
    /\ (exists nodes,
          folderContents Scenario.alice (Some 1%nat) w1 = (ListJson nodes, w1)
          /\ In Scenario.aTxt nodes).
Proof.
  apply (@permanentDelete_orphans_children Scenario.tree Scenario.alice 1
           Scenario.X Scenario.aTxt); try reflexivity.
  - apply distinct_checked. vm_compute. reflexivity.
  - cbn. tauto.
  - cbn. lia.
Defined.

(** ** Uploads into a folder that is not accepted *)

Lemma stored_regular (w : World) (f : Multer.file) :
  stored w f -> regularOrGone (disk w) (Multer.path f).
Proof. intros [H _]. right. eauto. Qed.

Lemma upload_single_bad_parent (w : World) (user p : ObjectId) (f : Multer.file) :
  find (isLiveFolderOf user p) (files w) = None -> stored w f ->
  exists w', upload user (Some f) (FieldId p) w = (InvalidParentError, w')
             /\ files w' = files w
             /\ storageStats w' = storageStats w
             /\ existsSyncAt (disk w') (Some (Multer.path f)) = false.
Proof.
  intros Hnone [Hdisk _].
  destruct (@unlinkSync_regular w (Multer.path f) _ Hdisk)
    as (w' & Hrun & Hfiles & Hstats & Hgone & _).
  exists w'. split; [|now repeat split].
  unfold upload, uploadBody. open_route. cbn [normalizeParent].
  now rewrite Hnone, Hrun.
Qed.

Lemma upload_batch_bad_parent (w : World) (user p : ObjectId) (fs : list Multer.file)
    (flag : bool) (paths : PathsField) :
  find (isLiveFolderOf user p) (files w) = None -> fs <> [] ->
  (forall f, In f fs -> stored w f) ->
  exists w', uploadMultiple user fs (FieldId p) flag paths w = (InvalidParentError, w')
             /\ files w' = files w
             /\ storageStats w' = storageStats w
             /\ forall f, In f fs -> existsSyncAt (disk w') (Some (Multer.path f)) = false.
Proof.
  intros Hnone Hne Hstored.
  destruct (@forEach_unlinkIfExists fs w) as (w' & Hrun & Hfiles & Hstats & Hgone & _).
  { intros f Hf. apply stored_regular. now apply Hstored. }
  exists w'. split; [|now repeat split].
  unfold uploadMultiple. destruct fs as [|f0 fs0]; [congruence|].
  unfold uploadMultipleBody. open_route. cbn [normalizeParent].
  now rewrite Hnone, Hrun.
Qed.

(** X18. An upload that names a parent which is not a live folder of the
    requester (no such node, a file, a trashed folder, a folder of another
    account) is refused by both upload routes with the invalid-parent error:
    no node is created, the ledger is not touched, and the incoming bytes are
    removed. *)
Theorem upload_refuses_bad_parent (w : World) (user p : ObjectId) (r : UploadRequest) :
  find (isLiveFolderOf user p) (files w) = None ->
  incoming r <> [] ->
  (forall f, In f (incoming r) -> stored w f) ->
  exists w', runUpload user r (FieldId p) w = (InvalidParentError, w')
             /\ files w' = files w
             /\ storageStats w' = storageStats w
             /\ forall f, In f (incoming r) ->
                  existsSyncAt (disk w') (Some (Multer.path f)) = false.
Proof.
  intros Hnone Hne Hstored. destruct r as [f | fs flag paths].
  - destruct (@upload_single_bad_parent w user p f Hnone) as (w' & Hrun & Hf & Hs & Hg).
    + apply Hstored. now left.
    + exists w'. repeat split; trivial. intros g [<-|[]]. exact Hg.
  - now apply upload_batch_bad_parent.
Qed.

Lemma upload_refuses_bad_parent_witness :
  exists w', upload Scenario.alice (Some (fst Scenario.secondCopy)) (FieldId 5)
                    (snd Scenario.secondCopy)
             = (InvalidParentError, w')
             /\ files w' = files (snd Scenario.secondCopy)
             /\ storageStats w' = storageStats (snd Scenario.secondCopy)
             /\ forall f, In f [fst Scenario.secondCopy] ->
                  existsSyncAt (disk w') (Some (Multer.path f)) = false.
Proof.
  apply (@upload_refuses_bad_parent (snd Scenario.secondCopy) Scenario.alice 5
           (Single (fst Scenario.secondCopy))).
  - vm_compute. reflexivity.
  - discriminate.
  - intros f [<-|[]]. split; [vm_compute; reflexivity|]. split; vm_compute; discriminate.
Defined.

(** X19. The create-folder route does not look its parent up: under a parent
    id that the upload route refuses in the same world (because it is no live
    folder of the requester) the folder is created all the same. *)
Theorem createFolder_does_not_check_the_parent (w : World) (user p : ObjectId)
    (nm : string) (f : Multer.file) :
  idsBelowCounter w ->
  blank nm = false ->
  find (isFolderNamed user (trim nm) (Some p)) (files w) = None ->
  find (isLiveFolderOf user p) (files w) = None ->
  stored w f ->
  fst (upload user (Some f) (FieldId p) w) = InvalidParentError
  /\ exists nf w1,
       createFolder user (Some nm) (Some p) w
       = (NodeJson 201 "Folder created successfully" nf, w1)
       /\ In nf (files w1) /\ parentFolder nf = Some p /\ inTrash nf = false.
Proof.
  intros Hfresh Hnm Hnone Hbad Hstored. split.
  - destruct (@upload_single_bad_parent w user p f Hbad Hstored) as (w' & Hrun & _).
    now rewrite Hrun.
  - exists (createdFolder w user nm (Some p)). eexists.
    split; [now apply createFolder_creates|].
    split; [|now split]. cbn. apply in_or_app. right. now left.
Qed.

Lemma createFolder_does_not_check_the_parent_witness :
  fst (upload Scenario.alice (Some (fst Scenario.secondCopy)) (FieldId 5)
              (snd Scenario.secondCopy))
  = InvalidParentError
  /\ exists nf w1,
       createFolder Scenario.alice (Some "Docs") (Some 5%nat) (snd Scenario.secondCopy)
       = (NodeJson 201 "Folder created successfully" nf, w1)
       /\ In nf (files w1) /\ parentFolder nf = Some 5%nat /\ inTrash nf = false.
Proof.
  apply createFolder_does_not_check_the_parent.
  - apply idsBelowCounter_checked. vm_compute. reflexivity.
  - vm_compute. reflexivity.
  - vm_compute. reflexivity.
  - vm_compute. reflexivity.
  - split; [vm_compute; reflexivity|]. split; vm_compute; discriminate.
Defined.

(** ** Batches with duplicates *)

Lemma tryUnlink_gone (p : FsPath) (w : World) :
  exists w', tryUnlink p w = (Ok tt, w')
             /\ files w' = files w
             /\ storageStats w' = storageStats w
             /\ (regularOrGone (disk w) p -> existsSyncAt (disk w') (Some p) = false)
             /\ (forall q, statOf (disk w') q = None \/ statOf (disk w') q = statOf (disk w) q).
Proof.
  destruct (statOf (disk w) p) as [[bytes| |]|] eqn:Hstat.
  - destruct (@unlinkSync_regular w p bytes Hstat) as (w' & Hrun & Hf & Hs & Hg & Hm).
    exists w'. unfold tryUnlink, tryCatch. rewrite Hrun. now repeat split.
  - exists w. unfold tryUnlink, tryCatch, unlinkSync, ret.
    destruct p; rewrite ?Hstat; repeat split; auto; intros [H|[b H]]; congruence.
  - exists w. unfold tryUnlink, tryCatch, unlinkSync, ret.
    destruct p; rewrite ?Hstat; repeat split; auto; intros [H|[b H]]; congruence.
  - exists w. unfold tryUnlink, tryCatch, unlinkSync, ret.
    destruct p; rewrite ?Hstat; repeat split; auto; intros _; unfold existsSyncAt;
      now rewrite Hstat.
Qed.

Lemma forEach_tryUnlink_gone (l : list Multer.file) (w : World) :
  (forall f, In f l -> regularOrGone (disk w) (Multer.path f)) ->
  exists w', forEach l (fun f => tryUnlink (Multer.path f)) w = (Ok tt, w')
             /\ files w' = files w
             /\ storageStats w' = storageStats w
             /\ (forall f, In f l -> existsSyncAt (disk w') (Some (Multer.path f)) = false)
             /\ (forall q, statOf (disk w') q = None \/ statOf (disk w') q = statOf (disk w) q).
Proof.
  revert w. induction l as [|f l IH]; intros w Hall.
  - exists w. cbn. repeat split; auto. intros f [].
  - destruct (tryUnlink_gone (Multer.path f) w) as (w1 & Hrun & Hfiles & Hstats & Hgone & Hother).
    destruct (IH w1) as (w2 & Hrun2 & Hfiles2 & Hstats2 & Hgone2 & Hother2).
    { intros g Hg. destruct (Hother (Multer.path g)) as [Hn | Hs].
      - now left.
      - unfold regularOrGone. rewrite Hs. apply Hall. now right. }
    exists w2. cbn. unfold bind. rewrite Hrun, Hrun2.
    split; [reflexivity|]. split; [congruence|]. split; [congruence|]. split.
    + intros g [<-|Hg]; [|now apply Hgone2].
      specialize (Hgone (Hall f (or_introl eq_refl))).
      unfold existsSyncAt in *. destruct (Hother2 (Multer.path f)) as [Hn | Hs].
      * now rewrite Hn.
      * now rewrite Hs.
    + intros q. destruct (Hother2 q) as [Hn | Hs]; [now left|].
      rewrite Hs. apply Hother.
Qed.

Lemma batch_quota_passes (w : World) (user : ObjectId) (fs : list Multer.file) :
  usedBy user w + fold_right (fun g a => Multer.size g + a) 0 fs <= quotaBytes ->
  (match find (fun s => Nat.eqb (statsUser s) user) (storageStats w) with
   | Some st => usedStorage st
   | None => 0
   end + fold_left (fun sum g => sum + Multer.size g) fs 0 >? quotaBytes) = false.
Proof.
  intros H. rewrite fold_left_sizes, Z.gtb_ltb. apply Z.ltb_ge.
  unfold usedBy, statsOf in H. lia.
Qed.



(** X21. A batch that holds the same file twice (same name and size, no
    folder structure) fails at the second one: the answer is 500, but the node
    made for the first one stays in the collection while the bytes of both
    files are removed, so that node records a path that holds nothing; the
    ledger is not recounted. *)
Theorem batch_with_a_repeated_file (w : World) (user : ObjectId) (f1 f2 : Multer.file)
    (field : FolderField) :
  idsBelowCounter w ->
  ParentAccepted w user field ->
  stored w f1 -> stored w f2 ->
  Multer.originalname f2 = Multer.originalname f1 ->
  Multer.size f2 = Multer.size f1 ->
  Js.truthy (Multer.originalname f1) = true ->
  usedBy user w + (Multer.size f1 + Multer.size f2) <= quotaBytes ->
  find (sameUpload user (Multer.originalname f1) (Multer.size f1)
                   (normalizeParent field)) (files w) = None ->
  exists w',
    uploadMultiple user [f1; f2] field false PathsMissing w
    = (ErrorJson 500 "Server error while uploading files", w')
    /\ files w' = (files w ++ [uploadedDoc w user f1 field])%list
    /\ path (uploadedDoc w user f1 field) = Some (Multer.path f1)
    /\ existsSyncAt (disk w') (Some (Multer.path f1)) = false
    /\ existsSyncAt (disk w') (Some (Multer.path f2)) = false
    /\ storageStats w' = storageStats w.
Proof.
  intros Hfresh Hparent Hs1 Hs2 Hname Hsize Htruthy Hquota Hnew.
  set (doc := uploadedDoc w user f1 field).
  set (wt := afterInsert w doc (uploadActivity doc (Multer.originalname f1) user)).
  destruct (@forEach_tryUnlink_gone [f1; f2] wt) as (w' & Hrun & Hfiles & Hstats & Hgone & _).
  { intros g [<-|[<-|[]]]; now apply stored_regular. }
  exists w'. split; [|repeat split; trivial; apply Hgone; cbn; auto].
  assert (Hcheck := batch_quota_passes w user [f1; f2]).
  cbn [fold_right] in Hcheck. rewrite Z.add_0_r in Hcheck. specialize (Hcheck Hquota).
  apply fresh_id_absent in Hfresh.
  assert (Hdup : find (sameUpload user (Multer.originalname f2) (Multer.size f2)
                                  (normalizeParent field)) (files w ++ [doc])
                 = Some doc).
  { rewrite Hname, Hsize, find_app_right by assumption.
    cbn [find]. unfold doc. now rewrite sameUpload_uploadedDoc. }
  apply parent_lookup in Hparent.
  unfold uploadMultiple, uploadMultipleBody. open_route.
  assert (Hplace : placeFiles user (normalizeParent field) None [] 0 [f1; f2] [] 0 w
                   = (Throw, wt)).
  { cbn [placeFiles]. unfold bind, ret, findOne, gets. rewrite Hnew.
    unfold newFile, save, modify. cbn [files setNextId _id]. rewrite Hfresh.
    unfold logActivity at 1. unfold validActivity, uploadActivity.
    cbn [activityType activityFileName activityUserId existsb activityTypes].
    cbn [String.eqb Ascii.eqb Bool.eqb orb andb]. rewrite Htruthy. cbn [andb].
    unfold modify. cbn [files setFiles setActivities].
    unfold doc, uploadedDoc in Hdup. rewrite Hdup.
    rewrite skipped_activity_is_rejected. reflexivity. }
  unfold bind in Hrun.
  destruct (normalizeParent field) as [p|].
  - destruct Hparent as [pd Hpd]. rewrite Hpd, Hcheck.
    unfold bind, ret in Hplace. rewrite Hplace. rewrite Hrun. reflexivity.
  - rewrite Hcheck. unfold bind, ret in Hplace. rewrite Hplace. rewrite Hrun. reflexivity.
Qed.

Lemma batch_with_a_repeated_file_witness :
  let w := snd Cases.twice in
  let f1 := fst Scenario.freshUpload in
  let f2 := fst Cases.twice in
  exists w',
    uploadMultiple Scenario.alice [f1; f2] (FieldId 1) false PathsMissing w
    = (ErrorJson 500 "Server error while uploading files", w')
    /\ files w' = (files w ++ [uploadedDoc w Scenario.alice f1 (FieldId 1)])%list
    /\ path (uploadedDoc w Scenario.alice f1 (FieldId 1)) = Some (Multer.path f1)
    /\ existsSyncAt (disk w') (Some (Multer.path f1)) = false
    /\ existsSyncAt (disk w') (Some (Multer.path f2)) = false
    /\ storageStats w' = storageStats w.
Proof.
  apply (@batch_with_a_repeated_file (snd Cases.twice) Scenario.alice
           (fst Scenario.freshUpload) (fst Cases.twice) (FieldId 1)).
  - apply idsBelowCounter_checked. vm_compute. reflexivity.
  - apply ParentLive with Scenario.X. reflexivity.
  - split; [vm_compute; reflexivity|]. split; vm_compute; discriminate.
  - split; [vm_compute; reflexivity|]. split; vm_compute; discriminate.
  - reflexivity.
  - reflexivity.
  - reflexivity.
  - vm_compute. discriminate.
  - vm_compute. reflexivity.
Defined.

(** ** Duplicates are told by the original name *)

Lemma replaceDoc_last (m d : File) (l : list File) :
  existsb (hasId (_id m)) l = false -> _id d = _id m ->
  replaceDoc m (l ++ [d]) = (l ++ [m])%list.
Proof.
  intros Hl Hd. unfold replaceDoc. rewrite map_app. cbn.
  unfold hasId at 2. rewrite Hd, Nat.eqb_refl. f_equal.
  rewrite <- (map_id l) at 2. apply map_ext_in. intros g Hg.
  destruct (hasId (_id m) g) eqn:E; [|reflexivity].
  apply not_true_iff_false in Hl. exfalso. apply Hl. apply existsb_exists. eauto.
Qed.

(** X22. The duplicate check of the upload route goes by the original name,
    which renaming leaves alone: after an uploaded file was renamed, uploading
    the same file again into the same folder is still skipped as a duplicate,
    and the answer reports the node under its new name. *)
Theorem renamed_upload_is_still_a_duplicate (w w1 : World) (user : ObjectId)
    (f1 f2 : Multer.file) (field : FolderField) (info : FileInfo) (nm : string) :
  idsBelowCounter w ->
  upload user (Some f1) field w = (FileJson 201 "File uploaded successfully" info, w1) ->
  blank nm = false ->
  Multer.originalname f2 = Multer.originalname f1 ->
  Multer.size f2 = Multer.size f1 ->
  usedBy user w1 + Multer.size f2 <= quotaBytes ->
  exists renamed w2 w3,
    rename user (infoId info) (Some nm) w1
    = (NodeJson 200 "Renamed successfully" renamed, w2)
    /\ name renamed = trim nm
    /\ upload user (Some f2) field w2
       = (FileJson 200 "File already exists, skipped duplicate" (infoOf renamed), w3)
    /\ files w3 = files w2.
Proof.
  intros Hfresh Hup Hnm Hname Hsize Hquota.
  destruct (@upload_created_inv w w1 user f1 field _ info Hfresh Hup)
    as (Hparent & Hnew & Hfiles & -> & _).
  set (doc := uploadedDoc w user f1 field) in *.
  pose proof (fresh_id_absent Hfresh) as Habsent.
  assert (Hfind : find (ownedBy user (infoId (infoOf doc))) (files w1) = Some doc).
  { rewrite Hfiles, find_app_right.
    - cbn [find]. unfold ownedBy, hasId. cbn. now rewrite !Nat.eqb_refl.
    - apply find_all_false. intros g Hg. unfold ownedBy.
      destruct (hasId (infoId (infoOf doc)) g) eqn:E; [|reflexivity].
      apply not_true_iff_false in Habsent. exfalso. apply Habsent.
      apply existsb_exists. eauto. }
  set (renamed := setName doc (trim nm) (clock w1)).
  set (w2 := afterWrite w1 renamed
               (mkActivity "rename" (Some (_id doc)) (trim nm) (Some user))).
  assert (Hfiles2 : files w2 = (files w ++ [renamed])%list).
  { change (files w2) with (replaceDoc renamed (files w1)). rewrite Hfiles.
    now apply replaceDoc_last. }
  exists renamed, w2, (snd (updateUserStats user w2)).
  split; [now apply rename_renames|]. split; [reflexivity|]. split; [|reflexivity].
  apply upload_duplicate.
  - now apply (@parent_accepted_later w w2 user field [renamed]).
  - exact Hquota.
  - rewrite Hfiles2, Hname, Hsize, find_app_right by assumption.
    cbn [find]. replace (sameUpload _ _ _ _ renamed) with true; [reflexivity|].
    symmetry. exact (sameUpload_uploadedDoc w user f1 field).
Qed.

Lemma renamed_upload_is_still_a_duplicate_witness :
  exists renamed w2 w3,
    rename Scenario.alice 7 (Some "notes.txt") (snd Scenario.afterFresh)
    = (NodeJson 200 "Renamed successfully" renamed, w2)
    /\ name renamed = "notes.txt"
    /\ upload Scenario.alice (Some (fst Scenario.freshAgain)) (FieldId 1) w2
       = (FileJson 200 "File already exists, skipped duplicate" (infoOf renamed), w3)
    /\ files w3 = files w2.
Proof.
  apply (@renamed_upload_is_still_a_duplicate (snd Scenario.freshUpload)
           (snd Scenario.afterFresh) Scenario.alice (fst Scenario.freshUpload)
           (fst Scenario.freshAgain) (FieldId 1)
           (mkInfo 7 "b.txt" "text" 700 1700000100000 (Some 1%nat)) "notes.txt").
  - apply idsBelowCounter_checked. vm_compute. reflexivity.
  - vm_compute. reflexivity.
  - reflexivity.
  - reflexivity.
  - reflexivity.
  - vm_compute. discriminate.
Defined.

(** ** A fresh upload *)

(** X23. The single-file route stores a file that passes its checks (parent
    accepted, under the ceiling, no live duplicate by original name and size
    in that folder, a non-empty name): one node is appended that records the
    path multer wrote, and the bytes stay where they are. *)
Theorem upload_stores_a_new_file (w : World) (user : ObjectId) (f : Multer.file)
    (field : FolderField) :
  idsBelowCounter w ->
  ParentAccepted w user field ->
  usedBy user w + Multer.size f <= quotaBytes ->
  find (sameUpload user (Multer.originalname f) (Multer.size f)
                   (normalizeParent field)) (files w) = None ->
  Js.truthy (Multer.originalname f) = true ->
  let doc := uploadedDoc w user f field in
  exists w1,
    upload user (Some f) field w
    = (FileJson 201 "File uploaded successfully" (infoOf doc), w1)
    /\ files w1 = (files w ++ [doc])%list
    /\ path doc = Some (Multer.path f)
    /\ disk w1 = disk w
    /\ idsBelowCounter w1.
Proof.
  intros Hfresh Hparent Hquota Hnew Hname doc.
  pose proof (fresh_id_absent Hfresh) as Habsent.
  assert (Hcheck : match statsOf user w with
                   | Some st => usedStorage st + Multer.size f >? quotaBytes
                   | None => false
                   end = false).
  { unfold usedBy in Hquota. destruct (statsOf user w) as [st|]; [|reflexivity].
    rewrite Z.gtb_ltb. apply Z.ltb_ge. lia. }
  apply parent_lookup in Hparent.
  assert (Hids : forall w1, files w1 = (files w ++ [doc])%list ->
                   nextId w1 = S (nextId w) -> idsBelowCounter w1).
  { intros w1 Hfiles Hnext g Hg. rewrite Hfiles in Hg. rewrite Hnext.
    apply in_app_or in Hg as [Hg|[<-|[]]]; [specialize (Hfresh g Hg); lia|cbn; lia]. }
  unfold upload, uploadBody. open_route. unfold statsOf in Hcheck.
  unfold doc, uploadedDoc in *.
  destruct (normalizeParent field) as [p|].
  - destruct Hparent as [pd Hpd]. rewrite Hpd, Hcheck, Hnew.
    unfold newFile, save, modify, updateUserStats, logActivity, validActivity. cbn.
    rewrite Habsent. cbn. rewrite Hname. cbn.
    eexists. split; [reflexivity|]. cbn. repeat split.
    now apply Hids.
  - rewrite Hcheck, Hnew.
    unfold newFile, save, modify, updateUserStats, logActivity, validActivity. cbn.
    rewrite Habsent. cbn. rewrite Hname. cbn.
    eexists. split; [reflexivity|]. cbn. repeat split.
    now apply Hids.
Qed.

Lemma upload_stores_a_new_file_witness :
  let w := snd Scenario.freshUpload in
  let doc := uploadedDoc w Scenario.alice (fst Scenario.freshUpload) (FieldId 1) in
  exists w1,
    upload Scenario.alice (Some (fst Scenario.freshUpload)) (FieldId 1) w
    = (FileJson 201 "File uploaded successfully" (infoOf doc), w1)
    /\ files w1 = (files w ++ [doc])%list
    /\ path doc = Some (Multer.path (fst Scenario.freshUpload))
    /\ disk w1 = disk w
    /\ idsBelowCounter w1.
Proof.
  apply (@upload_stores_a_new_file (snd Scenario.freshUpload) Scenario.alice
           (fst Scenario.freshUpload) (FieldId 1)).
  - apply idsBelowCounter_checked. vm_compute. reflexivity.
  - apply ParentLive with Scenario.X. reflexivity.
  - vm_compute. discriminate.
  - vm_compute. reflexivity.
  - reflexivity.
Defined.

(** ** Uploads keep folder names unique *)

Lemma leavesFiles_keepsTidy {A} (c : M A) : leavesFiles c -> keepsTidy c.
Proof.
  intros H w r w' [Hids Huniq] Hrun. destruct (H w r w' Hrun) as [Hf Hn].
  split.
  - intros g Hg. rewrite Hf in Hg. rewrite Hn. now apply Hids.
  - now rewrite Hf.
Qed.

Lemma keepsTidy_bind {A B} (c : M A) (k : A -> M B) :
  keepsTidy c -> (forall a, keepsTidy (k a)) -> keepsTidy (bind c k).
Proof.
  intros Hc Hk w r w' Hw. unfold bind.
  destruct (c w) as [[a|] w1] eqn:E.
  - intros Hrun. exact (Hk a w1 r w' (Hc w _ w1 Hw E) Hrun).
  - intros Hrun. injection Hrun as _ <-. exact (Hc w _ w1 Hw E).
Qed.

Lemma keepsTidy_tryCatch {A} (body handler : M A) :
  keepsTidy body -> keepsTidy handler -> keepsTidy (tryCatch body handler).
Proof.
  intros Hb Hh w r w' Hw. unfold tryCatch.
  destruct (body w) as [[a|] w1] eqn:E.
  - intros Hrun. injection Hrun as _ <-. exact (Hb w _ w1 Hw E).
  - intros Hrun. exact (Hh w1 r w' (Hb w _ w1 Hw E) Hrun).
Qed.

Lemma keepsTidy_ret {A} (a : A) : keepsTidy (ret a).
Proof. intros w r w' Hw H. now injection H as _ <-. Qed.

Lemma keepsTidy_throw {A} : keepsTidy (@throw A).
Proof. intros w r w' Hw H. now injection H as _ <-. Qed.

Lemma keepsTidy_gets {A} (f : World -> A) : keepsTidy (gets f).
Proof. intros w r w' Hw H. now injection H as _ <-. Qed.

Lemma leavesFiles_unlinkSync (p : FsPath) : leavesFiles (unlinkSync p).
Proof.
  intros w r w'. unfold unlinkSync.
  destruct p as [u e|q]; [|intros H; now injection H as _ <-].
  destruct (statOf (disk w) (InArea u e)) as [[b| |]|];
    intros H; injection H as _ <-; now split.
Qed.

Lemma keepsTidy_unlinkIfExists (p : FsPath) : keepsTidy (unlinkIfExists p).
Proof.
  apply keepsTidy_bind; [apply keepsTidy_gets|].
  intros [|]; [apply leavesFiles_keepsTidy, leavesFiles_unlinkSync|apply keepsTidy_ret].
Qed.

Lemma keepsTidy_tryUnlink (p : FsPath) : keepsTidy (tryUnlink p).
Proof.
  apply keepsTidy_tryCatch;
    [apply leavesFiles_keepsTidy, leavesFiles_unlinkSync|apply keepsTidy_ret].
Qed.

Lemma keepsTidy_forEach {A} (l : list A) (body : A -> M unit) :
  (forall a, keepsTidy (body a)) -> keepsTidy (forEach l body).
Proof.
  intros H. induction l as [|a l IH]; cbn; [apply keepsTidy_ret|].
  apply keepsTidy_bind; [apply H|intros _; exact IH].
Qed.

Lemma keepsTidy_logActivity (a : Activity) : keepsTidy (logActivity a).
Proof.
  apply leavesFiles_keepsTidy. intros w r w'. unfold logActivity, modify, throw.
  destruct (validActivity a); intros H; injection H as _ <-; now split.
Qed.

Lemma keepsTidy_updateUserStats (user : ObjectId) : keepsTidy (updateUserStats user).
Proof.
  apply leavesFiles_keepsTidy. intros w r w' H. injection H as _ <-. now split.
Qed.

(** Appending a document that is no folder, or a folder without a live
    namesake, under a fresh id. *)
Lemma tidy_insert (w : World) (nf : File) :
  tidy w -> _id nf = nextId w ->
  (isFolder nf = true ->
   find (isFolderNamed (userId nf) (name nf) (parentFolder nf)) (files w) = None) ->
  tidy (setFiles (files w ++ [nf]) (setNextId (S (nextId w)) w)).
Proof.
  intros [Hids Huniq] Hid Hfolder. split.
  - intros g Hg. cbn in *. apply in_app_or in Hg as [Hg|[<-|[]]].
    + specialize (Hids g Hg). lia.
    + lia.
  - cbn. destruct (isFolder nf) eqn:E.
    + apply unique_after_insert with (userId nf) (name nf) (parentFolder nf); auto.
    + intros f g Hf Hg Hff Hgf. apply in_app_or in Hf as [Hf|[<-|[]]]; [|congruence].
      apply in_app_or in Hg as [Hg|[<-|[]]]; [|congruence].
      now apply Huniq.
Qed.

Lemma keepsTidy_insert {B} (nm : string) (orig : option string) (ty : string)
    (sz : Z) (p : option FsPath) (owner : ObjectId) (parent : option ObjectId)
    (folder : bool) (k : File -> M B) (w : World) (r : Result B) (w' : World) :
  tidy w ->
  (folder = true -> find (isFolderNamed owner nm parent) (files w) = None) ->
  (forall nf, keepsTidy (k nf)) ->
  (nf <- newFile nm orig ty sz p owner parent folder ;; save nf ;; k nf) w = (r, w') ->
  tidy w'.
Proof.
  intros Hw Hfolder Hk. unfold bind, newFile, save, modify. cbn.
  rewrite (fresh_id_absent (proj1 Hw)).
  apply Hk. now apply tidy_insert.
Qed.

Lemma keepsTidy_ensureFolders (user : ObjectId) (dirs : list string) :
  forall currentParent currentPath folderMap,
    keepsTidy (ensureFolders user dirs currentParent currentPath folderMap).
Proof.
  induction dirs as [|d dirs IH]; intros cp path m; cbn [ensureFolders].
  - apply keepsTidy_ret.
  - destruct (folderMapGet m (extendPath path d)) as [known| |]; [apply IH|apply IH|].
    destruct cp as [parent|]; [|apply keepsTidy_throw].
    intros w r w' Hw. unfold bind at 1. unfold findOne, gets.
    destruct (find (isFolderNamed user d parent) (files w)) as [ex|] eqn:E.
    + apply IH. exact Hw.
    + apply keepsTidy_insert; [exact Hw|intros _; exact E|intros nf; apply IH].
Qed.

Lemma keepsTidy_ensureAllFolders (user : ObjectId) (parent : option ObjectId)
    (paths : list string) :
  forall folderMap, keepsTidy (ensureAllFolders user parent paths folderMap).
Proof.
  induction paths as [|p paths IH]; intros m; cbn [ensureAllFolders].
  - apply keepsTidy_ret.
  - apply keepsTidy_bind; [apply keepsTidy_ensureFolders|intros m'; apply IH].
Qed.

Lemma keepsTidy_placeFiles (user : ObjectId) (parent : option ObjectId)
    (folderPaths : option (list string)) (folderMap : FolderMap)
    (pending : list Multer.file) :
  forall i uploadedFiles totalSize,
    keepsTidy (placeFiles user parent folderPaths folderMap i pending
                          uploadedFiles totalSize).
Proof.
  induction pending as [|f pending IH]; intros i up total; cbn [placeFiles].
  - apply keepsTidy_ret.
  - apply keepsTidy_bind.
    { destruct folderPaths as [arr|]; [|apply keepsTidy_ret].
      destruct (nth_error arr i); [apply keepsTidy_ret|apply keepsTidy_throw]. }
    intros fileParent. apply keepsTidy_bind.
    { destruct fileParent; [apply keepsTidy_ret|apply keepsTidy_throw]. }
    intros fileParentFolder. apply keepsTidy_bind; [apply keepsTidy_gets|].
    intros [existing|].
    + apply keepsTidy_bind; [apply keepsTidy_logActivity|intros _; apply IH].
    + intros w r w' Hw. apply keepsTidy_insert; [exact Hw|discriminate|].
      intros nf. apply keepsTidy_bind; [apply keepsTidy_logActivity|intros _; apply IH].
Qed.

Lemma tidy_respond (body onError : M Response) (w : World) :
  keepsTidy body -> keepsTidy onError -> tidy w -> tidy (snd (respond body onError w)).
Proof.
  intros Hb He Hw. unfold respond.
  destruct (tryCatch body onError w) as [[r|] w'] eqn:E;
    exact (@keepsTidy_tryCatch _ body onError Hb He w _ w' Hw E).
Qed.

(** X24. Both upload routes keep folder names unique: whatever the request
    (a single file, a batch, a folder upload that creates the folders of its
    relative paths), and however it ends, if no two live folders of an account
    shared a name under one parent before, none do afterwards, and ids stay
    fresh. *)
Theorem uploads_keep_folder_names_unique (w : World) (user : ObjectId)
    (file : option Multer.file) (reqFiles : list Multer.file) (field : FolderField)
    (isFolderFlag : bool) (filePaths : PathsField) :
  idsBelowCounter w ->
  uniqueFolderNames (files w) ->
  tidy (snd (upload user file field w))
  /\ tidy (snd (uploadMultiple user reqFiles field isFolderFlag filePaths w)).
Proof.
  intros Hids Huniq. assert (Hw : tidy w) by now split. split.
  - unfold upload. destruct file as [f|].
    2:{ apply tidy_respond; [apply keepsTidy_ret|apply keepsTidy_throw|exact Hw]. }
    apply tidy_respond; [|apply keepsTidy_bind;
                           [apply keepsTidy_tryUnlink|intros _; apply keepsTidy_ret]
                         |exact Hw].
    unfold uploadBody. apply keepsTidy_bind.
    { destruct (normalizeParent field); [apply keepsTidy_gets|apply keepsTidy_ret]. }
    intros parentDoc.
    assert (Hrest : keepsTidy
              (stats <- statsFindOne user ;;
               if match stats with
                  | Some st => usedStorage st + Multer.size f >? quotaBytes
                  | None => false
                  end
               then unlinkSync (Multer.path f) ;; ret QuotaExceededError
               else
                 existingSame <- findOne (sameUpload user (Multer.originalname f)
                                            (Multer.size f) (normalizeParent field)) ;;
                 match existingSame with
                 | Some existing =>
                     updateUserStats user ;;
                     ret (FileJson 200 "File already exists, skipped duplicate"
                                   (infoOf existing))
                 | None =>
                     nf <- newFile (Multer.originalname f) (Some (Multer.originalname f))
                                   (getFileTypeFromMime (Multer.mimetype f)) (Multer.size f)
                                   (Some (Multer.path f)) user (normalizeParent field) false ;;
                     save nf ;;
                     updateUserStats user ;;
                     logActivity (uploadActivity nf (Multer.originalname f) user) ;;
                     ret (FileJson 201 "File uploaded successfully" (infoOf nf))
                 end)).
    { apply keepsTidy_bind; [apply keepsTidy_gets|]. intros stats.
      destruct (match stats with Some _ => _ | None => _ end).
      - apply keepsTidy_bind;
          [apply leavesFiles_keepsTidy, leavesFiles_unlinkSync|intros _; apply keepsTidy_ret].
      - apply keepsTidy_bind; [apply keepsTidy_gets|]. intros [existing|].
        + apply keepsTidy_bind; [apply keepsTidy_updateUserStats|intros _; apply keepsTidy_ret].
        + intros w0 r w' Hw0. apply keepsTidy_insert; [exact Hw0|discriminate|].
          intros nf. apply keepsTidy_bind; [apply keepsTidy_updateUserStats|intros _].
          apply keepsTidy_bind; [apply keepsTidy_logActivity|intros _; apply keepsTidy_ret]. }
    destruct (normalizeParent field) as [p|]; [destruct parentDoc|]; try exact Hrest.
    apply keepsTidy_bind;
      [apply leavesFiles_keepsTidy, leavesFiles_unlinkSync|intros _; apply keepsTidy_ret].
  - unfold uploadMultiple. destruct reqFiles as [|f0 rest].
    { apply tidy_respond; [apply keepsTidy_ret|apply keepsTidy_throw|exact Hw]. }
    apply tidy_respond; [|apply keepsTidy_bind;
                           [apply keepsTidy_forEach; intros a; apply keepsTidy_tryUnlink
                           |intros _; apply keepsTidy_ret]
                         |exact Hw].
    unfold uploadMultipleBody. apply keepsTidy_bind.
    { destruct (normalizeParent field); [apply keepsTidy_gets|apply keepsTidy_ret]. }
    intros parentDoc.
    assert (Hrest : keepsTidy
              (stats <- statsFindOne user ;;
               let currentUsed := match stats with Some st => usedStorage st | None => 0 end in
               let uploadSize := fold_left (fun sum f => sum + Multer.size f) (f0 :: rest) 0 in
               if currentUsed + uploadSize >? quotaBytes
               then
                 forEach (f0 :: rest) (fun f => unlinkIfExists (Multer.path f)) ;;
                 ret QuotaExceededError
               else
                 let folderPaths := if isFolderFlag then filePathArray filePaths else None in
                 folderMap <- match folderPaths with
                              | Some arr => ensureAllFolders user (normalizeParent field) arr []
                              | None => ret []
                              end ;;
                 placed <- placeFiles user (normalizeParent field) folderPaths folderMap 0
                                      (f0 :: rest) [] 0 ;;
                 updateUserStats user ;;
                 ret (FilesJson 201 (fst placed) (snd placed)))).
    { apply keepsTidy_bind; [apply keepsTidy_gets|]. intros stats. cbv zeta.
      destruct (_ >? quotaBytes).
      - apply keepsTidy_bind;
          [apply keepsTidy_forEach; intros a; apply keepsTidy_unlinkIfExists
          |intros _; apply keepsTidy_ret].
      - apply keepsTidy_bind.
        { destruct (if isFolderFlag then filePathArray filePaths else None);
            [apply keepsTidy_ensureAllFolders|apply keepsTidy_ret]. }
        intros m. apply keepsTidy_bind; [apply keepsTidy_placeFiles|intros placed].
        apply keepsTidy_bind; [apply keepsTidy_updateUserStats|intros _; apply keepsTidy_ret]. }
    destruct (normalizeParent field) as [p|]; [destruct parentDoc|]; try exact Hrest.
    apply keepsTidy_bind;
      [apply keepsTidy_forEach; intros a; apply keepsTidy_unlinkIfExists
      |intros _; apply keepsTidy_ret].
Qed.

Lemma uploads_keep_folder_names_unique_witness :
  let w := snd Scenario.freshUpload in
  let f := fst Scenario.freshUpload in
  tidy (snd (upload Scenario.alice (Some f) (FieldId 1) w))
  /\ tidy (snd (uploadMultiple Scenario.alice [f] (FieldId 1) true
                               (PathsString "Docs/b.txt") w)).
Proof.
  apply uploads_keep_folder_names_unique.
  - apply idsBelowCounter_checked. vm_compute. reflexivity.
  - apply uniqueFolderNames_checked. vm_compute. reflexivity.
Defined.

(** A folder upload whose top directory is called like a property that every
    object inherits is answered 500: the map seems to know the directory, what
    it holds for it is no id, and the query for the file's namesake throws.
    No node is created and the received bytes are removed. *)
Example folder_named_like_an_inherited_key :
  let received := multerStore Scenario.alice "x.txt" "text/plain" 5 "x-1.txt"
                              Scenario.tree in
  folderMapGet [] "constructor" = Inherited
  /\ uploadMultiple Scenario.alice [fst received] FieldRoot true
                    (PathsString "constructor/x.txt") (snd received)
     = (ErrorJson 500 "Server error while uploading files", Scenario.tree).
Proof. vm_compute. split; reflexivity. Qed.

(** ** What a public link delivers *)

(** X25. A public link never delivers the file: right after the share-link
    request, with the node out of the trash and its bytes in place, the public
    route answers 500, because the activity it logs before streaming has no
    [userId], which the schema requires; and no request to the public route,
    in any world, is answered with file bytes. *)
Theorem public_links_never_deliver (base token : string) (w : World)
    (user fileId : ObjectId) (f : File) (p : FsPath) (bytes : Z) :
  find (ownedBy user fileId) (files w) = Some f ->
  isFolder f = false -> inTrash f = false -> hasLink f = false ->
  Js.truthy (name f) = true ->
  path f = Some p -> statOf (disk w) p = Some (RegularFile bytes) ->
  (forall g, In g (files w) -> publicUrl g <> Some token) ->
  exists w1,
    shareLink base token user fileId w = (LinkJson (publicLink base token), w1)
    /\ publicDownload token w1
       = (ErrorJson 500 "Server error while downloading file", w1)
    /\ (forall t w', sendsBytes (fst (publicDownload t w')) = false).
Proof.
  intros Hf Hfile Hlive Hlink Hname Hp Hstat Hnew.
  set (linked := setLink f true (Some token)).
  set (w1 := afterWrite w linked
               (mkActivity "share_link" (Some (_id f)) (name f) (Some user))).
  exists w1.
  split; [exact (@shareLink_creates base token w user fileId f Hf Hfile Hlink Hname)|].
  split; [|intros t w'; apply public_download_never_streams].
  assert (Hfound : find (carriesToken token) (files w1) = Some linked).
  { change (files w1) with (replaceDoc linked (files w)).
    apply find_replaceDoc_only.
    - intros g Hg _. unfold carriesToken.
      destruct (optStrEqb (publicUrl g) (Some token)) eqn:E; [|reflexivity].
      apply optStrEqb_eq in E. now apply Hnew in E.
    - unfold carriesToken. cbn. rewrite String.eqb_refl, Hlive. reflexivity.
    - now apply found_exists with (ownedBy user fileId) f. }
  unfold publicDownload. open_route.
  change (fun f0 : File => (optStrEqb (publicUrl f0) (Some token) && negb (inTrash f0))%bool)
    with (carriesToken token).
  rewrite Hfound. unfold linked. cbn [isFolder path name originalName _id setLink].
  rewrite Hfile, Hp.
  change (disk w1) with (disk w). unfold existsSyncAt. rewrite Hstat. cbn [negb].
  unfold logActivity, validActivity. cbn. rewrite andb_false_r. reflexivity.
Qed.

Lemma public_links_never_deliver_witness :
  exists w1,
    shareLink Cases.base Cases.token Scenario.alice 6 Scenario.tree
    = (LinkJson (publicLink Cases.base Cases.token), w1)
    /\ publicDownload Cases.token w1
       = (ErrorJson 500 "Server error while downloading file", w1)
    /\ (forall t w', sendsBytes (fst (publicDownload t w')) = false).
Proof.
  apply (@public_links_never_deliver Cases.base Cases.token Scenario.tree Scenario.alice 6
           Scenario.aTxt (InArea "000000000000000000000007" "a-1700000000000-1.txt") 500); try reflexivity.
  intros g [<-|[<-|[<-|[<-|[<-|[<-|[]]]]]]]; discriminate.
Defined.

(** ** Downloading out of the trash *)




(** ** Who may end a share *)

(** X27. Only a recipient can end a share: a requester who is the user of
    no entry of the node, its owner included, is answered 403 and nothing
    changes; the node is looked up by id alone, so the answer is 404 exactly
    when no node carries the id, whoever asks. *)
Theorem removeShare_is_for_recipients (users : list User) (w : World)
    (user fileId : ObjectId) :
  (forall f, find (hasId fileId) (files w) = Some f -> ~ In (Some user) (sharedWith f) ->
     removeShare users user fileId w
     = (ErrorJson 403 "You are not a recipient of this file", w))
  /\ (find (hasId fileId) (files w) = None ->
      removeShare users user fileId w = (NotFoundError, w))
  /\ (fst (removeShare users user fileId w) = NotFoundError ->
      find (hasId fileId) (files w) = None).
Proof.
  split; [|split].
  - intros f Hf Hnot. unfold removeShare. open_route. rewrite Hf.
    rewrite findIndex_none; [reflexivity|].
    intros e He. now apply isAccount_populate with users (sharedWith f).
  - intros Hnone. unfold removeShare. open_route. now rewrite Hnone.
  - unfold removeShare. open_route.
    destruct (find (hasId fileId) (files w)) as [f|] eqn:Hf; [|reflexivity].
    destruct (findIndex _ _); cbn; [|discriminate].
    unfold save, modify, logActivity. cbn.
    destruct (existsb (hasId (_id f)) (files w)); cbn;
      destruct (validActivity _); cbn; discriminate.
Qed.

Lemma removeShare_is_for_recipients_witness :
  removeShare Cases.people Scenario.alice 6 Scenario.tree
  = (ErrorJson 403 "You are not a recipient of this file", Scenario.tree)
  /\ removeShare Cases.people Cases.bob 99 Scenario.tree = (NotFoundError, Scenario.tree).
Proof.
  split.
  - apply (proj1 (removeShare_is_for_recipients Cases.people Scenario.tree Scenario.alice 6)
                 Scenario.aTxt); [reflexivity|intros []].
  - apply (proj1 (proj2 (removeShare_is_for_recipients Cases.people Scenario.tree
                           Cases.bob 99))).
    reflexivity.
Defined.

(** ** Restoring next to a namesake *)

(** X28. Restoring does not look for namesakes either: once a folder is in the
    trash its name is free, a new folder of that name is accepted under the
    same parent, and restoring the trashed one then leaves two live folders of
    the account with the same name under the same parent. *)
Theorem restore_brings_back_a_namesake (w : World) (elapsed : Z) (user fileId : ObjectId) (f : File) :
  idsBelowCounter w ->
  uniqueFolderNames (files w) ->
  find (ownedBy user fileId) (files w) = Some f ->
  isFolder f = true -> inTrash f = false ->
  blank (name f) = false -> trim (name f) = name f ->
  let w1 := snd (trash elapsed user fileId w) in
  exists nf w2,
    createFolder user (Some (name f)) (parentFolder f) w1
    = (NodeJson 201 "Folder created successfully" nf, w2)
    /\ fst (restore user fileId w2) = MessageJson 200 "File restored successfully"
    /\ ~ uniqueFolderNames (files (snd (restore user fileId w2))).
Proof.
  intros Hids Huniq Hf Hfolder Hlive Hblank Htrim w1.
  pose proof (owned_has_id _ _ _ Hf) as (Hid & Hu & Hin).
  destruct (trash_effect w elapsed user fileId Hf) as (Hfiles1 & _ & _ & _).
  fold w1 in Hfiles1.
  set (trashed := setTrash f true (Some (clock w)) (Some (clock w + elapsed + retentionMillis))) in *.
  assert (Hnext1 : nextId w1 = nextId w).
  { unfold w1, trash. open_route. rewrite Hf.
    unfold save, modify, updateUserStats, logActivity. cbn.
    destruct (existsb _ (files w)); cbn; destruct (validActivity _); reflexivity. }
  assert (Hex : existsb (hasId (_id trashed)) (files w) = true).
  { now apply found_exists with (ownedBy user fileId) f. }
  assert (Hids1 : idsBelowCounter w1).
  { intros g Hg. rewrite Hnext1. rewrite Hfiles1 in Hg.
    apply in_replaceDoc_inv in Hg as [->|Hg]; [apply (Hids f Hin)|now apply Hids]. }
  assert (Hfree : find (isFolderNamed user (trim (name f)) (parentFolder f)) (files w1)
                  = None).
  { apply find_all_false. intros g Hg. rewrite Hfiles1 in Hg. rewrite Htrim.
    destruct (isFolderNamed user (name f) (parentFolder f) g) eqn:E; [exfalso|reflexivity].
    unfold isFolderNamed in E.
    apply andb_prop in E as [E Ht]. apply andb_prop in E as [E Hgf].
    apply andb_prop in E as [E Hp]. apply andb_prop in E as [Hn Hgu].
    apply String.eqb_eq in Hn. apply Nat.eqb_eq in Hgu. apply optEqb_eq in Hp.
    apply negb_true_iff in Ht.
    destruct (Nat.eq_dec (_id g) (_id trashed)) as [Eid|Eid].
    - apply in_replaceDoc_id in Hg; [|assumption]. subst g. discriminate Ht.
    - apply in_replaceDoc_inv in Hg as [->|Hg]; [discriminate Ht|].
      apply Eid. cbn. apply Huniq; trivial; congruence. }
  set (nf := createdFolder w1 user (name f) (parentFolder f)).
  set (w2 := afterInsert w1 nf (mkActivity "create_folder" (Some (nextId w1))
                                           (trim (name f)) (Some user))).
  exists nf, w2. split; [now apply createFolder_creates|].
  assert (Htr : find (fun g => (ownedBy user fileId g && inTrash g)%bool) (files w2)
                = Some trashed).
  { change (files w2) with (files w1 ++ [nf])%list. apply find_app_left.
    rewrite Hfiles1. apply find_replaceDoc_only; trivial.
    - intros g Hg Hne. unfold ownedBy, hasId. cbn in Hne.
      apply Nat.eqb_neq in Hne. rewrite <- Hid. now rewrite Hne.
    - unfold ownedBy, hasId. cbn. now rewrite Hid, Hu, !Nat.eqb_refl. }
  destruct (restore_effect w2 user fileId Htr) as (Hfiles3 & _ & Hresp).
  split.
  { apply Hresp. cbn. now apply truthy_not_blank in Hblank; rewrite Htrim in Hblank. }
  rewrite Hfiles3. intros Hboth.
  set (restored := setTrash trashed false None None) in *.
  assert (Hnf : In nf (replaceDoc restored (files w2))).
  { apply in_replaceDoc_other.
    - cbn. apply in_or_app. right. now left.
    - cbn. rewrite Hnext1. specialize (Hids f Hin). lia. }
  assert (Hre : In restored (replaceDoc restored (files w2))).
  { apply in_replaceDoc_self. cbn. rewrite existsb_app. rewrite Hfiles1.
    apply orb_true_iff. left. apply existsb_exists. exists trashed. split.
    - now apply in_replaceDoc_self.
    - unfold hasId. cbn. apply Nat.eqb_refl. }
  specialize (Hboth restored nf Hre Hnf). cbn in Hboth.
  rewrite Hnext1 in Hboth. specialize (Hids f Hin).
  assert (_id f = nextId w) by (apply Hboth; congruence). lia.
Qed.

Lemma restore_brings_back_a_namesake_witness :
  let w1 := snd (trash 2 Scenario.alice 4 Scenario.tree) in
  exists nf w2,
    createFolder Scenario.alice (Some "W") None w1
    = (NodeJson 201 "Folder created successfully" nf, w2)
    /\ fst (restore Scenario.alice 4 w2) = MessageJson 200 "File restored successfully"
    /\ ~ uniqueFolderNames (files (snd (restore Scenario.alice 4 w2))).
Proof.
  apply (@restore_brings_back_a_namesake Scenario.tree 2 Scenario.alice 4 Scenario.W);
    try reflexivity.
  - apply idsBelowCounter_checked. vm_compute. reflexivity.
  - apply uniqueFolderNames_checked. vm_compute. reflexivity.
Defined.

(** ** Notifications *)

Lemma truthy_app_r (a b : string) : Js.truthy b = true -> Js.truthy (a ++ b) = true.
Proof. destruct a; cbn; [trivial|reflexivity]. Qed.

Lemma truthy_quoted (s t : string) : Js.truthy (quoted s ++ t) = true.
Proof. reflexivity. Qed.

(** Every template belongs to a type the schema allows and yields a title
    and a message that are not empty. *)
Lemma template_valid (operation : string)
    (template : string -> string -> option string -> string * string)
    (a b : string) (c : option string) :
  notificationTemplates operation = Some template ->
  existsb (String.eqb operation) notificationTypes = true
  /\ Js.truthy (fst (template a b c)) = true
  /\ Js.truthy (snd (template a b c)) = true.
Proof.
  unfold notificationTemplates.
  repeat match goal with
         | |- context [String.eqb operation ?s] =>
             destruct (String.eqb_spec operation s) as [->|?]
         end; intros H; try discriminate; injection H as <-;
    (split; [reflexivity|split; [reflexivity|]]); cbn [snd];
    try apply truthy_quoted;
    apply truthy_app_r; reflexivity.
Qed.

Lemma notifyEach_appends (users : list User) (operation heading text : string)
    (file : File) (user : User) (usersToNotify : list ObjectId) :
  existsb (String.eqb operation) notificationTypes = true ->
  Js.truthy heading = true -> Js.truthy text = true ->
  forall inbox,
    notifyEach users operation heading text file user usersToNotify inbox
    = (inbox ++ map (fun u => mkNotification u operation heading text
                                             (Some (_id file)) (Some (userKey user)) false)
                    (reached users operation (userKey user) usersToNotify))%list.
Proof.
  intros Htype Htitle Hmessage.
  induction usersToNotify as [|u rest IH]; intros inbox; cbn [notifyEach reached filter map].
  - now rewrite app_nil_r.
  - destruct (Nat.eqb u (userKey user)); cbn [negb andb]; [apply IH|].
    destruct (shouldSendNotification users u operation); cbn [negb]; [|apply IH].
    unfold createNotification, validNotification.
    cbn [notificationType title message]. rewrite Htype, Htitle, Hmessage.
    cbn [andb]. rewrite IH, <- app_assoc. reflexivity.
Qed.

Lemma addUser_nodup (u : ObjectId) (set : list ObjectId) :
  NoDup set -> NoDup (addUser u set).
Proof.
  intros H. unfold addUser. destruct (existsb (Nat.eqb u) set) eqn:E; [assumption|].
  apply NoDup_app; [assumption|repeat constructor; intros []|].
  intros x Hx [<-|[]]. now apply (existsb_eqb_in _ _ E).
Qed.

Lemma getFileAccessUsers_nodup (users : list User) (db : list File) (fileId : ObjectId) :
  NoDup (getFileAccessUsers users db fileId).
Proof.
  unfold getFileAccessUsers. destruct (find (hasId fileId) db) as [file|]; [|constructor].
  assert (H : NoDup [userId file]) by (repeat constructor; intros []).
  revert H. generalize [userId file].
  induction (populate users (sharedWith file)) as [|[account|] l IH]; cbn; trivial.
  intros set H. apply IH. now apply addUser_nodup.
Qed.

Lemma in_addUser (u x : ObjectId) (set : list ObjectId) :
  In x (addUser u set) <-> x = u \/ In x set.
Proof.
  unfold addUser. destruct (existsb (Nat.eqb u) set) eqn:E.
  - split; [now right|]. intros [->|H]; [|assumption].
    apply existsb_exists in E as (y & Hy & Ey). apply Nat.eqb_eq in Ey. now subst.
  - rewrite in_app_iff. cbn. split; [intros [H|[H|[]]]|intros [H|H]]; auto.
Qed.

Lemma in_access_fold (l : list (option User)) :
  forall (set : list ObjectId) (x : ObjectId),
    In x (fold_left (fun set share =>
                       match share with
                       | Some account => addUser (userKey account) set
                       | None => set
                       end) l set) ->
    In x set \/ exists account, In (Some account) l /\ userKey account = x.
Proof.
  induction l as [|[account|] l IH]; cbn; intros set x Hx; [now left| |].
  - apply IH in Hx as [Hx|(a & Ha & E)]; [|right; exists a; auto].
    apply in_addUser in Hx as [->|Hx]; [right; exists account; auto|now left].
  - apply IH in Hx as [Hx|(a & Ha & E)]; [now left|right; exists a; auto].
Qed.

Lemma in_getFileAccessUsers (users : list User) (db : list File) (file : File)
    (x : ObjectId) :
  find (hasId (_id file)) db = Some file ->
  In x (getFileAccessUsers users db (_id file)) ->
  x = userId file
  \/ (In (Some x) (sharedWith file)
      /\ exists account, find (fun v => Nat.eqb (userKey v) x) users = Some account).
Proof.
  intros Hfile. unfold getFileAccessUsers. rewrite Hfile. intros Hx.
  apply in_access_fold in Hx as [[<-|[]]|(account & Hin & <-)]; [now left|right].
  apply in_map_iff in Hin as ([r|] & Hr & Hentry); [|discriminate].
  pose proof (found_by_key _ _ Hr) as E. rewrite E. split; [assumption|].
  now exists account.
Qed.

(** X29. Who is told about a file operation: for an operation that has a
    template, one unread notification is appended for each candidate account
    that is not the acting user and has not switched that kind of notification
    off, in the order of the candidates; the candidates are the accounts named
    by the caller or, when none is named, the owner of the stored node and the
    recipients it is shared with, each once.  The acting user is never
    notified, and an operation without a template notifies nobody. *)
Theorem notifyFileOperation_reaches (users : list User) (db : list File)
    (operation : string) (file : File) (user : User) (targetUsers : list ObjectId)
    (oldName : option string) (inbox : list Notification)
    (template : string -> string -> option string -> string * string) :
  notificationTemplates operation = Some template ->
  find (hasId (_id file)) db = Some file ->
  let candidates := match targetUsers with
                    | [] => getFileAccessUsers users db (_id file)
                    | _ => targetUsers
                    end in
  let told := reached users operation (userKey user) candidates in
  let heading := fst (template (username user) (name file) oldName) in
  let text := snd (template (username user) (name file) oldName) in
  notifyFileOperation users db operation file user targetUsers oldName inbox
  = (inbox ++ map (fun u => mkNotification u operation heading text
                                           (Some (_id file)) (Some (userKey user)) false)
                  told)%list
  /\ ~ In (userKey user) told
  /\ (forall u, In u told -> shouldSendNotification users u operation = true)
  /\ (targetUsers = [] ->
      NoDup told
      /\ forall u, In u told ->
           u = userId file
           \/ (In (Some u) (sharedWith file)
               /\ exists account,
                    find (fun v => Nat.eqb (userKey v) u) users = Some account))
  /\ (forall other, notificationTemplates other = None ->
        notifyFileOperation users db other file user targetUsers oldName inbox = inbox).
Proof.
  intros Htemplate Hfile candidates told heading text.
  destruct (@template_valid operation template (username user) (name file) oldName
              Htemplate)
    as (Htype & Htitle & Hmessage).
  split; [|split; [|split; [|split]]].
  - unfold notifyFileOperation. rewrite Htemplate.
    subst heading text told candidates.
    destruct (template (username user) (name file) oldName) as [ti me].
    cbn [fst snd] in *. now apply notifyEach_appends.
  - intros H. apply filter_In in H as [_ H]. now rewrite Nat.eqb_refl in H.
  - intros u H. apply filter_In in H as [_ H]. now apply andb_prop in H.
  - intros ->. split.
    + apply NoDup_filter, getFileAccessUsers_nodup.
    + intros u H. apply filter_In in H as [H _]. now apply in_getFileAccessUsers with db.
  - intros other Hnone. unfold notifyFileOperation. now rewrite Hnone.
Qed.

Lemma notifyFileOperation_reaches_witness :
  let alice := mkUser Scenario.alice "alice@example.org" "alice" None in
  notifyFileOperation Cases.people [Cases.sharedTxt] "file_moved" Cases.sharedTxt alice
                      [] None []
  = [mkNotification Cases.bob "file_moved" "File Moved"
                    ("alice moved " ++ quoted "a.txt")
                    (Some 6%nat) (Some Scenario.alice) false]
  /\ notifyFileOperation Cases.people [Cases.sharedTxt] "file_edited" Cases.sharedTxt alice
                         [] None []
     = [].
Proof.
  destruct (@notifyFileOperation_reaches Cases.people [Cases.sharedTxt] "file_moved"
              Cases.sharedTxt (mkUser Scenario.alice "alice@example.org" "alice" None)
              [] None []
              (fun moverName fileName _ =>
                 ("File Moved", moverName ++ " moved " ++ quoted fileName))
              eq_refl eq_refl) as (Hrun & _ & _ & _ & Hnone).
  split; [exact Hrun|]. apply Hnone. reflexivity.
Defined.

(** X30. What the notification says: the one call site passes the acting
    user's name, the file's name and the old name, in this order, to every
    template.  The templates for uploads and deletions take the file name as
    their first parameter, so their message quotes the acting user's name; the
    template for renames takes the old name second and the new name third, so
    its message puts the file's current name where the old one belongs and the
    old name (or the text undefined when none is passed) where the new one
    belongs. *)
Theorem notifyFileOperation_words (users : list User) (db : list File)
    (operation : string) (file : File) (user : User) (targetUsers : list ObjectId)
    (oldName : option string) (inbox : list Notification) :
  exists added,
    notifyFileOperation users db operation file user targetUsers oldName inbox
    = (inbox ++ added)%list
    /\ (operation = "file_uploaded" ->
        Forall (fun n => message n
                         = quoted (username user) ++ " has been uploaded successfully")
               added)
    /\ (operation = "file_deleted" ->
        Forall (fun n => message n
                         = quoted (username user) ++ " has been moved to trash")
               added)
    /\ (operation = "file_renamed" ->
        Forall (fun n => message n
                         = username user ++ " renamed " ++ quoted (name file) ++ " to "
                           ++ quoted (interpolate oldName))
               added).
Proof.
  destruct (notificationTemplates operation) as [template|] eqn:Htemplate.
  2:{ exists []. unfold notifyFileOperation. rewrite Htemplate, app_nil_r.
      split; [reflexivity|].
      repeat split; intros ->; discriminate Htemplate. }
  destruct (@template_valid operation template (username user) (name file) oldName
              Htemplate)
    as (Htype & Htitle & Hmessage).
  exists (map (fun u => mkNotification u operation
                            (fst (template (username user) (name file) oldName))
                            (snd (template (username user) (name file) oldName))
                            (Some (_id file)) (Some (userKey user)) false)
              (reached users operation (userKey user)
                 match targetUsers with
                 | [] => getFileAccessUsers users db (_id file)
                 | _ => targetUsers
                 end)).
  split.
  - unfold notifyFileOperation. rewrite Htemplate.
    destruct (template (username user) (name file) oldName) as [ti me].
    cbn [fst snd] in *. now apply notifyEach_appends.
  - repeat split; intros ->; injection Htemplate as <-;
      apply Forall_forall; intros n Hn; apply in_map_iff in Hn as (u & <- & _);
      reflexivity.
Qed.

(** Alice renames the shared a.txt: Bob is told, Carol has the file updates
    switched off, and the message names the current name first. *)
Example rename_notification :
  notifyFileOperation Cases.people [Cases.sharedTxt] "file_renamed" Cases.sharedTxt
                      (mkUser Scenario.alice "alice@example.org" "alice" None)
                      [] (Some "draft.txt") []
  = [mkNotification Cases.bob "file_renamed" "File Renamed"
                    ("alice renamed " ++ quoted "a.txt" ++ " to " ++ quoted "draft.txt")
                    (Some 6%nat) (Some Scenario.alice) false].
Proof. reflexivity. Qed.
